(** * tagfix: the tag translation layer of the audio metadata editor

  A shallow embedding of [tagfix.py]: extension dispatch
  ([load_audio_file]), the canonical-tag translator ([get_tag_value],
  [set_tag_value]), the cover embedding step of [process_album_cover]
  and the directory traversal ([find_audio_files]), together with the
  parts of the Python runtime and of the mutagen objects those
  functions touch.

  Python strings are modelled as [string]: sequences of characters with
  code points below 256 (this covers the program's own literals,
  including the MP4 atom names that start with code point 169). *)

From Stdlib Require Import ZArith Ascii String List Sorted Permutation.
From stdpp Require Import base option list gmap strings sorting pretty.

Local Open Scope Z_scope.

(** ** Python runtime: the string operations the program relies on *)

Module Py.

Definition ord (c : ascii) : Z := Z.of_N (N_of_ascii c).
Definition chr (n : Z) : ascii := ascii_of_N (Z.to_N n).

(** [str.lower] on one character: A-Z and the Latin-1 capitals
    (192..222 except the multiplication sign 215) move up by 32. *)
Definition lower_char (c : ascii) : ascii :=
  let n := ord c in
  if ((65 <=? n) && (n <=? 90)) || ((192 <=? n) && (n <=? 222) && negb (n =? 215))
  then chr (n + 32) else c.

Fixpoint lower (s : string) : string :=
  match s with
  | EmptyString => EmptyString
  | String c s' => String (lower_char c) (lower s')
  end.

(** [str.isspace] for one character (also the class [\s] of [re]). *)
Definition isspace (c : ascii) : bool :=
  let n := ord c in
  ((9 <=? n) && (n <=? 13)) || ((28 <=? n) && (n <=? 32)) || (n =? 133) || (n =? 160).

Fixpoint lstrip (p : ascii -> bool) (s : string) : string :=
  match s with
  | EmptyString => EmptyString
  | String c s' => if p c then lstrip p s' else s
  end.

Definition rstrip (p : ascii -> bool) (s : string) : string :=
  String.rev (lstrip p (String.rev s)).

(** [s.strip()] with [p := isspace]; [s.strip(chars)] with [p] the
    membership test of [chars]. *)
Definition strip (p : ascii -> bool) (s : string) : string :=
  rstrip p (lstrip p s).

Definition is_char (c : ascii) : ascii -> bool := fun a => Ascii.eqb a c.

Fixpoint startswith (pre s : string) : bool :=
  match pre, s with
  | EmptyString, _ => true
  | String a pre', String b s' => Ascii.eqb a b && startswith pre' s'
  | String _ _, EmptyString => false
  end.

(** [s.rfind(c)]: index of the last occurrence, -1 when there is none. *)
Fixpoint rfind_from (c : ascii) (s : string) (i last : Z) : Z :=
  match s with
  | EmptyString => last
  | String a s' => rfind_from c s' (i + 1) (if Ascii.eqb a c then i else last)
  end.
Definition rfind (c : ascii) (s : string) : Z := rfind_from c s 0 (-1).

(** [s.find(c, start)]: index of the first occurrence at or after
    [start], -1 when there is none. *)
Fixpoint find_from (c : ascii) (s : string) (i start : Z) : Z :=
  match s with
  | EmptyString => -1
  | String a s' =>
      if (start <=? i) && Ascii.eqb a c then i else find_from c s' (i + 1) start
  end.
Definition find (c : ascii) (s : string) (start : Z) : Z := find_from c s 0 start.

(** Slices [s[:i]] and [s[i:]] for [0 <= i]. *)
Definition slice_to (s : string) (i : Z) : string := String.substring 0 (Z.to_nat i) s.
Definition slice_from (s : string) (i : Z) : string :=
  String.substring (Z.to_nat i) (String.length s - Z.to_nat i) s.

(** [s.split(sep)] for a one-character separator. *)
Fixpoint split_go (sep : ascii) (s : string) (cur : string) : list string :=
  match s with
  | EmptyString => [String.rev cur]
  | String a s' =>
      if Ascii.eqb a sep then String.rev cur :: split_go sep s' EmptyString
      else split_go sep s' (String a cur)
  end.
Definition split (sep : ascii) (s : string) : list string := split_go sep s EmptyString.

(** White space for [int]: the characters of C's [isspace], and the two
    characters above 127 that are Unicode white space (they are turned
    into spaces before the digits are parsed); unlike [str.isspace], not
    the separators 28..31. *)
Definition int_space (c : ascii) : bool :=
  let n := ord c in
  ((9 <=? n) && (n <=? 13)) || (n =? 32) || (n =? 133) || (n =? 160).

(** [int(s)] for a string: surrounding white space is dropped, one sign
    is accepted, and single underscores may separate digits.  [None]
    stands for [ValueError].  (The interpreter's optional limit on the
    number of digits is not modelled.) *)
Fixpoint int_digits (s : string) (acc : Z) (after_digit : bool) : option Z :=
  match s with
  | EmptyString => if after_digit then Some acc else None
  | String c s' =>
      match Ascii.is_nat c with
      | Some d => int_digits s' (10 * acc + Z.of_nat d) true
      | None =>
          if Ascii.eqb c "_" && after_digit then int_digits s' acc false else None
      end
  end.

Definition int (s : string) : option Z :=
  match strip int_space s with
  | String "+" ds => int_digits ds 0 false
  | String "-" ds => Z.opp <$> int_digits ds 0 false
  | ds => int_digits ds 0 false
  end.

(** [all(p(c) for c in s)] *)
Fixpoint all_chars (p : ascii -> bool) (s : string) : bool :=
  match s with
  | EmptyString => true
  | String c s' => p c && all_chars p s'
  end.

(** [sep not in s] *)
Definition free_of (sep : ascii) (s : string) : bool :=
  all_chars (fun c => negb (Ascii.eqb c sep)) s.

(** [str(n)] for an integer. *)
Definition str_int (n : Z) : string := pretty n.

(** ['%0wd' % n] for a non-negative [n]. *)
Fixpoint zeros (k : nat) : string :=
  match k with O => EmptyString | S k' => String "0" (zeros k') end.
Definition zero_pad (w : nat) (n : Z) : string :=
  let s := str_int n in zeros (w - String.length s) +:+ s.

(** [dict.get] on a table written as a dict literal with distinct keys. *)
Fixpoint dict_get {V} (d : list (string * V)) (k : string) : option V :=
  match d with
  | [] => None
  | (k', v) :: d' => if String.eqb k' k then Some v else dict_get d' k
  end.

(** ** posixpath *)

(** The loop of [genericpath._splitext] that skips leading dots:
    [n] counts the remaining iterations [dotIndex - filenameIndex]. *)
Fixpoint has_non_dot (p : string) (filenameIndex : nat) (n : nat) : bool :=
  match n with
  | O => false
  | S n' =>
      match String.get filenameIndex p with
      | Some c => if Ascii.eqb c "." then has_non_dot p (S filenameIndex) n' else true
      | None => true
      end
  end.

Definition splitext (p : string) : string * string :=
  let sepIndex := rfind "/" p in
  let dotIndex := rfind "." p in
  if (dotIndex >? sepIndex)
     && has_non_dot p (Z.to_nat (sepIndex + 1)) (Z.to_nat (dotIndex - (sepIndex + 1)))
  then (slice_to p dotIndex, slice_from p dotIndex)
  else (p, EmptyString).

(** [a.endswith('/')] *)
Fixpoint endswith_sep (a : string) : bool :=
  match a with
  | EmptyString => false
  | String c a' =>
      match a' with
      | EmptyString => Ascii.eqb c "/"
      | String _ _ => endswith_sep a'
      end
  end.

(** [os.path.join(a, p)] for two components. *)
Definition join (a p : string) : string :=
  if startswith "/" p then p
  else if String.eqb a "" || endswith_sep a then a +:+ p
  else a +:+ "/" +:+ p.

Definition isabs (p : string) : bool := startswith "/" p.

End Py.

(** ** Exceptions and fallible results *)

Inductive exn :=
| TypeError (msg : string)
| AttributeError (msg : string)
| ValueError (msg : string)
| KeyError (key : string)
| IndexError (msg : string).

(** [str(e)], as the f-string of the warning prints it. *)
Definition str_exn (e : exn) : string :=
  match e with
  | TypeError m | AttributeError m | ValueError m | IndexError m => m
  | KeyError k => "'" +:+ k +:+ "'"
  end.


Inductive result (A : Type) :=
| Ok (a : A)
| Raise (e : exn).
Arguments Ok {A} a.
Arguments Raise {A} e.

#[global] Instance result_ret : MRet result := fun A a => Ok a.
#[global] Instance result_bind : MBind result := fun A B f r =>
  match r with Ok a => f a | Raise e => Raise e end.

(** [k in d] for a container whose [__contains__] is [DictMixin]'s: the
  item is fetched and only [KeyError] means absent. *)
Definition has_key {A} (item : result A) : result bool :=
  match item with
  | Ok _ => Ok true
  | Raise (KeyError _) => Ok false
  | Raise e => Raise e
  end.

(** ** The mutagen objects *)

Module Mutagen.

(** *** ID3 frames *)

Record ID3TimeStamp := {
  year : option Z; month : option Z; day : option Z;
  hour : option Z; minute : option Z; second : option Z }.

(** [re.compile('[-T:/.]|\s+').split]: one separator character, or one
    run of white space, ends a piece.  [in_ws] is set while a run of
    white space is being consumed. *)
Definition ts_sep (c : ascii) : bool :=
  Ascii.eqb c "-" || Ascii.eqb c "T" || Ascii.eqb c ":" || Ascii.eqb c "/" || Ascii.eqb c ".".

Fixpoint ts_split (s : string) (cur : string) (in_ws : bool) : list string :=
  match s with
  | EmptyString => [String.rev cur]
  | String c s' =>
      if Py.isspace c then
        (if in_ws then ts_split s' cur true
         else String.rev cur :: ts_split s' EmptyString true)
      else if ts_sep c then String.rev cur :: ts_split s' EmptyString false
      else ts_split s' (String c cur) false
  end.

(** [ID3TimeStamp.set_text]: the first six pieces, each through [int],
    a piece that is no integer giving [None]. *)
Definition set_text (text : string) : ID3TimeStamp :=
  let parts := take 6 (ts_split (text +:+ ":::::") EmptyString false) in
  let field (i : nat) := parts !! i ≫= Py.int in
  {| year := field 0%nat; month := field 1%nat; day := field 2%nat;
     hour := field 3%nat; minute := field 4%nat; second := field 5%nat |}.

(** [ID3TimeStamp.get_text]: the fields up to the first [None], each
    zero-padded and followed by its separator; the last character is
    dropped. *)
Fixpoint ts_pieces (parts : list (option Z)) (widths : list nat) (seps : list ascii) : string :=
  match parts, widths, seps with
  | Some p :: ps, w :: ws, s :: ss => Py.zero_pad w p +:+ String s (ts_pieces ps ws ss)
  | _, _, _ => EmptyString
  end.

Definition get_text (t : ID3TimeStamp) : string :=
  let joined :=
    ts_pieces [year t; month t; day t; hour t; minute t; second t]
              [4; 2; 2; 2; 2; 2]%nat
              ["-"; "-"; " "; ":"; ":"; "x"]%char in
  String.substring 0 (String.length joined - 1) joined.

Inductive FrameClass := TIT2 | TPE1 | TALB | TPE2 | TCON | TDRC | TRCK | TPOS | COMM.

Definition class_name (c : FrameClass) : string :=
  match c with
  | TIT2 => "TIT2" | TPE1 => "TPE1" | TALB => "TALB" | TPE2 => "TPE2"
  | TCON => "TCON" | TDRC => "TDRC" | TRCK => "TRCK" | TPOS => "TPOS"
  | COMM => "COMM"
  end.

(** Frames, by the shape of their fields: text frames carry a list of
    strings, [TDRC] a list of time stamps, [COMM] a language and a
    description besides, [APIC] a picture; any other frame has no
    [text] attribute. *)
Inductive Frame :=
| TextFrame (id : string) (encoding : Z) (text : list string)
| TimeStampTextFrame (id : string) (encoding : Z) (text : list ID3TimeStamp)
| CommFrame (encoding : Z) (lang desc : string) (text : list string)
| ApicFrame (encoding : Z) (mime : string) (type : Z) (desc : string) (data : string)
| OtherFrame (id : string) (data : string).

Definition NUL : ascii := Py.chr 0.

(** [cls(encoding=e, text=value)] with [value] a string: the text is
    split at the frame's separator (the null character, or the comma in
    a time stamp frame). *)
Definition new_text_frame (cls : FrameClass) (encoding : Z) (value : string) : Frame :=
  match cls with
  | TDRC => TimeStampTextFrame "TDRC" encoding (set_text <$> Py.split "," value)
  | COMM => CommFrame encoding "XXX" "" (Py.split NUL value)
  | _ => TextFrame (class_name cls) encoding (Py.split NUL value)
  end.

(** [COMM(encoding=e, lang=l, desc=d, text=value)] *)
Definition new_comm_frame (encoding : Z) (lang desc value : string) : Frame :=
  CommFrame encoding lang desc (Py.split NUL value).

(** [str(frame.text[0])] *)
Definition text0 (f : Frame) : result string :=
  match f with
  | TextFrame _ _ text | CommFrame _ _ _ text =>
      match text with
      | t :: _ => Ok t
      | [] => Raise (IndexError "list index out of range")
      end
  | TimeStampTextFrame _ _ text =>
      match text with
      | t :: _ => Ok (get_text t)
      | [] => Raise (IndexError "list index out of range")
      end
  | ApicFrame _ _ _ _ _ | OtherFrame _ _ =>
      Raise (AttributeError "object has no attribute 'text'")
  end.

Definition HashKey (f : Frame) : string :=
  match f with
  | TextFrame id _ _ | TimeStampTextFrame id _ _ | OtherFrame id _ => id
  | CommFrame _ lang desc _ => "COMM:" +:+ desc +:+ ":" +:+ lang
  | ApicFrame _ _ _ desc _ => "APIC:" +:+ desc
  end.

(** The ID3 tag: a dictionary from hash keys to frames. *)
Abbreviation ID3 := (gmap string Frame).

(** [tags.add(frame)]: the frame is stored under its hash key. *)
Definition ID3_add (frame : Frame) (tags : ID3) : ID3 := <[HashKey frame := frame]> tags.

(** *** MP4 atoms *)

Inductive MP4Value :=
| MP4Text (values : list string)
| MP4Pairs (values : list (Z * Z)).

Record MP4Cover := { cover_data : string; imageformat : Z }.
Definition FORMAT_JPEG : Z := 13.

(** The MP4 tag: a dictionary from atom names to value lists.  The image
    atom ['covr'], the only one holding [MP4Cover] values, is kept as a
    field of its own; other atoms the program never names (free-form,
    tempo, flags) are left out. *)
Record MP4Tags := {
  atoms : gmap string MP4Value;
  covr : option (list MP4Cover) }.

(** *** Vorbis comments (FLAC, Ogg Vorbis, Ogg Opus) *)

Abbreviation VCommentDict := (list (string * string)).

Definition valid_key_char (c : ascii) : bool :=
  negb ((Py.ord c <? Py.ord " ") || (Py.ord "}" <? Py.ord c) || Ascii.eqb c "=").

Definition is_valid_key (key : string) : bool :=
  Py.all_chars valid_key_char key && negb (String.eqb key "").

Definition key_matches (key : string) (kv : string * string) : bool :=
  String.eqb (Py.lower kv.1) (Py.lower key).

Definition vc_getitem (d : VCommentDict) (key : string) : result (list string) :=
  if negb (is_valid_key key) then Raise (ValueError "")
  else
    match snd <$> List.filter (key_matches key) d with
    | [] => Raise (KeyError (Py.lower key))
    | values => Ok values
    end.

(** [d[key] = values]: the old entries of the key go, the new ones are
    appended. *)
Definition vc_setitem (d : VCommentDict) (key : string) (values : list string)
  : result VCommentDict :=
  if negb (is_valid_key key) then Raise (ValueError "")
  else Ok (List.filter (fun kv => negb (key_matches key kv)) d
           ++ ((fun v => (key, v)) <$> values)).

Record Picture := {
  pic_type : Z; pic_mime : string; pic_desc : string; pic_data : string }.

(** *** ASF attributes (WMA) *)

Inductive ASFAttribute :=
| ASFUnicodeAttribute (value : string)
| ASFBoolAttribute (value : bool)
| ASFDWordAttribute (value : Z)
| ASFByteArrayAttribute (value : string).

Definition str_attr (a : ASFAttribute) : string :=
  match a with
  | ASFUnicodeAttribute v => v
  | ASFBoolAttribute v => if v then "True" else "False"
  | ASFDWordAttribute v => Py.str_int v
  | ASFByteArrayAttribute v =>
      "[binary data (" +:+ pretty (String.length v) +:+ " bytes)]"
  end.

Abbreviation ASFTags := (list (string * ASFAttribute)).

Definition asf_getitem (d : ASFTags) (key : string) : result (list ASFAttribute) :=
  match snd <$> List.filter (fun kv => String.eqb kv.1 key) d with
  | [] => Raise (KeyError key)
  | values => Ok values
  end.

(** [d[key] = values] with string values: each becomes a Unicode
    attribute. *)
Definition asf_setitem (d : ASFTags) (key : string) (values : list string) : ASFTags :=
  List.filter (fun kv => negb (String.eqb kv.1 key)) d
  ++ ((fun v => (key, ASFUnicodeAttribute v)) <$> values).

(** *** File objects *)

Inductive FileClass := FLAC | MP3 | MP4 | OggVorbis | OggOpus | ASF | WAVE.

(** What [load_audio_file] hands out: one object per file class, or
    [None].  [tags] is [None] on a file that has no tag container yet
    (MP3, WAVE, MP4, FLAC); Ogg and ASF objects always carry one. *)
Inductive handle :=
| NoneObject
| MP3File (tags : option ID3)
| WAVEFile (tags : option ID3)
| MP4File (tags : option MP4Tags)
| FLACFile (tags : option VCommentDict) (pictures : list Picture)
| OggVorbisFile (tags : VCommentDict)
| OggOpusFile (tags : VCommentDict)
| ASFFile (tags : ASFTags).

Definition class_of (a : handle) : option FileClass :=
  match a with
  | NoneObject => None
  | MP3File _ => Some MP3 | WAVEFile _ => Some WAVE | MP4File _ => Some MP4
  | FLACFile _ _ => Some FLAC | OggVorbisFile _ => Some OggVorbis
  | OggOpusFile _ => Some OggOpus | ASFFile _ => Some ASF
  end.

(** [audio.tags is not None] *)
Definition has_tags (a : handle) : bool :=
  match a with
  | NoneObject | MP3File None | WAVEFile None | MP4File None | FLACFile None _ => false
  | _ => true
  end.

End Mutagen.

Import Mutagen.

(** ** The operating system, as the program sees it *)

(** A directory tree as [os.walk] lists it: plain entries, directories,
    and symbolic links to directories (listed among the directory names
    but not descended into). *)
#[warnings="-register-all"]
Inductive node :=
| File
| Dir (entries : list (string * node))
| DirLink.

(** Entry names are file names: none contains the separator. *)
Fixpoint names_ok (n : node) : bool :=
  match n with
  | Dir entries =>
      forallb (fun e => Py.free_of "/" (fst e) && names_ok (snd e)) entries
  | File | DirLink => true
  end.

Record OS := {
  (** home directory of a user; the empty name stands for the current
      user ([HOME], or the password database) *)
  userhome : string -> option string;
  (** what a path refers to once symbolic links are followed, if
      anything *)
  resolve : string -> option node;
  (** the mutagen constructor of a file class, applied to a path *)
  open_audio : FileClass -> string -> result handle }.

(** [os.path.expanduser] *)
Definition expanduser (os : OS) (path : string) : string :=
  if negb (Py.startswith "~" path) then path
  else
    let i := Py.find "/" path 1 in
    let i := if i <? 0 then Z.of_nat (String.length path) else i in
    match userhome os (String.substring 1 (Z.to_nat i - 1) path) with
    | None => path
    | Some home =>
        let r := Py.rstrip (Py.is_char "/") home +:+ Py.slice_from path i in
        if String.eqb r "" then "/" else r
    end.

Definition exists_ (os : OS) (p : string) : bool := bool_decide (is_Some (resolve os p)).

Definition isdir (os : OS) (p : string) : bool :=
  match resolve os p with Some (Dir _) => true | _ => false end.

Definition is_dir_entry (e : string * node) : bool :=
  match e.2 with File => false | _ => true end.

(** [os.walk(top)], top down: the triple of the directory itself, then
    the walks of its sub-directories. *)
Fixpoint walk (top : string) (n : node) {struct n}
  : list (string * list string * list string) :=
  match n with
  | Dir entries =>
      (top, map fst (List.filter is_dir_entry entries),
            map fst (List.filter (fun e => negb (is_dir_entry e)) entries))
      :: flat_map (fun e => walk (Py.join top (fst e)) (snd e)) entries
  | File | DirLink => []
  end.

(** [sorted] on strings. *)
Definition sorted (l : list string) : list string := merge_sort String.le l.

(** ** Settings *)

Definition AVAILABLE_TAGS : list (string * string) :=
  [("1", "cover"); ("2", "artist"); ("3", "albumartist"); ("4", "album");
   ("5", "title"); ("6", "genre"); ("7", "date"); ("8", "tracknumber");
   ("9", "discnumber"); ("10", "comment")].

Definition GLOBAL_TAGS : list string :=
  ["artist"; "albumartist"; "album"; "date"; "genre"].

Definition SUPPORTED_EXTENSIONS : list string :=
  [".flac"; ".mp3"; ".m4a"; ".ogg"; ".opus"; ".wma"; ".wav"].

Definition ID3_TAG_MAP : list (string * FrameClass) :=
  [("title", TIT2); ("artist", TPE1); ("album", TALB); ("albumartist", TPE2);
   ("genre", TCON); ("date", TDRC); ("tracknumber", TRCK); ("discnumber", TPOS);
   ("comment", COMM)].

(** The character written [\xa9] in the atom names. *)
Definition xa9 : ascii := Py.chr 169.

Definition MP4_TAG_MAP : list (string * string) :=
  [("title", String xa9 "nam"); ("artist", String xa9 "ART");
   ("album", String xa9 "alb"); ("albumartist", "aART");
   ("genre", String xa9 "gen"); ("date", String xa9 "day");
   ("tracknumber", "trkn"); ("discnumber", "disk");
   ("comment", String xa9 "cmt")].

Definition in_list (x : string) (l : list string) : bool :=
  existsb (String.eqb x) l.

(** The extension every entry point dispatches on:
    [os.path.splitext(filepath.lower())[1]]. *)
Definition ext_of (filepath : string) : string := (Py.splitext (Py.lower filepath)).2.

(** ** Audio utilities *)

(** The test of the inner loop of [find_audio_files]. *)
Definition is_audio_name (file : string) : bool :=
  in_list (ext_of file) SUPPORTED_EXTENSIONS.

Definition collect (triples : list (string * list string * list string)) : list string :=
  flat_map (fun '(root, _, files) =>
              map (Py.join root) (List.filter is_audio_name files)) triples.

Definition quote : ascii := Py.chr 34.

(** The first statement of [find_audio_files]: the directory actually
    searched. *)
Definition search_root (os : OS) (base_dir : string) : string :=
  expanduser os
    (Py.strip (Py.is_char "'") (Py.strip (Py.is_char quote) (Py.strip Py.isspace base_dir))).

(** [find_audio_files]: the list returned and the lines printed. *)
Definition find_audio_files (os : OS) (base_dir : string) : list string * list string :=
  let base_dir := search_root os base_dir in
  if negb (exists_ os base_dir) then
    ([], ["Error: Directory '" +:+ base_dir +:+ "' does not exist."])
  else if negb (isdir os base_dir) then
    ([], ["Error: '" +:+ base_dir +:+ "' is not a directory."])
  else
    let audio_files :=
      match resolve os base_dir with
      | Some n => collect (walk base_dir n)
      | None => []
      end in
    (sorted audio_files, []).

(** The [if]/[elif] chain of [load_audio_file]: the class whose
    constructor is called for an extension. *)
Definition loader (ext : string) : option FileClass :=
  if String.eqb ext ".flac" then Some FLAC
  else if String.eqb ext ".mp3" then Some MP3
  else if String.eqb ext ".m4a" then Some MP4
  else if String.eqb ext ".ogg" then Some OggVorbis
  else if String.eqb ext ".opus" then Some OggOpus
  else if String.eqb ext ".wma" then Some ASF
  else if String.eqb ext ".wav" then Some WAVE
  else None.

(** [load_audio_file]: the object returned ([NoneObject] for [None]) and
    the lines printed. *)
Definition load_audio_file (os : OS) (filepath : string) : handle * list string :=
  let ext := ext_of filepath in
  match loader ext with
  | Some cls =>
      match open_audio os cls filepath with
      | Ok a => (a, [])
      | Raise e => (NoneObject, ["Error loading file: " +:+ str_exn e])
      end
  | None => (NoneObject, [])
  end.

(** ** The tag translator *)

(** Every call site passes the object that [load_audio_file] returned for
    the same path, so the branch taken and the class of the object agree
    (or the object is [None]).  An object of another class in a branch is
    outside the program's reach; the model answers it with this error. *)
Definition foreign {A} : result A := Raise (TypeError "object of another file class").

Definition none_has_no (attr : string) : exn :=
  AttributeError ("'NoneType' object has no attribute '" +:+ attr +:+ "'").

Definition is_number_tag (tag : string) : bool := in_list tag ["tracknumber"; "discnumber"].

(** [str((a, b))] *)
Definition str_pair (p : Z * Z) : string :=
  "(" +:+ Py.str_int p.1 +:+ ", " +:+ Py.str_int p.2 +:+ ")".

(** The [.mp3]/[.wav] branch of [get_tag_value]. *)
Definition get_id3 (audio : handle) (tag : string) : result (option string) :=
  match audio with
  | NoneObject | MP3File None | WAVEFile None => Ok None
  | MP3File (Some tags) | WAVEFile (Some tags) =>
      match Py.dict_get ID3_TAG_MAP tag with
      | Some tag_class =>
          match tags !! class_name tag_class with
          | Some frame => s ← text0 frame; Ok (Some s)
          | None => Ok None
          end
      | None => Ok None
      end
  | _ => foreign
  end.

(** [str(value[0][0]) if value and value[0] else None] *)
Definition first_of_first (value : MP4Value) : option string :=
  match value with
  | MP4Pairs ((n, _) :: _) => Some (Py.str_int n)
  | MP4Text (String c _ :: _) => Some (String c EmptyString)
  | _ => None
  end.

(** [str(value[0]) if value else None] *)
Definition first_value (value : MP4Value) : option string :=
  match value with
  | MP4Text (s :: _) => Some s
  | MP4Pairs (p :: _) => Some (str_pair p)
  | _ => None
  end.

(** The [.m4a] branch of [get_tag_value].  No value of [MP4_TAG_MAP] is
    ['covr'], so the lookups go to [atoms]. *)
Definition get_mp4 (audio : handle) (tag : string) : result (option string) :=
  match Py.dict_get MP4_TAG_MAP tag with
  | Some mp4_tag =>
      if String.eqb mp4_tag "" then Ok None
      else
        match audio with
        | NoneObject => Raise (none_has_no "tags")
        | MP4File None => Raise (TypeError "argument of type 'NoneType' is not iterable")
        | MP4File (Some tags) =>
            match atoms tags !! mp4_tag with
            | Some value =>
                if is_number_tag tag then Ok (first_of_first value)
                else Ok (first_value value)
            | None => Ok None
            end
        | _ => foreign
        end
  | None => Ok None
  end.

(** [audio[key]] through [FileType.__getitem__], each value through
    [str]. *)
Definition file_getitem (audio : handle) (key : string) : result (list string) :=
  match audio with
  | FLACFile None _ => Raise (KeyError key)
  | FLACFile (Some tags) _ | OggVorbisFile tags | OggOpusFile tags => vc_getitem tags key
  | ASFFile tags =>
      match asf_getitem tags key with
      | Ok values => Ok (str_attr <$> values)
      | Raise e => Raise e
      end
  | NoneObject => Raise (TypeError "'NoneType' object is not subscriptable")
  | _ => foreign
  end.

(** The last branch of [get_tag_value]. *)
Definition get_generic (audio : handle) (tag : string) : result (option string) :=
  match audio with
  | NoneObject => Raise (TypeError "argument of type 'NoneType' is not iterable")
  | _ =>
      present ← has_key (file_getitem audio tag);
      if present : bool then
        values ← file_getitem audio tag;
        match values with
        | [] => Ok None
        | _ => values ← file_getitem audio tag; Ok (head values)
        end
      else Ok None
  end.

(** The body of the [try] of [get_tag_value]. *)
Definition get_tag_value_body (audio : handle) (tag filepath : string) : result (option string) :=
  let ext := ext_of filepath in
  if in_list ext [".mp3"; ".wav"] then get_id3 audio tag
  else if String.eqb ext ".m4a" then get_mp4 audio tag
  else get_generic audio tag.

(** [get_tag_value]: the value returned and the object afterwards (the
    function only reads it). *)
Definition get_tag_value (audio : handle) (tag filepath : string) : option string * handle :=
  match get_tag_value_body audio tag filepath with
  | Ok v => (v, audio)
  | Raise _ => (None, audio)
  end.

(** [repr] of a string, as the message of [int] shows it (exact for
    strings of printable characters without quote or backslash). *)
Definition repr (s : string) : string := "'" +:+ s +:+ "'".

(** [audio.add_tags()] when [audio.tags] is [None], on an MP3 or WAVE
    object: an empty ID3 container. *)
Definition ensure_id3 (tags : option ID3) : ID3 :=
  match tags with Some tags => tags | None => ∅ end.

(** The frame assignment of the [.mp3]/[.wav] branch. *)
Definition assign_id3 (tags : ID3) (tag value : string) : ID3 :=
  match Py.dict_get ID3_TAG_MAP tag with
  | Some tag_class =>
      if String.eqb tag "comment" then
        <[class_name tag_class := new_comm_frame 3 "eng" "" value]> tags
      else
        <[class_name tag_class := new_text_frame tag_class 3 value]> tags
  | None => tags
  end.

(** The [.mp3]/[.wav] branch of [set_tag_value]: the outcome and the
    object afterwards. *)
Definition set_id3 (audio : handle) (tag value : string) : result unit * handle :=
  match audio with
  | NoneObject => (Raise (none_has_no "add_tags"), audio)
  | MP3File tags => (Ok (), MP3File (Some (assign_id3 (ensure_id3 tags) tag value)))
  | WAVEFile tags => (Ok (), WAVEFile (Some (assign_id3 (ensure_id3 tags) tag value)))
  | _ => (foreign, audio)
  end.

(** The value assigned in the [.m4a] branch: the right-hand side is
    evaluated before the container is touched. *)
Definition mp4_rhs (tag value : string) : result MP4Value :=
  if is_number_tag tag then
    match Py.int value with
    | Some n => Ok (MP4Pairs [(n, 0)])
    | None =>
        Raise (ValueError ("invalid literal for int() with base 10: " +:+ repr value))
    end
  else Ok (MP4Text [value]).

(** [audio.tags[mp4_tag] = rhs] *)
Definition mp4_assign (audio : handle) (mp4_tag : string) (rhs : MP4Value) : result handle :=
  match audio with
  | NoneObject => Raise (none_has_no "tags")
  | MP4File None =>
      Raise (TypeError "'NoneType' object does not support item assignment")
  | MP4File (Some tags) =>
      Ok (MP4File (Some {| atoms := <[mp4_tag := rhs]> (atoms tags); covr := covr tags |}))
  | _ => foreign
  end.

(** The [.m4a] branch of [set_tag_value]. *)
Definition set_mp4 (audio : handle) (tag value : string) : result unit * handle :=
  match Py.dict_get MP4_TAG_MAP tag with
  | Some mp4_tag =>
      if String.eqb mp4_tag "" then (Ok (), audio)
      else
        match rhs ← mp4_rhs tag value; mp4_assign audio mp4_tag rhs with
        | Ok audio' => (Ok (), audio')
        | Raise e => (Raise e, audio)
        end
  | None => (Ok (), audio)
  end.

(** [audio[key] = values] through [FileType.__setitem__]: a missing
    container is added first, then the container's own assignment runs. *)
Definition vc_assign (tags : VCommentDict) (key : string) (values : list string)
  : result unit * VCommentDict :=
  match vc_setitem tags key values with
  | Ok tags' => (Ok (), tags')
  | Raise e => (Raise e, tags)
  end.

Definition file_setitem (audio : handle) (key : string) (values : list string)
  : result unit * handle :=
  match audio with
  | NoneObject =>
      (Raise (TypeError "'NoneType' object does not support item assignment"), audio)
  | FLACFile tags pictures =>
      let '(r, tags') := vc_assign (match tags with Some t => t | None => [] end) key values in
      (r, FLACFile (Some tags') pictures)
  | OggVorbisFile tags =>
      let '(r, tags') := vc_assign tags key values in (r, OggVorbisFile tags')
  | OggOpusFile tags =>
      let '(r, tags') := vc_assign tags key values in (r, OggOpusFile tags')
  | ASFFile tags => (Ok (), ASFFile (asf_setitem tags key values))
  | _ => (foreign, audio)
  end.

(** The body of the [try] of [set_tag_value]: how it ends, and the object
    at that point. *)
Definition set_tag_value_body (audio : handle) (tag value filepath : string)
  : result unit * handle :=
  let ext := ext_of filepath in
  if in_list ext [".mp3"; ".wav"] then set_id3 audio tag value
  else if String.eqb ext ".m4a" then set_mp4 audio tag value
  else file_setitem audio tag [value].

Definition warning (tag : string) (e : exn) : string :=
  "  Warning: Could not set " +:+ tag +:+ ": " +:+ str_exn e.

(** [set_tag_value]: the boolean returned, the object afterwards and the
    lines printed. *)
Definition set_tag_value (audio : handle) (tag value filepath : string)
  : bool * handle * list string :=
  match set_tag_value_body audio tag value filepath with
  | (Ok _, audio') => (true, audio', [])
  | (Raise e, audio') => (false, audio', [warning tag e])
  end.

(** ** The calls of the translator, as the interpreter runs them *)

(** Standard output.  [print] raises what the stream raises when it
    refuses a text: a [UnicodeEncodeError] (a [ValueError]) when the
    encoding of the stream lacks a character, a [ValueError] when the
    stream is closed. *)
Record terminal := { refuses : string -> option exn }.




(** ** Album cover *)

Definition none_has_no_method {A} (name : string) : result A :=
  Raise (AttributeError ("object has no attribute '" +:+ name +:+ "'")).

(** [audio.clear_pictures()] and [audio.add_picture(pic)]: methods of
    the FLAC class only. *)
Definition clear_pictures (audio : handle) : result handle :=
  match audio with
  | FLACFile tags _ => Ok (FLACFile tags [])
  | _ => none_has_no_method "clear_pictures"
  end.

Definition add_picture (pic : Picture) (audio : handle) : result handle :=
  match audio with
  | FLACFile tags pictures => Ok (FLACFile tags (pictures ++ [pic]))
  | _ => none_has_no_method "add_picture"
  end.

Definition cover_picture (img_data : string) : Picture :=
  {| pic_type := 3; pic_mime := "image/jpeg"; pic_desc := "Cover"; pic_data := img_data |}.

(** The embedding step of [process_album_cover] for one loaded file (the
    [if]/[elif] chain of its last loop; [audio.save()] writes the object
    out and leaves it as it is).  Nothing catches an exception here. *)
Definition embed_cover (audio : handle) (fpath img_data : string) : result handle :=
  let ext := ext_of fpath in
  if String.eqb ext ".mp3" then
    match audio with
    | NoneObject => Raise (none_has_no "add_tags")
    | MP3File tags =>
        Ok (MP3File (Some (ID3_add (ApicFrame 3 "image/jpeg" 3 "Cover" img_data)
                                   (ensure_id3 tags))))
    | _ => foreign
    end
  else if String.eqb ext ".flac" then
    audio ← clear_pictures audio; add_picture (cover_picture img_data) audio
  else if String.eqb ext ".m4a" then
    match audio with
    | NoneObject => Raise (none_has_no "tags")
    | MP4File None =>
        Raise (TypeError "'NoneType' object does not support item assignment")
    | MP4File (Some tags) =>
        Ok (MP4File (Some {| atoms := atoms tags;
                             covr := Some [ {| cover_data := img_data;
                                               imageformat := FORMAT_JPEG |} ] |}))
    | _ => foreign
    end
  else if in_list ext [".ogg"; ".opus"; ".wma"] then
    audio ← clear_pictures audio; add_picture (cover_picture img_data) audio
  else Ok audio.

(** The picture records an object holds; text-encoded pictures among the
    comments of an Ogg or ASF file are not decoded. *)
Inductive embedded :=
| EmbeddedPicture (type : Z) (mime desc data : string)
| EmbeddedCover (cover : MP4Cover).

Definition apic_of (f : Frame) : option embedded :=
  match f with
  | ApicFrame _ mime type desc data => Some (EmbeddedPicture type mime desc data)
  | _ => None
  end.

Definition pictures_of (audio : handle) : list embedded :=
  match audio with
  | MP3File (Some tags) | WAVEFile (Some tags) => omap apic_of (map_to_list tags).*2
  | MP4File (Some tags) =>
      match covr tags with Some covers => EmbeddedCover <$> covers | None => [] end
  | FLACFile _ pictures =>
      (fun p => EmbeddedPicture (pic_type p) (pic_mime p) (pic_desc p) (pic_data p)) <$> pictures
  | _ => []
  end.

Definition is_front_cover (p : embedded) : bool :=
  match p with
  | EmbeddedPicture type _ desc _ => (type =? 3) && String.eqb desc "Cover"
  | EmbeddedCover _ => false
  end.

(** * Vocabulary of the statements *)

(** The extension that selects each file class. *)
Definition extension (cls : FileClass) : string :=
  match cls with
  | FLAC => ".flac" | MP3 => ".mp3" | MP4 => ".m4a" | OggVorbis => ".ogg"
  | OggOpus => ".opus" | ASF => ".wma" | WAVE => ".wav"
  end.

Definition no_os : OS :=
  {| userhome := fun _ => None; resolve := fun _ => None;
     open_audio := fun _ _ => Raise (TypeError "") |}.

(** A standard output that takes every text (UTF-8 encodes every
    character there is in a string of the model). *)
Definition utf8_stdout : terminal := {| refuses := fun _ => None |}.





(** A printed line names a tag when the tag occurs in it. *)
Definition names (tag line : string) : Prop :=
  exists before after, line = before +:+ tag +:+ after.

(** The canonical tags other than cover, track number and disc number. *)
Definition text_tags : list string :=
  ["artist"; "albumartist"; "album"; "title"; "genre"; "date"; "comment"].

Definition printable_ascii (v : string) : bool :=
  Py.all_chars (fun c => (32 <=? Py.ord c) && (Py.ord c <=? 126)) v.

(** A date in the form in which a time stamp prints itself. *)
Definition timestamp_form (v : string) : bool :=
  Py.free_of "," v && String.eqb (get_text (set_text v)) v.

(** The object is the one [load_audio_file] builds for the path. *)
Definition loaded_as (filepath : string) (audio : handle) : Prop :=
  exists cls, loader (ext_of filepath) = Some cls /\ class_of audio = Some cls.

(** An ID3 tag that holds two pictures: an unnamed front cover and a back
    cover. *)
Definition two_pictures : ID3 :=
  ID3_add (ApicFrame 3 "image/png" 3 "" "front")
          (ID3_add (ApicFrame 3 "image/png" 4 "Back" "back") ∅).

(** [audio_under top n p]: below the directory [n], walked as [top], there
    is a plain entry with a supported extension whose joined path is [p];
    only real directories are descended into. *)
Inductive audio_under : string -> node -> string -> Prop :=
| audio_here top entries name :
    In (name, File) entries ->
    is_audio_name name = true ->
    audio_under top (Dir entries) (Py.join top name)
| audio_below top entries name child p :
    In (name, child) entries ->
    audio_under (Py.join top name) child p ->
    audio_under top (Dir entries) p.

(** A machine whose only directory is [/srv/music], holding two tracks, a
    text file and a sub-directory with one more track. *)
Definition srv_music : list (string * node) :=
  [("b.MP3", File); ("a.mp3", File); ("notes.txt", File);
   ("live", Dir [("c.flac", File)])].

Definition srv_os : OS :=
  {| userhome := fun _ => None;
     resolve := fun p =>
       if String.eqb p "/srv/music" then Some (Dir srv_music)
       else if String.eqb p "/etc/hostname" then Some File
       else None;
     open_audio := fun _ _ => Raise (TypeError "") |}.

(** A machine on which the relative path [music] is a directory with one
    track. *)
Definition music_os : OS :=
  {| userhome := fun _ => None;
     resolve := fun p =>
       if String.eqb p "music" then Some (Dir [("a.mp3", File)]) else None;
     open_audio := fun _ _ => Raise (TypeError "") |}.

(** The ten canonical tag names. *)
Definition canonical_tags : list string := map snd AVAILABLE_TAGS.

(** What [get_tag_value] returns for an outcome of its body. *)
Definition value_of (r : result (option string)) : option string :=
  match r with Ok v => v | Raise _ => None end.

(** The first of the values fetched, if the fetch went well. *)
Definition first_fetched (r : result (list string)) : option string :=
  match r with Ok (v :: _) => Some v | _ => None end.

(** [c.isdigit()] for the ten ASCII digits. *)
Definition isdigit (c : ascii) : bool :=
  match Ascii.is_nat c with Some _ => true | None => false end.

(** The same directory tree up to the order in which each directory
    lists its entries. *)
#[warnings="-register-all"]
Inductive same_tree : node -> node -> Prop :=
| same_file : same_tree File File
| same_link : same_tree DirLink DirLink
| same_dir es1 es2 es3 :
    Forall2 (fun a b => fst a = fst b /\ same_tree (snd a) (snd b)) es1 es2 ->
    Permutation es2 es3 ->
    same_tree (Dir es1) (Dir es3).

(** Two machines with the same home directories and, at every path, the
    same tree up to listing order. *)
Definition same_files (os os' : OS) : Prop :=
  (forall name, userhome os name = userhome os' name)
  /\ (forall p,
        match resolve os p, resolve os' p with
        | Some n, Some n' => same_tree n n'
        | None, None => True
        | _, _ => False
        end).

(** * The interactive part *)

(** ** More of the Python runtime *)

(** [s.split()]: the pieces between runs of white space. *)
Fixpoint split_ws_go (s : string) (cur : string) : list string :=
  match s with
  | EmptyString => if String.eqb cur "" then [] else [String.rev cur]
  | String c s' =>
      if Py.isspace c then
        (if String.eqb cur "" then split_ws_go s' ""
         else String.rev cur :: split_ws_go s' "")
      else split_ws_go s' (String c cur)
  end.
Definition split_ws (s : string) : list string := split_ws_go s "".

(** Letters that have a case, among the characters modelled. *)
Definition iscased (c : ascii) : bool :=
  let n := Py.ord c in
  ((65 <=? n) && (n <=? 90)) || ((97 <=? n) && (n <=? 122))
  || (n =? 170) || (n =? 181) || (n =? 186)
  || ((192 <=? n) && (n <=? 255) && negb (n =? 215) && negb (n =? 247)).

(** The title-case form of one character: the capital of a small letter
    (two letters for the sharp s).  The two small letters whose capital
    has a code point above 255 are left as they are; no tag name contains
    them. *)
Definition title_char (c : ascii) : string :=
  let n := Py.ord c in
  if ((97 <=? n) && (n <=? 122)) || ((224 <=? n) && (n <=? 254) && negb (n =? 247))
  then String (Py.chr (n - 32)) ""
  else if n =? 223 then "Ss"
  else String c "".

(** [s.title()] *)
Fixpoint title_go (s : string) (previous_is_cased : bool) : string :=
  match s with
  | EmptyString => EmptyString
  | String c s' =>
      (if previous_is_cased then String (Py.lower_char c) "" else title_char c)
      +:+ title_go s' (iscased c)
  end.
Definition title (s : string) : string := title_go s false.

(** [os.path.basename] *)
Definition basename (p : string) : string := Py.slice_from p (Py.rfind "/" p + 1).

(** [c * n] for a one-character string. *)
Fixpoint repeat_char (c : ascii) (n : nat) : string :=
  match n with O => EmptyString | S n' => String c (repeat_char c n') end.

Definition nl : string := String (Py.chr 10) "".

Definition str_nat (n : nat) : string := Py.str_int (Z.of_nat n).

(** [d[k] = v] on a dictionary kept in insertion order: the value of an
    existing key is replaced in place, a new key goes to the end. *)
Fixpoint dict_set {V} (d : list (string * V)) (k : string) (v : V) : list (string * V) :=
  match d with
  | [] => [(k, v)]
  | (k', v') :: d' =>
      if String.eqb k' k then (k', v) :: d' else (k', v') :: dict_set d' k v
  end.

(** ** Metadata analysis *)

Abbreviation metadata := (list (string * list (string * list string))).

(** [metadata_map[tag][value].append(filename)] on the nested
    [defaultdict]. *)
Definition record_value (metadata_map : metadata) (tag value filename : string) : metadata :=
  let tag_data := default [] (Py.dict_get metadata_map tag) in
  let files := default [] (Py.dict_get tag_data value) in
  dict_set metadata_map tag (dict_set tag_data value (files ++ [filename])).

(** The group a value read from a file is filed under:
    [value if value else "[Not Set]"]. *)
Definition group_of (value : option string) : string :=
  match value with
  | Some (String c s) => String c s
  | Some EmptyString | None => "[Not Set]"
  end.

(** The inner loop of [analyze_metadata] for one loaded file. *)
Definition analyze_file (audio : handle) (filepath : string) (selected_tags : list string)
           (metadata_map : metadata) : metadata :=
  fold_left
    (fun m tag => record_value m tag (group_of (get_tag_value audio tag filepath).1)
                               (basename filepath))
    selected_tags metadata_map.

(** [analyze_metadata]: the map returned and the lines printed (by the
    loads that fail). *)
Fixpoint analyze_from (os : OS) (audio_files selected_tags : list string)
         (metadata_map : metadata) (out : list string) : metadata * list string :=
  match audio_files with
  | [] => (metadata_map, out)
  | filepath :: rest =>
      let '(audio, printed) := load_audio_file os filepath in
      match audio with
      | NoneObject => analyze_from os rest selected_tags metadata_map (out ++ printed)
      | _ =>
          analyze_from os rest selected_tags
                       (analyze_file audio filepath selected_tags metadata_map)
                       (out ++ printed)
      end
  end.

Definition analyze_metadata (os : OS) (audio_files selected_tags : list string)
  : metadata * list string :=
  analyze_from os audio_files selected_tags [] [].

(** The sort key [(x[0] == "[Not Set]", x[0])] and the order of such
    keys: [False] before [True], then the strings. *)
Definition not_set_key (x : string * list string) : bool * string :=
  (String.eqb x.1 "[Not Set]", x.1).

Definition key_leb (a b : bool * string) : bool :=
  match a.1, b.1 with
  | false, true => true
  | true, false => false
  | _, _ => String.leb a.2 b.2
  end.

Definition value_le (x y : string * list string) : Prop :=
  key_leb (not_set_key x) (not_set_key y) = true.

#[global] Instance value_le_dec : RelDecision value_le.
Proof. intros x y. unfold value_le. apply _. Defined.

(** [sorted(tag_data.items(), key=...)] *)
Definition sorted_values (tag_data : list (string * list string))
  : list (string * list string) :=
  merge_sort value_le tag_data.

(** ** Sessions: input, output and the files on disk *)

(** How a function that talks to the user ends: it returns, an exception
    of the libraries escapes, or [input] finds the input exhausted
    ([EOFError], which nothing catches). *)
Inductive run (A : Type) :=
| Returned (a : A)
| Raised (e : exn)
| EndOfInput.
Arguments Returned {A} a.
Arguments Raised {A} e.
Arguments EndOfInput {A}.

Section Session.

(** The state of the machine: what [load_audio_file] sees of it, and what
    [audio.save()] makes of it (mutagen's writing of a file is taken as
    given). *)
Context {W : Type}.
Variable os_of : W -> OS.
Variable save_audio : W -> string -> handle -> result W.

(** [f"{count / total * 100:.1f}"] for [total > 0]: floating-point
    division and formatting, taken as given. *)
Variable percent : nat -> nat -> string.

(** The lines still to be typed, the texts written so far (one for each
    [print] and each prompt, in order), and the machine. *)
Record console := {
  stdin : list string;
  stdout : list string;
  world : W }.

Definition IO (A : Type) : Type := console -> run A * console.

Definition io_ret {A} (a : A) : IO A := fun c => (Returned a, c).

Definition io_bind {A B} (m : IO A) (k : A -> IO B) : IO B :=
  fun c =>
    match m c with
    | (Returned a, c') => k a c'
    | (Raised e, c') => (Raised e, c')
    | (EndOfInput, c') => (EndOfInput, c')
    end.

Definition write (texts : list string) (c : console) : console :=
  {| stdin := stdin c; stdout := stdout c ++ texts; world := world c |}.

(** [print(text)] *)
Definition print (text : string) : IO unit := fun c => (Returned tt, write [text] c).

(** [input(prompt)] *)
Definition input (prompt : string) : IO string :=
  fun c =>
    match stdin c with
    | [] => (EndOfInput, write [prompt] c)
    | line :: rest =>
        (Returned line,
         {| stdin := rest; stdout := stdout c ++ [prompt]; world := world c |})
    end.

(** [load_audio_file(filepath)] on the current machine. *)
Definition load (filepath : string) : IO handle :=
  fun c =>
    let '(audio, printed) := load_audio_file (os_of (world c)) filepath in
    (Returned audio, write printed c).

(** [set_tag_value(audio, tag, value, filepath)], its boolean dropped as
    every caller drops it; the object afterwards is returned. *)
Definition set_tag (audio : handle) (tag value filepath : string) : IO handle :=
  fun c =>
    let '(_, audio', printed) := set_tag_value audio tag value filepath in
    (Returned audio', write printed c).

(** [audio.save()] for the object loaded from [filepath]. *)
Definition save (filepath : string) (audio : handle) : IO unit :=
  fun c =>
    match save_audio (world c) filepath audio with
    | Ok w => (Returned tt, {| stdin := stdin c; stdout := stdout c; world := w |})
    | Raise e => (Raised e, c)
    end.

(** A [while True] loop around one [input]: [answer] either accepts the
    line, which ends the loop, or gives the texts to print before the
    prompt is shown again. *)
Fixpoint input_until_from {A} (prompt : string) (answer : string -> A + list string)
         (lines : list string) (out : list string) : run A * list string * list string :=
  match lines with
  | [] => (EndOfInput, [], out ++ [prompt])
  | line :: rest =>
      match answer line with
      | inl a => (Returned a, rest, out ++ [prompt])
      | inr texts => input_until_from prompt answer rest (out ++ [prompt] ++ texts)
      end
  end.

Definition input_until {A} (prompt : string) (answer : string -> A + list string) : IO A :=
  fun c =>
    let '(r, rest, out) := input_until_from prompt answer (stdin c) (stdout c) in
    (r, {| stdin := rest; stdout := out; world := world c |}).

(** ** Displaying the analysis *)

(** The lines printed for one value and its files. *)
Definition value_lines (total : nat) (x : string * list string) : list string :=
  let '(value, files) := x in
  let count := length files in
  let percentage := if (0 <? total)%nat then percent count total else "0.0" in
  ("  '" +:+ value +:+ "' - " +:+ str_nat count +:+ " file(s) (" +:+ percentage +:+ "%)")
  :: (if (count <=? 3)%nat then
        (fun f => "    - " +:+ f) <$> files
      else
        ((fun f => "    - " +:+ f) <$> take 2 files)
        ++ ["    ... and " +:+ str_nat (count - 2) +:+ " more"]).

(** [display_metadata_analysis]: the lines printed. *)
Definition display_metadata_analysis (metadata_map : metadata) (tag : string)
           (audio_files : list string) : list string :=
  [nl +:+ "Current " +:+ title tag +:+ " Values:"; repeat_char "-" 60]
  ++ match default [] (Py.dict_get metadata_map tag) with
     | [] => ["  No metadata found"]
     | tag_data => flat_map (value_lines (length audio_files)) (sorted_values tag_data)
     end.

(** ** The setup menu *)

(** [[AVAILABLE_TAGS[c] for c in choices if c in AVAILABLE_TAGS]] *)
Definition chosen_tags (choices : list string) : list string :=
  omap (Py.dict_get AVAILABLE_TAGS) choices.

Definition selection (line : string) : list string + list string :=
  match chosen_tags (split_ws (Py.strip Py.isspace line)) with
  | [] => inr ["Error: No valid tags selected. Try again."]
  | selected_tags => inl selected_tags
  end.

Definition one_of (options : list string) (line : string) : string + list string :=
  let choice := Py.lower (Py.strip Py.isspace line) in
  if in_list choice options then inl choice else inr [].

(** The order of [sorted(AVAILABLE_TAGS.items())]: by key, then by
    tag. *)
Definition item_le (a b : string * string) : Prop :=
  (if String.eqb a.1 b.1 then String.leb a.2 b.2 else String.leb a.1 b.1) = true.

#[global] Instance item_le_dec : RelDecision item_le.
Proof. intros a b. unfold item_le. apply _. Defined.

(** The body of the loop of [setup_menu] over the selected tags, for one
    tag; the state is [(global_values, per_file_tags)]. *)
Definition setup_tag (metadata_map : metadata) (audio_files : list string)
           (state : list (string * string) * list string) (tag : string)
  : IO (list (string * string) * list string) :=
  let '(global_values, per_file_tags) := state in
  if String.eqb tag "cover" then io_ret state
  else
    io_bind (fun c => (Returned tt,
                       write (display_metadata_analysis metadata_map tag audio_files) c))
    (fun _ =>
    if in_list tag GLOBAL_TAGS then
      io_bind (print (nl +:+ "Options for " +:+ title tag
                      +:+ ": [g]lobal / [i]ndividual / [s]kip")) (fun _ =>
      io_bind (input_until "Choice: " (one_of ["g"; "i"; "s"])) (fun choice =>
      if String.eqb choice "g" then
        io_bind (input ("New " +:+ title tag +:+ " value: ")) (fun line =>
        let new_val := Py.strip Py.isspace line in
        if String.eqb new_val "" then io_ret (global_values, per_file_tags)
        else io_ret (dict_set global_values tag new_val, per_file_tags))
      else if String.eqb choice "i" then io_ret (global_values, per_file_tags ++ [tag])
      else io_ret (global_values, per_file_tags)))
    else io_ret (global_values, per_file_tags ++ [tag])).

Fixpoint setup_tags (metadata_map : metadata) (audio_files : list string)
         (tags : list string) (state : list (string * string) * list string)
  : IO (list (string * string) * list string) :=
  match tags with
  | [] => io_ret state
  | tag :: rest =>
      io_bind (setup_tag metadata_map audio_files state tag)
              (setup_tags metadata_map audio_files rest)
  end.

(** [setup_menu]: the selected tags, the global values and the tags to
    ask for file by file. *)
Definition setup_menu (audio_files : list string)
  : IO (list string * list (string * string) * list string) :=
  io_bind (print (nl +:+ repeat_char "=" 60)) (fun _ =>
  io_bind (print "Setup Menu - Select Metadata Fields to Edit") (fun _ =>
  io_bind (print (repeat_char "=" 60)) (fun _ =>
  io_bind (fun c =>
             (Returned tt,
              write ((fun item => "  [" +:+ item.1 +:+ "] " +:+ title item.2)
                       <$> merge_sort item_le AVAILABLE_TAGS) c)) (fun _ =>
  io_bind (print (nl +:+ "Instructions: Enter numbers separated by spaces, e.g., 1 2 4"))
  (fun _ =>
  io_bind (input_until (nl +:+ "Your selection: ") selection) (fun selected_tags =>
  io_bind (fun c =>
             let '(metadata_map, printed) :=
               analyze_metadata (os_of (world c)) audio_files selected_tags in
             (Returned metadata_map, write printed c)) (fun metadata_map =>
  io_bind (setup_tags metadata_map audio_files selected_tags ([], [])) (fun state =>
  io_ret (selected_tags, state.1, state.2))))))))).

(** ** Editing the files *)

Record stats := { processed : nat; skipped : nat; failed : nat }.

(** [for tag, val in global_values.items(): set_tag_value(...)] *)
Fixpoint apply_values (audio : handle) (items : list (string * string)) (filepath : string)
  : IO handle :=
  match items with
  | [] => io_ret audio
  | (tag, val) :: rest =>
      io_bind (set_tag audio tag val filepath) (fun audio' =>
      apply_values audio' rest filepath)
  end.

(** The first loop of [edit_audio_files]: the global values go into every
    file that loads, and the file is saved. *)
Fixpoint apply_global (audio_files : list string) (global_values : list (string * string))
  : IO unit :=
  match audio_files with
  | [] => io_ret tt
  | filepath :: rest =>
      io_bind (load filepath) (fun audio =>
      match audio with
      | NoneObject => apply_global rest global_values
      | _ =>
          io_bind (apply_values audio global_values filepath) (fun audio' =>
          io_bind (save filepath audio') (fun _ =>
          apply_global rest global_values))
      end)
  end.

(** The lines that show the current values of one file. *)
Definition current_lines (audio : handle) (per_file_tags : list string) (path : string)
  : list string :=
  (fun tag => "  " +:+ title tag +:+ ": " +:+ group_of (get_tag_value audio tag path).1)
    <$> per_file_tags.

(** [f"[{current}]" if current else "[Not Set]"] *)
Definition bracketed (current : option string) : string :=
  match current with
  | Some (String c s) => "[" +:+ String c s +:+ "]"
  | Some EmptyString | None => "[Not Set]"
  end.

(** The loop that asks for the new value of each tag of one file; the
    state is the object and the flag [modified]. *)
Fixpoint ask_values (audio : handle) (modified : bool) (tags : list string) (path : string)
  : IO (handle * bool) :=
  match tags with
  | [] => io_ret (audio, modified)
  | tag :: rest =>
      io_bind (input ("  " +:+ title tag +:+ " "
                      +:+ bracketed (get_tag_value audio tag path).1 +:+ ": ")) (fun line =>
      let new_val := Py.strip Py.isspace line in
      if String.eqb new_val "" then ask_values audio modified rest path
      else
        io_bind (set_tag audio tag new_val path) (fun audio' =>
        ask_values audio' true rest path))
  end.

(** The second loop of [edit_audio_files], from the file numbered [idx];
    [total] is [len(audio_files)]. *)
Fixpoint edit_files (total idx : nat) (files per_file_tags : list string) (st : stats)
  : IO stats :=
  match files with
  | [] => io_ret st
  | path :: rest =>
      io_bind (load path) (fun audio =>
      match audio with
      | NoneObject =>
          edit_files total (S idx) rest per_file_tags
            {| processed := processed st; skipped := skipped st; failed := failed st + 1 |}
      | _ =>
          io_bind (print (nl +:+ "[" +:+ str_nat idx +:+ "/" +:+ str_nat total
                          +:+ "] File: " +:+ basename path)) (fun _ =>
          io_bind (fun c => (Returned tt, write (current_lines audio per_file_tags path) c))
          (fun _ =>
          io_bind (print "Options: [Enter] to edit | [s] skip | [q] quit") (fun _ =>
          io_bind (input "Action: ") (fun line =>
          let action := Py.lower (Py.strip Py.isspace line) in
          if String.eqb action "q" then io_ret st
          else if String.eqb action "s" then
            edit_files total (S idx) rest per_file_tags
              {| processed := processed st; skipped := skipped st + 1; failed := failed st |}
          else
            io_bind (ask_values audio false per_file_tags path) (fun '(audio', modified) =>
            if modified : bool then
              io_bind (save path audio') (fun _ =>
              edit_files total (S idx) rest per_file_tags
                {| processed := processed st + 1; skipped := skipped st;
                   failed := failed st |})
            else
              edit_files total (S idx) rest per_file_tags
                {| processed := processed st; skipped := skipped st + 1;
                   failed := failed st |})))))
      end)
  end.

Definition summary (audio_files : list string) (global_values : list (string * string))
           (st : stats) : list string :=
  [nl +:+ "Batch Operation Summary"]
  ++ match global_values with
     | [] => []
     | _ => ["  Global edits applied to " +:+ str_nat (length audio_files) +:+ " file(s)"]
     end
  ++ ["  Per-file processed: " +:+ str_nat (processed st);
      "  Per-file skipped:   " +:+ str_nat (skipped st);
      "  Failed:             " +:+ str_nat (failed st)].

(** [edit_audio_files] *)
Definition edit_audio_files (audio_files selected_tags : list string)
           (global_values : list (string * string)) (per_file_tags : list string)
  : IO unit :=
  match audio_files with
  | [] => print (nl +:+ "No audio files found." +:+ nl)
  | _ =>
      io_bind (match global_values with
               | [] => io_ret tt
               | _ => apply_global audio_files global_values
               end) (fun _ =>
      match per_file_tags with
      | [] => print (nl +:+ "No per-file edits required. Done.")
      | _ =>
          io_bind (edit_files (length audio_files) 1 audio_files per_file_tags
                              {| processed := 0; skipped := 0; failed := 0 |}) (fun st =>
          fun c => (Returned tt, write (summary audio_files global_values st) c))
      end)
  end.

(** ** Embedding the cover into the files *)

(** The last loop of [process_album_cover]: [embed_cover] for each file,
    followed by [audio.save()] in the six branches that have one. *)
Fixpoint embed_files (audio_files : list string) (img_data : string) : IO unit :=
  match audio_files with
  | [] => io_ret tt
  | fpath :: rest =>
      io_bind (load fpath) (fun audio =>
      match embed_cover audio fpath img_data with
      | Raise e => fun c => (Raised e, c)
      | Ok audio' =>
          io_bind (if in_list (ext_of fpath) [".mp3"; ".flac"; ".m4a"; ".ogg"; ".opus"; ".wma"]
                   then save fpath audio' else io_ret tt) (fun _ =>
          embed_files rest img_data)
      end)
  end.

Definition embed_into_files (audio_files : list string) (img_data : string) : IO unit :=
  io_bind (embed_files audio_files img_data) (fun _ =>
  print ("Album cover embedded into " +:+ str_nat (length audio_files) +:+ " file(s)."))%string.

(** ** Asking for a local image *)

Definition isfile (os : OS) (p : string) : bool :=
  match resolve os p with Some File => true | _ => false end.

Definition IMAGE_EXTENSIONS : list string := [".jpg"; ".jpeg"; ".png"; ".bmp"; ".gif"].

(** The answer to one line typed at the prompt for a local image. *)
Definition local_image_answer (os : OS) (line : string) : string + list string :=
  let local_path := Py.strip Py.isspace line in
  if exists_ os local_path && isfile os local_path then
    if in_list (Py.lower (Py.splitext local_path).2) IMAGE_EXTENSIONS then inl local_path
    else inr ["Unsupported image format. Try jpg/jpeg/png/bmp/gif."]
  else inr ["File not found. Try again."].

(** The loop of [process_album_cover] that asks for a local image
    path. *)
Definition ask_local_image : IO string :=
  fun c => input_until "Enter local image path: " (local_image_answer (os_of (world c))) c.

End Session.

(** ** Vocabulary for the interactive part *)

(** The number of file names filed under a tag, over all its values. *)
Definition filed (tag_data : list (string * list string)) : nat :=
  list_sum (map (fun x => length x.2) tag_data).

Definition filed_under (metadata_map : metadata) (tag : string) : nat :=
  filed (default [] (Py.dict_get metadata_map tag)).

(** The files of a list that [load_audio_file] loads. *)
Definition loads (os : OS) (filepath : string) : bool :=
  match (load_audio_file os filepath).1 with NoneObject => false | _ => true end.

Definition loadable (os : OS) (audio_files : list string) : list string :=
  List.filter (loads os) audio_files.

(** What the loop of [setup_menu] keeps true of the two collections it
    builds, for the tags of [selected]. *)
Definition setup_invariant (selected : list string)
           (state : list (string * string) * list string) : Prop :=
  (forall tag, In tag state.2 -> In tag selected /\ tag <> "cover")
  /\ (forall tag value, In (tag, value) state.1 ->
        In tag selected /\ In tag GLOBAL_TAGS /\ value <> "").

(** A run that ends by returning, or at an [input] that finds every
    line read. *)
Definition ends_quietly {W A} (r : run A) (c' : console (W:=W)) : Prop :=
  (exists a, r = Returned a) \/ (r = EndOfInput /\ stdin c' = []).

(** The number of files the per-file loop has accounted for. *)
Definition tally (st : stats) : nat := (processed st + skipped st + failed st)%nat.

(** A line that asks to quit at the action prompt, and a line that is
    blank. *)
Definition quits (line : string) : bool :=
  String.eqb (Py.lower (Py.strip Py.isspace line)) "q".

Definition blank (line : string) : bool :=
  String.eqb (Py.strip Py.isspace line) "".

(** Every mutagen constructor hands out an object of its own class. *)
Definition opens_its_class (os : OS) : Prop :=
  forall cls filepath audio,
    open_audio os cls filepath = Ok audio -> class_of audio = Some cls.

(** ** A machine for the examples

    Its state is the metadata each of its files holds; a file opens as
    the object it holds if that is of the class asked for, and saving
    stores the object. *)
#[global] Instance FileClass_eq_dec : EqDecision FileClass.
Proof. solve_decision. Defined.

Definition disk : Type := list (string * handle).

Definition disk_os (d : disk) : OS :=
  {| userhome := fun _ => None;
     resolve := fun p =>
       match Py.dict_get d p with Some _ => Some File | None => None end;
     open_audio := fun cls p =>
       match Py.dict_get d p with
       | Some audio =>
           if decide (class_of audio = Some cls) then Ok audio
           else Raise (TypeError "not a file of this class")
       | None => Raise (TypeError "no such file")
       end |}.

Definition disk_save (d : disk) (p : string) (audio : handle) : result disk :=
  Ok (dict_set d p audio).

Definition disk_percent (count total : nat) : string := "100.0".

(** Three untagged tracks and a picture. *)
Definition album : disk :=
  [("/music/a.mp3", MP3File None);
   ("/music/b.m4a", MP4File (Some {| atoms := ∅; covr := None |}));
   ("/music/c.ogg", OggVorbisFile []);
   ("/music/d.wav", WAVEFile None);
   ("/music/front.PNG", NoneObject)].

Definition typing (lines : list string) (d : disk) : console :=
  {| stdin := lines; stdout := []; world := d |}.

(** A line that names, once stripped, a regular file whose extension is
    one of the five image extensions, in any letter case. *)
Definition image_path (os : OS) (line : string) : bool :=
  let p := Py.strip Py.isspace line in
  isfile os p && in_list (ext_of p) IMAGE_EXTENSIONS.

(** A value that [set_tag_value] stores under the path's format, for one
    of the text tags, in a form that reads back as written. *)
Definition storable (filepath : string) (item : string * string) : Prop :=
  In item.1 text_tags
  /\ printable_ascii item.2 = true
  /\ (in_list (ext_of filepath) [".mp3"; ".wav"] = true -> item.1 = "date" ->
      timestamp_form item.2 = true).

(** The machine [srv_os] with every directory listed in another order. *)
Definition srv_relisted : OS :=
  {| userhome := fun _ => None;
     resolve := fun p =>
       if String.eqb p "/srv/music" then Some (Dir (rev srv_music))
       else if String.eqb p "/etc/hostname" then Some File
       else None;
     open_audio := fun _ _ => Raise (TypeError "") |}.

Definition two_tracks : list string := ["/music/a.mp3"; "/music/b.m4a"].

(** A session at the setup menu: a selection that is refused, one that is
    accepted, a choice that is not offered, then a global value. *)
Definition at_the_menu : console :=
  typing ["0"; "1 3 8 10"; "x"; "g"; " Test Artist "] album.

(** A session of per-file editing: the first file gets a title, the
    second is skipped. *)
Definition at_the_files : console :=
  typing [""; "Song A"; "S"; "unused"] album.

(** An answer typed for a text tag: blank, or a value that can be
    stored. *)
Definition answer_for (filepath tag line : string) : Prop :=
  In tag text_tags
  /\ (blank line = false -> storable filepath (tag, Py.strip Py.isspace line)).

(** What is read for [tag] from [audio'], given the answer typed and the
    object [audio] before the answers. *)
Definition reads (filepath : string) (audio audio' : handle) (tag line : string) : Prop :=
  (get_tag_value audio' tag filepath).1
  = if blank line then (get_tag_value audio tag filepath).1
    else Some (Py.strip Py.isspace line).

(** * Properties *)

(** ** Lower-casing and the dispatch on the extension *)

Lemma lower_char_idem (c : ascii) : Py.lower_char (Py.lower_char c) = Py.lower_char c.
Proof. destruct c as [[] [] [] [] [] [] [] []]; vm_compute; reflexivity. Qed.

Lemma lower_idem (s : string) : Py.lower (Py.lower s) = Py.lower s.
Proof.
  induction s as [|c s IH]; simpl; [reflexivity|].
  rewrite lower_char_idem, IH. reflexivity.
Qed.

Lemma ext_of_lower (filepath : string) : ext_of (Py.lower filepath) = ext_of filepath.
Proof. unfold ext_of. rewrite lower_idem. reflexivity. Qed.

Lemma get_body_id3 audio tag filepath :
  in_list (ext_of filepath) [".mp3"; ".wav"] = true ->
  get_tag_value_body audio tag filepath = get_id3 audio tag.
Proof. intros H. unfold get_tag_value_body. rewrite H. reflexivity. Qed.

Lemma get_body_mp4 audio tag filepath :
  ext_of filepath = ".m4a" ->
  get_tag_value_body audio tag filepath = get_mp4 audio tag.
Proof. intros H. unfold get_tag_value_body. rewrite H. reflexivity. Qed.

Lemma get_body_generic audio tag filepath :
  in_list (ext_of filepath) [".mp3"; ".wav"; ".m4a"] = false ->
  get_tag_value_body audio tag filepath = get_generic audio tag.
Proof.
  unfold get_tag_value_body, in_list. simpl.
  destruct (String.eqb (ext_of filepath) ".mp3"); [discriminate|].
  destruct (String.eqb (ext_of filepath) ".wav"); [discriminate|].
  destruct (String.eqb (ext_of filepath) ".m4a"); [discriminate|].
  reflexivity.
Qed.

Lemma set_body_id3 audio tag value filepath :
  in_list (ext_of filepath) [".mp3"; ".wav"] = true ->
  set_tag_value_body audio tag value filepath = set_id3 audio tag value.
Proof. intros H. unfold set_tag_value_body. rewrite H. reflexivity. Qed.

Lemma set_body_mp4 audio tag value filepath :
  ext_of filepath = ".m4a" ->
  set_tag_value_body audio tag value filepath = set_mp4 audio tag value.
Proof. intros H. unfold set_tag_value_body. rewrite H. reflexivity. Qed.

Lemma set_body_generic audio tag value filepath :
  in_list (ext_of filepath) [".mp3"; ".wav"; ".m4a"] = false ->
  set_tag_value_body audio tag value filepath = file_setitem audio tag [value].
Proof.
  unfold set_tag_value_body, in_list. simpl.
  destruct (String.eqb (ext_of filepath) ".mp3"); [discriminate|].
  destruct (String.eqb (ext_of filepath) ".wav"); [discriminate|].
  destruct (String.eqb (ext_of filepath) ".m4a"); [discriminate|].
  reflexivity.
Qed.

Lemma loader_Some (ext : string) (cls : FileClass) :
  loader ext = Some cls -> ext = extension cls.
Proof.
  unfold loader.
  repeat match goal with
         | |- context [String.eqb ext ?s] =>
             destruct (String.eqb_spec ext s) as [->|_]; [intros [= <-]; reflexivity|]
         end.
  discriminate.
Qed.

Lemma loader_supported (ext : string) :
  in_list ext SUPPORTED_EXTENSIONS = bool_decide (is_Some (loader ext)).
Proof.
  unfold loader, in_list, SUPPORTED_EXTENSIONS. simpl.
  repeat match goal with
         | |- context [String.eqb ext ?s] =>
             destruct (String.eqb ext s); [symmetry; apply bool_decide_eq_true; eauto|]
         end.
  symmetry. apply bool_decide_eq_false. intros [? [=]].
Qed.

Lemma extension_inj (cls cls' : FileClass) : extension cls = extension cls' -> cls = cls'.
Proof. destruct cls, cls'; (reflexivity || discriminate). Qed.

Lemma loader_extension (cls : FileClass) : loader (extension cls) = Some cls.
Proof. destruct cls; reflexivity. Qed.

(** C7: classification by extension is total and deterministic.  Each of
    the seven extensions of [SUPPORTED_EXTENSIONS] belongs to exactly one
    file class, and for a path with that extension [load_audio_file]
    calls the constructor of that class and of no other: it returns the
    object constructed, or prints the error and returns [None] when the
    constructor raises.  For every other extension, [".xyz"] among them,
    it returns [None] without calling a constructor and without an
    error. *)
Theorem classification_total (os : OS) (filepath : string) :
  (forall cls, ext_of filepath = extension cls ->
     load_audio_file os filepath
     = match open_audio os cls filepath with
       | Ok audio => (audio, [])
       | Raise e => (NoneObject, ["Error loading file: " +:+ str_exn e])
       end)
  /\ (forall ext, in_list ext SUPPORTED_EXTENSIONS = true <->
                  exists cls, ext = extension cls
                              /\ forall cls', ext = extension cls' -> cls' = cls)
  /\ (in_list (ext_of filepath) SUPPORTED_EXTENSIONS = false ->
        load_audio_file os filepath = (NoneObject, []))
  /\ in_list ".xyz" SUPPORTED_EXTENSIONS = false.
Proof.
  split; [|split; [|split; [|reflexivity]]].
  - intros cls Hext. unfold load_audio_file. rewrite Hext, loader_extension. reflexivity.
  - intros ext. rewrite loader_supported. split.
    + intros [cls Hcls]%bool_decide_eq_true. exists cls.
      pose proof (loader_Some _ _ Hcls) as Hext. split; [exact Hext|].
      intros cls' Hext'. apply extension_inj. congruence.
    + intros (cls & -> & _). apply bool_decide_eq_true. exists cls. apply loader_extension.
  - rewrite loader_supported. intros H%bool_decide_eq_false. unfold load_audio_file.
    destruct (loader (ext_of filepath)); [|reflexivity].
    exfalso. apply H. eauto.
Qed.

Lemma classification_total_witness :
  load_audio_file (disk_os album) "/music/c.ogg" = (OggVorbisFile [], [])
  /\ load_audio_file (disk_os album) "/music/lost.MP3"
     = (NoneObject, ["Error loading file: no such file"])
  /\ load_audio_file (disk_os album) "/music/front.PNG" = (NoneObject, []).
Proof.
  destruct (classification_total (disk_os album) "/music/c.ogg") as (Hogg & _).
  destruct (classification_total (disk_os album) "/music/lost.MP3") as (Hmp3 & _).
  destruct (classification_total (disk_os album) "/music/front.PNG") as (_ & _ & Hpng & _).
  split; [exact (Hogg OggVorbis eq_refl)|].
  split; [exact (Hmp3 MP3 eq_refl) | exact (Hpng eq_refl)].
Defined.

(** C9: the extension is lower-cased before every dispatch, so the class
    selected by [load_audio_file], the inclusion test of
    [find_audio_files], [get_tag_value] and [set_tag_value] give the same
    answer for a path and for its lower-cased form; a [".MP3"] name is
    dispatched as [".mp3"]. *)
Theorem extension_case_insensitive (audio : handle) (tag value filepath : string) :
  ext_of (Py.lower filepath) = ext_of filepath
  /\ loader (ext_of (Py.lower filepath)) = loader (ext_of filepath)
  /\ is_audio_name (Py.lower filepath) = is_audio_name filepath
  /\ get_tag_value audio tag (Py.lower filepath) = get_tag_value audio tag filepath
  /\ set_tag_value audio tag value (Py.lower filepath) = set_tag_value audio tag value filepath
  /\ ext_of "Song.MP3" = ext_of "song.mp3".
Proof.
  unfold is_audio_name, get_tag_value, set_tag_value,
    get_tag_value_body, set_tag_value_body.
  rewrite !ext_of_lower. repeat split; reflexivity.
Qed.

(** ** Reading *)

(** C5: on an MP3 or WAVE object without a tag container, [get_tag_value]
    returns [None] for every tag and leaves the object as it was; in
    particular it creates no container, so [has_tags] is still false. *)
Theorem get_without_container (audio : handle) (tag filepath : string) :
  in_list (ext_of filepath) [".mp3"; ".wav"] = true ->
  audio = MP3File None \/ audio = WAVEFile None ->
  get_tag_value audio tag filepath = (None, audio)
  /\ has_tags (get_tag_value audio tag filepath).2 = false.
Proof.
  intros Hext Haudio. unfold get_tag_value.
  rewrite (get_body_id3 _ _ _ Hext).
  destruct Haudio as [-> | ->]; split; reflexivity.
Qed.

Lemma get_without_container_witness :
  get_tag_value (WAVEFile None) "artist" "take1.WAV" = (None, WAVEFile None)
  /\ has_tags (get_tag_value (WAVEFile None) "artist" "take1.WAV").2 = false.
Proof.
  apply (get_without_container (WAVEFile None) "artist" "take1.WAV");
    [reflexivity | right; reflexivity].
Defined.

(** ** Errors *)


Lemma warning_names (tag : string) (e : exn) : names tag (warning tag e).
Proof. exists "  Warning: Could not set ", (": " +:+ str_exn e). reflexivity. Qed.




(** C4: under [.m4a], a track or disc number that [int] rejects makes
    [set_tag_value] return [False]; the object, and with it the value
    stored for the tag, is what it was before the call. *)
Theorem set_invalid_number (audio : handle) (tag value filepath : string) :
  ext_of filepath = ".m4a" ->
  tag = "tracknumber" \/ tag = "discnumber" ->
  Py.int value = None ->
  exists line,
    set_tag_value audio tag value filepath = (false, audio, [line])
    /\ names tag line
    /\ get_tag_value (set_tag_value audio tag value filepath).1.2 tag filepath
       = get_tag_value audio tag filepath.
Proof.
  intros Hext Htag Hint.
  exists (warning tag
            (ValueError ("invalid literal for int() with base 10: " +:+ repr value))).
  assert (set_tag_value audio tag value filepath
          = (false, audio,
             [warning tag
                (ValueError ("invalid literal for int() with base 10: " +:+ repr value))]))
    as Hset.
  { unfold set_tag_value. rewrite (set_body_mp4 _ _ _ _ Hext).
    unfold set_mp4, mp4_rhs.
    destruct Htag as [-> | ->]; simpl; rewrite Hint; reflexivity. }
  rewrite Hset. split; [reflexivity|]. split; [apply warning_names | reflexivity].
Qed.

Lemma set_invalid_number_witness :
  exists line,
    set_tag_value (MP4File (Some {| atoms := {[ "trkn" := MP4Pairs [(4, 12)] ]}; covr := None |}))
                  "tracknumber" "three" "album/03.m4a"
    = (false, MP4File (Some {| atoms := {[ "trkn" := MP4Pairs [(4, 12)] ]}; covr := None |}),
       [line])
    /\ names "tracknumber" line
    /\ get_tag_value
         (set_tag_value
            (MP4File (Some {| atoms := {[ "trkn" := MP4Pairs [(4, 12)] ]}; covr := None |}))
            "tracknumber" "three" "album/03.m4a").1.2 "tracknumber" "album/03.m4a"
       = get_tag_value
           (MP4File (Some {| atoms := {[ "trkn" := MP4Pairs [(4, 12)] ]}; covr := None |}))
           "tracknumber" "album/03.m4a".
Proof.
  apply set_invalid_number; [reflexivity | left; reflexivity | reflexivity].
Defined.

(** ** Writing, then reading *)

Lemma split_go_free (sep : ascii) (s cur : string) :
  Py.free_of sep s = true -> Py.split_go sep s cur = [String.rev_app cur s].
Proof.
  revert cur. induction s as [|a s IH]; intros cur H; simpl; [reflexivity|].
  simpl in H. apply andb_true_iff in H as [Ha Hs].
  apply negb_true_iff in Ha. rewrite Ha. rewrite (IH _ Hs). reflexivity.
Qed.

Lemma split_free (sep : ascii) (s : string) :
  Py.free_of sep s = true -> Py.split sep s = [s].
Proof. intros H. unfold Py.split. rewrite (split_go_free _ _ _ H). reflexivity. Qed.

Lemma all_chars_impl (p q : ascii -> bool) (s : string) :
  (forall c, p c = true -> q c = true) -> Py.all_chars p s = true -> Py.all_chars q s = true.
Proof.
  intros Hpq. induction s as [|a s IH]; simpl; [reflexivity|].
  intros [Ha Hs]%andb_true_iff. rewrite (Hpq _ Ha), (IH Hs). reflexivity.
Qed.

Lemma printable_free_of_NUL (v : string) :
  printable_ascii v = true -> Py.free_of NUL v = true.
Proof.
  apply all_chars_impl. intros c Hc.
  destruct (Ascii.eqb_spec c NUL) as [-> | _]; [discriminate Hc | reflexivity].
Qed.

Lemma id3_assign_lookup (tags : ID3) (tag v : string) :
  In tag text_tags ->
  printable_ascii v = true ->
  (tag = "date" -> timestamp_form v = true) ->
  exists tag_class frame,
    Py.dict_get ID3_TAG_MAP tag = Some tag_class
    /\ assign_id3 tags tag v !! class_name tag_class = Some frame
    /\ text0 frame = Ok v.
Proof.
  intros Htag Hv Hdate. pose proof (printable_free_of_NUL _ Hv) as Hnul.
  pose proof (split_free _ _ Hnul) as Hsplit.
  unfold text_tags in Htag. simpl in Htag.
  destruct Htag as [<-|[<-|[<-|[<-|[<-|[<-|[<-|[]]]]]]]].
  - exists TPE1, (TextFrame "TPE1" 3 [v]). split; [reflexivity|].
    split; [|reflexivity].
    change (assign_id3 tags "artist" v)
      with (<["TPE1" := TextFrame "TPE1" 3 (Py.split NUL v)]> tags).
    rewrite Hsplit. apply lookup_insert_eq.
  - exists TPE2, (TextFrame "TPE2" 3 [v]). split; [reflexivity|].
    split; [|reflexivity].
    change (assign_id3 tags "albumartist" v)
      with (<["TPE2" := TextFrame "TPE2" 3 (Py.split NUL v)]> tags).
    rewrite Hsplit. apply lookup_insert_eq.
  - exists TALB, (TextFrame "TALB" 3 [v]). split; [reflexivity|].
    split; [|reflexivity].
    change (assign_id3 tags "album" v)
      with (<["TALB" := TextFrame "TALB" 3 (Py.split NUL v)]> tags).
    rewrite Hsplit. apply lookup_insert_eq.
  - exists TIT2, (TextFrame "TIT2" 3 [v]). split; [reflexivity|].
    split; [|reflexivity].
    change (assign_id3 tags "title" v)
      with (<["TIT2" := TextFrame "TIT2" 3 (Py.split NUL v)]> tags).
    rewrite Hsplit. apply lookup_insert_eq.
  - exists TCON, (TextFrame "TCON" 3 [v]). split; [reflexivity|].
    split; [|reflexivity].
    change (assign_id3 tags "genre" v)
      with (<["TCON" := TextFrame "TCON" 3 (Py.split NUL v)]> tags).
    rewrite Hsplit. apply lookup_insert_eq.
  - specialize (Hdate eq_refl). unfold timestamp_form in Hdate.
    apply andb_true_iff in Hdate as [Hcomma Hform].
    apply String.eqb_eq in Hform.
    exists TDRC, (TimeStampTextFrame "TDRC" 3 [set_text v]). split; [reflexivity|].
    split; [|simpl; rewrite Hform; reflexivity].
    change (assign_id3 tags "date" v)
      with (<["TDRC" := TimeStampTextFrame "TDRC" 3 (set_text <$> Py.split "," v)]> tags).
    rewrite (split_free _ _ Hcomma). apply lookup_insert_eq.
  - exists COMM, (CommFrame 3 "eng" "" [v]). split; [reflexivity|].
    split; [|reflexivity].
    change (assign_id3 tags "comment" v)
      with (<["COMM" := CommFrame 3 "eng" "" (Py.split NUL v)]> tags).
    rewrite Hsplit. apply lookup_insert_eq.
Qed.

Lemma mp4_key_of_text_tag (tag : string) :
  In tag text_tags ->
  exists mp4_tag,
    Py.dict_get MP4_TAG_MAP tag = Some mp4_tag
    /\ String.eqb mp4_tag "" = false
    /\ is_number_tag tag = false.
Proof.
  unfold text_tags. simpl.
  intros [<-|[<-|[<-|[<-|[<-|[<-|[<-|[]]]]]]]]; eexists; repeat split; reflexivity.
Qed.

Lemma mp4_key_of_number_tag (tag : string) :
  tag = "tracknumber" \/ tag = "discnumber" ->
  exists mp4_tag,
    Py.dict_get MP4_TAG_MAP tag = Some mp4_tag
    /\ String.eqb mp4_tag "" = false
    /\ is_number_tag tag = true.
Proof. intros [-> | ->]; eexists; repeat split; reflexivity. Qed.

Lemma filter_out_then_in {A} (p : A -> bool) (l : list A) :
  List.filter p (List.filter (fun x => negb (p x)) l) = [].
Proof.
  induction l as [|x l IH]; simpl; [reflexivity|].
  destruct (p x) eqn:Hx; simpl; [exact IH|]. rewrite Hx. exact IH.
Qed.

Lemma vc_set_then_get (d : VCommentDict) (key v : string) :
  is_valid_key key = true ->
  exists d', vc_setitem d key [v] = Ok d' /\ vc_getitem d' key = Ok [v].
Proof.
  intros Hkey. unfold vc_setitem, vc_getitem. rewrite Hkey. simpl.
  eexists. split; [reflexivity|].
  rewrite List.filter_app, filter_out_then_in. simpl.
  unfold key_matches at 1. simpl. rewrite String.eqb_refl. reflexivity.
Qed.

Lemma asf_set_then_get (d : ASFTags) (key v : string) :
  asf_getitem (asf_setitem d key [v]) key = Ok [ASFUnicodeAttribute v].
Proof.
  unfold asf_setitem, asf_getitem.
  rewrite List.filter_app, (filter_out_then_in (fun kv => String.eqb kv.1 key)).
  simpl. rewrite String.eqb_refl. reflexivity.
Qed.

Lemma get_generic_first (audio : handle) (tag v : string) (rest : list string) :
  audio <> NoneObject ->
  file_getitem audio tag = Ok (v :: rest) ->
  get_generic audio tag = Ok (Some v).
Proof.
  intros Hnone Hitem. unfold get_generic.
  destruct audio; try contradiction; rewrite Hitem; reflexivity.
Qed.

Lemma text_tag_valid_key (tag : string) : In tag text_tags -> is_valid_key tag = true.
Proof.
  unfold text_tags. simpl.
  intros [<-|[<-|[<-|[<-|[<-|[<-|[<-|[]]]]]]]]; reflexivity.
Qed.

(** C1, as amended: for an object loaded for its path, a tag other than
    cover, track number and disc number, and a printable ASCII value [v],
    [set_tag_value] succeeds and [get_tag_value] then returns [v] --
    provided that an [.m4a] object has a tag container and that, under
    [.mp3] and [.wav], a date is written the way a time stamp prints
    itself. *)
Theorem set_then_get (audio : handle) (tag v filepath : string) :
  loaded_as filepath audio ->
  In tag text_tags ->
  printable_ascii v = true ->
  (ext_of filepath = ".m4a" -> has_tags audio = true) ->
  (in_list (ext_of filepath) [".mp3"; ".wav"] = true -> tag = "date" ->
   timestamp_form v = true) ->
  exists audio',
    set_tag_value audio tag v filepath = (true, audio', [])
    /\ (get_tag_value audio' tag filepath).1 = Some v.
Proof.
  intros (cls & Hload & Hcls) Htag Hv Hmp4 Hdate.
  apply loader_Some in Hload.
  unfold set_tag_value, get_tag_value.
  destruct cls; destruct audio; try discriminate Hcls; simpl in Hload.
  - (* FLAC *)
    rewrite set_body_generic by (rewrite Hload; reflexivity).
    destruct (vc_set_then_get (match tags with Some t => t | None => [] end) tag v
                (text_tag_valid_key _ Htag)) as (d' & Hset & Hget).
    exists (FLACFile (Some d') pictures). unfold file_setitem, vc_assign.
    rewrite Hset. split; [reflexivity|].
    rewrite get_body_generic by (rewrite Hload; reflexivity).
    rewrite (get_generic_first _ _ v []); [reflexivity | discriminate | exact Hget].
  - (* MP3 *)
    rewrite set_body_id3 by (rewrite Hload; reflexivity).
    destruct (id3_assign_lookup (ensure_id3 tags) tag v Htag Hv) as (c & f & Hc & Hf & Ht).
    { apply Hdate. rewrite Hload. reflexivity. }
    eexists. split; [reflexivity|].
    rewrite get_body_id3 by (rewrite Hload; reflexivity).
    unfold get_id3. rewrite Hc, Hf, Ht. reflexivity.
  - (* MP4 *)
    specialize (Hmp4 Hload). destruct tags as [tags|]; [|discriminate Hmp4].
    rewrite set_body_mp4 by exact Hload.
    destruct (mp4_key_of_text_tag _ Htag) as (key & Hkey & Hne & Hnum).
    unfold set_mp4, mp4_rhs. rewrite Hkey, Hne, Hnum. simpl.
    eexists. split; [reflexivity|].
    rewrite get_body_mp4 by exact Hload.
    unfold get_mp4. rewrite Hkey, Hne, Hnum. simpl.
    rewrite lookup_insert_eq. reflexivity.
  - (* Ogg Vorbis *)
    rewrite set_body_generic by (rewrite Hload; reflexivity).
    destruct (vc_set_then_get tags tag v (text_tag_valid_key _ Htag)) as (d' & Hset & Hget).
    exists (OggVorbisFile d'). unfold file_setitem, vc_assign.
    rewrite Hset. split; [reflexivity|].
    rewrite get_body_generic by (rewrite Hload; reflexivity).
    rewrite (get_generic_first _ _ v []); [reflexivity | discriminate | exact Hget].
  - (* Ogg Opus *)
    rewrite set_body_generic by (rewrite Hload; reflexivity).
    destruct (vc_set_then_get tags tag v (text_tag_valid_key _ Htag)) as (d' & Hset & Hget).
    exists (OggOpusFile d'). unfold file_setitem, vc_assign.
    rewrite Hset. split; [reflexivity|].
    rewrite get_body_generic by (rewrite Hload; reflexivity).
    rewrite (get_generic_first _ _ v []); [reflexivity | discriminate | exact Hget].
  - (* ASF *)
    rewrite set_body_generic by (rewrite Hload; reflexivity).
    eexists. split; [reflexivity|].
    rewrite get_body_generic by (rewrite Hload; reflexivity).
    rewrite (get_generic_first _ _ v []); [reflexivity | discriminate |].
    unfold file_getitem. rewrite asf_set_then_get. reflexivity.
  - (* WAVE *)
    rewrite set_body_id3 by (rewrite Hload; reflexivity).
    destruct (id3_assign_lookup (ensure_id3 tags) tag v Htag Hv) as (c & f & Hc & Hf & Ht).
    { apply Hdate. rewrite Hload. reflexivity. }
    eexists. split; [reflexivity|].
    rewrite get_body_id3 by (rewrite Hload; reflexivity).
    unfold get_id3. rewrite Hc, Hf, Ht. reflexivity.
Qed.

Lemma set_then_get_witness :
  (exists audio',
     set_tag_value (MP3File None) "date" "2024-05-17" "Album/01 Intro.MP3" = (true, audio', [])
     /\ (get_tag_value audio' "date" "Album/01 Intro.MP3").1 = Some "2024-05-17")
  /\ (exists audio',
        set_tag_value (MP4File (Some {| atoms := ∅; covr := None |})) "title" "Song B" "b.m4a"
        = (true, audio', [])
        /\ (get_tag_value audio' "title" "b.m4a").1 = Some "Song B").
Proof.
  split.
  - apply (set_then_get (MP3File None) "date" "2024-05-17" "Album/01 Intro.MP3").
    + exists MP3. split; reflexivity.
    + simpl. tauto.
    + reflexivity.
    + intros H. vm_compute in H. discriminate H.
    + intros _ _. reflexivity.
  - apply (set_then_get (MP4File (Some {| atoms := ∅; covr := None |})) "title" "Song B" "b.m4a").
    + exists MP4. split; reflexivity.
    + simpl. tauto.
    + reflexivity.
    + intros _. reflexivity.
    + intros H. vm_compute in H. discriminate H.
Defined.

(** C1, as stated, fails: under [.mp3] the date "hello" -- printable, with
    neither a comma nor a null character -- is stored as a time stamp with
    no year, and reads back as the empty string. *)
Lemma set_then_get_date_counterexample :
  loaded_as "song.mp3" (MP3File None)
  /\ In "date" text_tags
  /\ printable_ascii "hello" = true
  /\ Py.free_of "," "hello" = true
  /\ (set_tag_value (MP3File None) "date" "hello" "song.mp3").1.1 = true
  /\ (get_tag_value (set_tag_value (MP3File None) "date" "hello" "song.mp3").1.2
        "date" "song.mp3").1 = Some ""
  /\ (get_tag_value (set_tag_value (MP3File None) "date" "hello" "song.mp3").1.2
        "date" "song.mp3").1 <> Some "hello".
Proof.
  split; [exists MP3; split; reflexivity|].
  split; [simpl; tauto|].
  split; [reflexivity|]. split; [reflexivity|]. split; [reflexivity|].
  split; [vm_compute; reflexivity|].
  vm_compute. discriminate.
Qed.

(** ** Track and disc numbers under [.m4a] *)

(** On an object with a tag container the number is stored as the single
    pair [(n, 0)] and read back as the decimal string of [n]. *)
Lemma set_number_with_container (tags : MP4Tags) (tag value filepath : string) (n : Z) :
  ext_of filepath = ".m4a" ->
  tag = "tracknumber" \/ tag = "discnumber" ->
  Py.int value = Some n ->
  exists mp4_tag,
    Py.dict_get MP4_TAG_MAP tag = Some mp4_tag
    /\ set_tag_value (MP4File (Some tags)) tag value filepath
       = (true,
          MP4File (Some {| atoms := <[mp4_tag := MP4Pairs [(n, 0)]]> (atoms tags);
                           covr := covr tags |}),
          [])
    /\ (get_tag_value
          (MP4File (Some {| atoms := <[mp4_tag := MP4Pairs [(n, 0)]]> (atoms tags);
                            covr := covr tags |}))
          tag filepath).1 = Some (Py.str_int n).
Proof.
  intros Hext Htag Hint.
  destruct (mp4_key_of_number_tag _ Htag) as (key & Hkey & Hne & Hnum).
  exists key. split; [exact Hkey|]. split.
  - unfold set_tag_value. rewrite (set_body_mp4 _ _ _ _ Hext).
    unfold set_mp4, mp4_rhs. rewrite Hkey, Hne, Hnum, Hint. reflexivity.
  - unfold get_tag_value. rewrite (get_body_mp4 _ _ _ Hext).
    unfold get_mp4. rewrite Hkey, Hne, Hnum. simpl.
    rewrite lookup_insert_eq. reflexivity.
Qed.

(** C3 at an [.m4a] object without a tag container (a file that has no
    tag atoms yet): nothing is stored, [set_tag_value] returns [False]
    with a warning, and [get_tag_value] returns [None] instead of "7". *)
Theorem set_number_without_container :
  Py.int "7" = Some 7
  /\ set_tag_value (MP4File None) "tracknumber" "7" "song.m4a"
     = (false, MP4File None,
        ["  Warning: Could not set tracknumber: 'NoneType' object does not support item assignment"])
  /\ (get_tag_value (set_tag_value (MP4File None) "tracknumber" "7" "song.m4a").1.2
        "tracknumber" "song.m4a").1 = None.
Proof. repeat split; reflexivity. Qed.

(** ** Tags without a native key *)

(** C10, as amended: [set_tag_value] with a tag that has no entry in the
    table of the branch returns [True] and prints nothing; an [.m4a]
    object is left as it was, and so are the frames of an [.mp3] or
    [.wav] object, which however gains an empty tag container if it had
    none. *)
Theorem set_unmapped_tag (tag value filepath : string) :
  (in_list (ext_of filepath) [".mp3"; ".wav"] = true ->
   Py.dict_get ID3_TAG_MAP tag = None ->
   forall tags,
     set_tag_value (MP3File tags) tag value filepath
     = (true, MP3File (Some (ensure_id3 tags)), [])
     /\ set_tag_value (WAVEFile tags) tag value filepath
        = (true, WAVEFile (Some (ensure_id3 tags)), [])
     /\ forall frames, ensure_id3 (Some frames) = frames)
  /\ (ext_of filepath = ".m4a" ->
      Py.dict_get MP4_TAG_MAP tag = None ->
      forall tags,
        set_tag_value (MP4File tags) tag value filepath = (true, MP4File tags, [])).
Proof.
  split.
  - intros Hext Htag tags. unfold set_tag_value.
    rewrite !(set_body_id3 _ _ _ _ Hext). unfold set_id3, assign_id3.
    rewrite Htag. repeat split; reflexivity.
  - intros Hext Htag tags. unfold set_tag_value.
    rewrite (set_body_mp4 _ _ _ _ Hext). unfold set_mp4. rewrite Htag. reflexivity.
Qed.

Lemma set_unmapped_tag_witness :
  set_tag_value (WAVEFile (Some {[ "TIT2" := TextFrame "TIT2" 3 ["Intro"] ]}))
                "cover" "front.jpg" "intro.wav"
  = (true, WAVEFile (Some {[ "TIT2" := TextFrame "TIT2" 3 ["Intro"] ]}), [])
  /\ set_tag_value (MP4File None) "cover" "front.jpg" "intro.m4a" = (true, MP4File None, []).
Proof.
  destruct (set_unmapped_tag "cover" "front.jpg" "intro.wav") as [Hid3 _].
  destruct (set_unmapped_tag "cover" "front.jpg" "intro.m4a") as [_ Hmp4].
  split.
  - exact (proj1 (proj2 (Hid3 eq_refl eq_refl
                           (Some {[ "TIT2" := TextFrame "TIT2" 3 ["Intro"] ]})))).
  - apply (Hmp4 eq_refl eq_refl None).
Defined.

(** C10, as stated, fails: on an [.mp3] object without a tag container
    the call with "cover" returns [True] but is no no-op -- the object
    has a tag container afterwards. *)
Lemma set_unmapped_tag_counterexample :
  Py.dict_get ID3_TAG_MAP "cover" = None
  /\ set_tag_value (MP3File None) "cover" "front.jpg" "song.mp3" = (true, MP3File (Some ∅), [])
  /\ (set_tag_value (MP3File None) "cover" "front.jpg" "song.mp3").1.2 <> MP3File None
  /\ has_tags (MP3File None) = false
  /\ has_tags (set_tag_value (MP3File None) "cover" "front.jpg" "song.mp3").1.2 = true.
Proof. repeat split; try reflexivity. discriminate. Qed.

(** ** Cover embedding *)

(** The branches that replace the pictures: embedding a cover into a FLAC
    object leaves exactly one picture, of type 3 (front cover), MIME type
    image/jpeg and description "Cover", whatever pictures the object held
    before; an [.m4a] object with a tag container ends with exactly one
    JPEG cover (a record with no type and no description). *)
Lemma embed_cover_single (fpath img_data : string) :
  (ext_of fpath = ".flac" ->
   forall tags pictures,
   exists audio',
     embed_cover (FLACFile tags pictures) fpath img_data = Ok audio'
     /\ pictures_of audio' = [EmbeddedPicture 3 "image/jpeg" "Cover" img_data]
     /\ forallb is_front_cover (pictures_of audio') = true)
  /\ (ext_of fpath = ".m4a" ->
      forall tags,
      exists audio',
        embed_cover (MP4File (Some tags)) fpath img_data = Ok audio'
        /\ pictures_of audio'
           = [EmbeddedCover {| cover_data := img_data; imageformat := FORMAT_JPEG |}]).
Proof.
  split; intros Hext; intros; unfold embed_cover; rewrite Hext; simpl;
    eexists; repeat split; reflexivity.
Qed.

Lemma embed_cover_single_witness :
  (exists audio',
     embed_cover (FLACFile None [cover_picture "old"; cover_picture "older"])
                 "cd1/track.FLAC" "new" = Ok audio'
     /\ pictures_of audio' = [EmbeddedPicture 3 "image/jpeg" "Cover" "new"]
     /\ forallb is_front_cover (pictures_of audio') = true)
  /\ (exists audio',
        embed_cover (MP4File (Some {| atoms := ∅; covr := None |})) "track.m4a" "new"
        = Ok audio'
        /\ pictures_of audio'
           = [EmbeddedCover {| cover_data := "new"; imageformat := FORMAT_JPEG |}]).
Proof.
  split.
  - apply (proj1 (embed_cover_single "cd1/track.FLAC" "new")). reflexivity.
  - apply (proj2 (embed_cover_single "track.m4a" "new")). reflexivity.
Defined.

(** C2: the code does not keep exactly one picture.  The [.mp3] branch
    adds the new picture without clearing the old ones, as the [.flac]
    branch beside it does, so an object that held two pictures holds
    three; and the chain has no branch for [.wav], so such an object
    keeps its two pictures and gains none. *)
Theorem embed_cover_keeps_pictures :
  length (pictures_of (MP3File (Some two_pictures))) = 2%nat
  /\ (exists audio',
        embed_cover (MP3File (Some two_pictures)) "song.mp3" "new" = Ok audio'
        /\ length (pictures_of audio') = 3%nat)
  /\ embed_cover (WAVEFile (Some two_pictures)) "song.wav" "new"
     = Ok (WAVEFile (Some two_pictures))
  /\ length (pictures_of (WAVEFile (Some two_pictures))) = 2%nat
  /\ (exists audio',
        embed_cover (FLACFile None [cover_picture "front"; cover_picture "back"])
                    "song.flac" "new" = Ok audio'
        /\ pictures_of audio' = [EmbeddedPicture 3 "image/jpeg" "Cover" "new"]).
Proof.
  split; [vm_compute; reflexivity|].
  split; [eexists; split; [reflexivity | vm_compute; reflexivity]|].
  split; [reflexivity|].
  split; [vm_compute; reflexivity|].
  eexists. split; reflexivity.
Qed.

(** ** Directory traversal *)

(** Induction on directory trees, with the hypothesis for every entry of
    a directory. *)
Lemma node_tree_ind (P : node -> Prop) :
  P File -> P DirLink ->
  (forall entries, Forall (fun e => P (snd e)) entries -> P (Dir entries)) ->
  forall n, P n.
Proof.
  intros HFile HLink HDir. fix IH 1. intros [|entries|].
  - exact HFile.
  - apply HDir. induction entries as [|e entries IHentries]; constructor.
    + apply IH.
    + exact IHentries.
  - exact HLink.
Qed.

Lemma collect_app (a b : list (string * list string * list string)) :
  collect (a ++ b) = collect a ++ collect b.
Proof. unfold collect. apply flat_map_app. Qed.

Lemma collect_flat_map {A} (f : A -> list (string * list string * list string))
      (l : list A) (p : string) :
  In p (collect (flat_map f l)) <-> exists x, In x l /\ In p (collect (f x)).
Proof.
  induction l as [|x l IH]; simpl.
  - split; [intros [] | intros (_ & [] & _)].
  - rewrite collect_app, in_app_iff, IH. split.
    + intros [H | (y & Hy & H)]; eauto.
    + intros (y & [<- | Hy] & H); eauto.
Qed.

Lemma collect_walk (n : node) :
  forall top p, In p (collect (walk top n)) <-> audio_under top n p.
Proof.
  induction n as [| |entries IH] using node_tree_ind; intros top p.
  - split; [intros [] | inversion 1].
  - split; [intros [] | inversion 1].
  - rewrite Stdlib.Lists.List.Forall_forall in IH.
    change (walk top (Dir entries))
      with ([(top, map fst (List.filter is_dir_entry entries),
              map fst (List.filter (fun e => negb (is_dir_entry e)) entries))]
            ++ flat_map (fun e => walk (Py.join top (fst e)) (snd e)) entries).
    rewrite collect_app, in_app_iff, collect_flat_map. split.
    + intros [H | (e & He & H)].
      * simpl in H. rewrite app_nil_r in H.
        apply in_map_iff in H as (name & <- & H).
        apply filter_In in H as [H Haudio].
        apply in_map_iff in H as ([name' child] & Hname & H). simpl in Hname. subst name'.
        apply filter_In in H as [H Hfile].
        destruct child; try discriminate Hfile.
        apply audio_here; assumption.
      * destruct e as [name child]. apply (audio_below _ _ name child); [exact He|].
        apply (IH _ He). exact H.
    + inversion 1 as [? ? name Hin Haudio | ? ? name child ? Hin Hbelow]; subst.
      * left. simpl. rewrite app_nil_r. apply in_map. apply filter_In. split; [|exact Haudio].
        apply (in_map fst _ (name, File)). apply filter_In. split; [exact Hin | reflexivity].
      * right. exists (name, child). split; [exact Hin|].
        apply (IH _ Hin). exact Hbelow.
Qed.

Lemma isabs_append (a x : string) : Py.isabs a = true -> Py.isabs (a +:+ x) = true.
Proof.
  unfold Py.isabs. destruct a as [|c a]; [discriminate|].
  change (String c a +:+ x) with (String c (a +:+ x)).
  cbn [Py.startswith]. rewrite !andb_true_r. trivial.
Qed.

Lemma isabs_join (a p : string) : Py.isabs a = true -> Py.isabs (Py.join a p) = true.
Proof.
  intros Ha. unfold Py.join.
  destruct (Py.startswith "/" p) eqn:Hp; [exact Hp|].
  destruct (String.eqb a "" || Py.endswith_sep a); apply isabs_append; exact Ha.
Qed.

Lemma audio_under_isabs (top : string) (n : node) (p : string) :
  audio_under top n p -> Py.isabs top = true -> Py.isabs p = true.
Proof.
  induction 1 as [top entries name _ _ | top entries name child p _ _ IH]; intros Habs.
  - apply isabs_join. exact Habs.
  - apply IH. apply isabs_join. exact Habs.
Qed.

(** *** The extension of a joined path *)

Lemma append_cons (c : ascii) (a b : string) : String c a +:+ b = String c (a +:+ b).
Proof. reflexivity. Qed.

Lemma append_assoc (a b c : string) : (a +:+ b) +:+ c = a +:+ b +:+ c.
Proof.
  induction a as [|x a IH]; [reflexivity|].
  rewrite !append_cons, IH. reflexivity.
Qed.

Lemma length_append (a b : string) :
  String.length (a +:+ b) = (String.length a + String.length b)%nat.
Proof.
  induction a as [|c a IH]; [reflexivity|].
  rewrite append_cons. simpl. rewrite IH. reflexivity.
Qed.

Lemma lower_append (a b : string) : Py.lower (a +:+ b) = Py.lower a +:+ Py.lower b.
Proof.
  induction a as [|c a IH]; [reflexivity|].
  rewrite append_cons. simpl. rewrite IH. reflexivity.
Qed.

Lemma lower_char_sep (c : ascii) :
  Ascii.eqb (Py.lower_char c) "/" = Ascii.eqb c "/".
Proof. destruct c as [[] [] [] [] [] [] [] []]; vm_compute; reflexivity. Qed.

Lemma lower_free_of_sep (s : string) :
  Py.free_of "/" (Py.lower s) = Py.free_of "/" s.
Proof.
  unfold Py.free_of. induction s as [|c s IH]; [reflexivity|].
  cbn [Py.lower Py.all_chars]. rewrite lower_char_sep, IH. reflexivity.
Qed.

Lemma lower_endswith_sep (s : string) :
  Py.endswith_sep (Py.lower s) = Py.endswith_sep s.
Proof.
  induction s as [|c s IH]; [reflexivity|].
  destruct s as [|d s]; [cbn [Py.lower Py.endswith_sep]; apply lower_char_sep|].
  exact IH.
Qed.

(** [rfind_from] in terms of [rfind]. *)
Lemma rfind_from_rfind (c : ascii) (s : string) (i last : Z) :
  Py.rfind_from c s i last
  = if Py.rfind c s <? 0 then last else i + Py.rfind c s.
Proof.
  unfold Py.rfind. revert i last.
  induction s as [|a s IH]; intros i last; [reflexivity|].
  simpl. rewrite (IH (i + 1)), (IH 1).
  destruct (Py.rfind_from c s 0 (-1) <? 0) eqn:Hr.
  - destruct (Ascii.eqb a c); simpl; [f_equal; lia | reflexivity].
  - apply Z.ltb_ge in Hr.
    destruct (1 + Py.rfind_from c s 0 (-1) <? 0) eqn:Hr'; [apply Z.ltb_lt in Hr'; lia | lia].
Qed.

Lemma rfind_from_bounds (c : ascii) (s : string) (i last : Z) :
  Z.min last i <= Py.rfind_from c s i last
  <= Z.max last (i + Z.of_nat (String.length s) - 1).
Proof.
  revert i last. induction s as [|a s IH]; intros i last; simpl String.length.
  - simpl. lia.
  - simpl Py.rfind_from. specialize (IH (i + 1) (if Ascii.eqb a c then i else last)).
    destruct (Ascii.eqb a c); lia.
Qed.

Lemma rfind_bounds (c : ascii) (s : string) :
  -1 <= Py.rfind c s <= Z.of_nat (String.length s) - 1.
Proof. unfold Py.rfind. pose proof (rfind_from_bounds c s 0 (-1)). lia. Qed.

Lemma rfind_free (c : ascii) (s : string) : Py.free_of c s = true -> Py.rfind c s = -1.
Proof.
  unfold Py.rfind. generalize 0. induction s as [|a s IH]; intros i H; [reflexivity|].
  simpl in H. apply andb_true_iff in H as [Ha Hs]. apply negb_true_iff in Ha.
  simpl. rewrite Ha. apply IH. exact Hs.
Qed.

Lemma rfind_from_append (c : ascii) (a b : string) (i last : Z) :
  Py.rfind_from c (a +:+ b) i last
  = Py.rfind_from c b (i + Z.of_nat (String.length a)) (Py.rfind_from c a i last).
Proof.
  revert i last. induction a as [|x a IH]; intros i last.
  - simpl. f_equal. lia.
  - rewrite append_cons. simpl Py.rfind_from. rewrite IH. f_equal.
    simpl String.length. lia.
Qed.

Lemma rfind_append (c : ascii) (a b : string) :
  Py.rfind c (a +:+ b)
  = if Py.rfind c b <? 0 then Py.rfind c a
    else Z.of_nat (String.length a) + Py.rfind c b.
Proof.
  unfold Py.rfind at 1. rewrite rfind_from_append, rfind_from_rfind. reflexivity.
Qed.

Lemma rfind_from_endswith_sep (a : string) (i last : Z) :
  Py.endswith_sep a = true ->
  Py.rfind_from "/" a i last = i + Z.of_nat (String.length a) - 1.
Proof.
  revert i last. induction a as [|c a IH]; intros i last Hend; [discriminate Hend|].
  destruct a as [|d a].
  - cbn [Py.endswith_sep] in Hend. cbn [Py.rfind_from String.length]. rewrite Hend. lia.
  - change (Py.endswith_sep (String c (String d a)))
      with (Py.endswith_sep (String d a)) in Hend.
    change (Py.rfind_from "/" (String c (String d a)) i last)
      with (Py.rfind_from "/" (String d a) (i + 1) (if Ascii.eqb c "/" then i else last)).
    rewrite (IH _ _ Hend). cbn [String.length]. lia.
Qed.

Lemma rfind_endswith_sep (a : string) :
  Py.endswith_sep a = true -> Py.rfind "/" a = Z.of_nat (String.length a) - 1.
Proof. intros Hend. unfold Py.rfind. rewrite (rfind_from_endswith_sep _ _ _ Hend). lia. Qed.

Lemma get_append (a b : string) (i : nat) :
  String.get (String.length a + i) (a +:+ b) = String.get i b.
Proof.
  induction a as [|c a IH]; [reflexivity|].
  rewrite append_cons. simpl. exact IH.
Qed.

Lemma has_non_dot_append (a b : string) (i k : nat) :
  Py.has_non_dot (a +:+ b) (String.length a + i) k = Py.has_non_dot b i k.
Proof.
  revert i. induction k as [|k IH]; intros i; [reflexivity|].
  simpl. rewrite get_append. rewrite <- Nat.add_succ_r, IH. reflexivity.
Qed.

Lemma substring_append (a b : string) (i m : nat) :
  String.substring (String.length a + i) m (a +:+ b) = String.substring i m b.
Proof.
  induction a as [|c a IH]; [reflexivity|].
  rewrite append_cons. simpl. exact IH.
Qed.

(** Below a prefix that ends with the separator, the extension is that of
    the last component. *)
Lemma splitext_append (a b : string) :
  Py.endswith_sep a = true -> Py.free_of "/" b = true ->
  (Py.splitext (a +:+ b)).2 = (Py.splitext b).2.
Proof.
  intros Ha Hb. unfold Py.splitext.
  rewrite !rfind_append, (rfind_free _ _ Hb), (rfind_endswith_sep _ Ha).
  change (-1 <? 0) with true. cbv iota.
  pose proof (rfind_bounds "." a) as Hdot_a.
  pose proof (rfind_bounds "." b) as Hdot_b.
  destruct (Py.rfind "." b <? 0) eqn:Hd.
  - apply Z.ltb_lt in Hd.
    replace (Py.rfind "." a >? Z.of_nat (String.length a) - 1) with false
      by (symmetry; rewrite Z.gtb_ltb; apply Z.ltb_ge; lia).
    replace (Py.rfind "." b >? -1) with false
      by (symmetry; rewrite Z.gtb_ltb; apply Z.ltb_ge; lia).
    reflexivity.
  - apply Z.ltb_ge in Hd.
    replace (Z.of_nat (String.length a) + Py.rfind "." b >? Z.of_nat (String.length a) - 1)
      with true by (symmetry; rewrite Z.gtb_ltb; apply Z.ltb_lt; lia).
    replace (Py.rfind "." b >? -1) with true
      by (symmetry; rewrite Z.gtb_ltb; apply Z.ltb_lt; lia).
    replace (Z.to_nat (Z.of_nat (String.length a) - 1 + 1))
      with (String.length a + 0)%nat by lia.
    replace (Z.to_nat (Z.of_nat (String.length a) + Py.rfind "." b
                       - (Z.of_nat (String.length a) - 1 + 1)))
      with (Z.to_nat (Py.rfind "." b - (-1 + 1))) by lia.
    rewrite has_non_dot_append. change (Z.to_nat (-1 + 1)) with 0%nat.
    destruct (Py.has_non_dot b 0 (Z.to_nat (Py.rfind "." b - (-1 + 1)))); [|reflexivity].
    simpl. unfold Py.slice_from.
    replace (Z.to_nat (Z.of_nat (String.length a) + Py.rfind "." b))
      with (String.length a + Z.to_nat (Py.rfind "." b))%nat by lia.
    rewrite substring_append, length_append. f_equal. lia.
Qed.

Lemma free_of_not_startswith (name : string) :
  Py.free_of "/" name = true -> Py.startswith "/" name = false.
Proof.
  destruct name as [|c name]; [reflexivity|].
  unfold Py.free_of. cbn [Py.all_chars Py.startswith].
  intros [Hc _]%andb_true_iff. apply negb_true_iff in Hc.
  rewrite Ascii.eqb_sym, Hc. reflexivity.
Qed.

Lemma endswith_sep_append_sep (a : string) : Py.endswith_sep (a +:+ "/") = true.
Proof.
  induction a as [|c a IH]; [reflexivity|].
  rewrite append_cons. destruct a as [|d a]; [reflexivity|].
  rewrite append_cons in *. exact IH.
Qed.

Lemma ext_of_join (top name : string) :
  Py.free_of "/" name = true -> ext_of (Py.join top name) = ext_of name.
Proof.
  intros Hname. unfold Py.join. rewrite (free_of_not_startswith _ Hname).
  unfold ext_of. destruct (String.eqb_spec top "") as [-> | _]; [reflexivity|].
  simpl orb. destruct (Py.endswith_sep top) eqn:Hend.
  - rewrite lower_append. apply splitext_append.
    + rewrite lower_endswith_sep. exact Hend.
    + rewrite lower_free_of_sep. exact Hname.
  - rewrite <- append_assoc, lower_append. apply splitext_append.
    + rewrite lower_endswith_sep. apply endswith_sep_append_sep.
    + rewrite lower_free_of_sep. exact Hname.
Qed.

Lemma audio_under_extension (top : string) (n : node) (p : string) :
  audio_under top n p -> names_ok n = true ->
  in_list (ext_of p) SUPPORTED_EXTENSIONS = true.
Proof.
  induction 1 as [top entries name Hin Haudio | top entries name child p Hin _ IH];
    intros Hok; simpl in Hok; rewrite forallb_forall in Hok;
    specialize (Hok _ Hin); apply andb_true_iff in Hok as [Hname Hchild].
  - rewrite (ext_of_join _ _ Hname). exact Haudio.
  - apply IH. exact Hchild.
Qed.

Lemma in_sorted (p : string) (l : list string) : In p (sorted l) <-> In p l.
Proof.
  unfold sorted. split; intros H.
  - eapply Permutation_in; [apply (merge_sort_Permutation String.le) | exact H].
  - eapply Permutation_in; [symmetry; apply (merge_sort_Permutation String.le) | exact H].
Qed.

Lemma sorted_sorted (l : list string) : StronglySorted String.le (sorted l).
Proof. unfold sorted. apply StronglySorted_merge_sort; apply _. Qed.

(** C8, as amended: for a root that is a directory, [find_audio_files]
    prints nothing and returns, in lexicographic order, exactly the joined
    paths of the plain entries with a supported extension found in the
    directory and in the directories below it; the paths are absolute when
    the searched root is, and each path has itself a supported extension
    (entry names being file names).  For a root that does not exist, or is
    not a directory, it returns the empty list and prints one error
    line. *)
Theorem find_audio_files_spec (os : OS) (base_dir : string) :
  (resolve os (search_root os base_dir) = None ->
   find_audio_files os base_dir
   = ([], ["Error: Directory '" +:+ search_root os base_dir +:+ "' does not exist."]))
  /\ (forall n, resolve os (search_root os base_dir) = Some n ->
        (forall entries, n <> Dir entries) ->
        find_audio_files os base_dir
        = ([], ["Error: '" +:+ search_root os base_dir +:+ "' is not a directory."]))
  /\ (forall entries, resolve os (search_root os base_dir) = Some (Dir entries) ->
        (find_audio_files os base_dir).2 = []
        /\ StronglySorted String.le (find_audio_files os base_dir).1
        /\ (forall p, In p (find_audio_files os base_dir).1
                      <-> audio_under (search_root os base_dir) (Dir entries) p)
        /\ (Py.isabs (search_root os base_dir) = true ->
            forall p, In p (find_audio_files os base_dir).1 -> Py.isabs p = true)
        /\ (names_ok (Dir entries) = true ->
            forall p, In p (find_audio_files os base_dir).1 ->
                      in_list (ext_of p) SUPPORTED_EXTENSIONS = true)).
Proof.
  unfold find_audio_files, exists_, isdir. repeat split.
  - intros H. rewrite H. reflexivity.
  - intros n H Hn. rewrite H. destruct n as [|entries|]; try reflexivity.
    destruct (Hn entries eq_refl).
  - rewrite H. reflexivity.
  - rewrite H. cbn [fst snd negb bool_decide]. apply sorted_sorted.
  - rewrite H. cbn [fst snd]. intros Hp. apply collect_walk, in_sorted, Hp.
  - rewrite H. cbn [fst snd]. intros Hp. apply in_sorted, collect_walk, Hp.
  - rewrite H. cbn [fst snd]. intros Habs p Hp.
    apply (audio_under_isabs (search_root os base_dir) (Dir entries)); [|exact Habs].
    apply collect_walk, in_sorted, Hp.
  - rewrite H. cbn [fst snd]. intros Hok p Hp.
    apply (audio_under_extension (search_root os base_dir) (Dir entries)); [|exact Hok].
    apply collect_walk, in_sorted, Hp.
Qed.

Lemma find_audio_files_spec_witness :
  find_audio_files srv_os "/nowhere"
  = ([], ["Error: Directory '/nowhere' does not exist."])
  /\ find_audio_files srv_os "/etc/hostname"
     = ([], ["Error: '/etc/hostname' is not a directory."])
  /\ (find_audio_files srv_os " '/srv/music' ").2 = []
  /\ StronglySorted String.le (find_audio_files srv_os " '/srv/music' ").1
  /\ In "/srv/music/live/c.flac" (find_audio_files srv_os " '/srv/music' ").1
  /\ (forall p, In p (find_audio_files srv_os " '/srv/music' ").1 -> Py.isabs p = true)
  /\ (forall p, In p (find_audio_files srv_os " '/srv/music' ").1 ->
                in_list (ext_of p) SUPPORTED_EXTENSIONS = true).
Proof.
  destruct (find_audio_files_spec srv_os "/nowhere") as (Hnone & _ & _).
  destruct (find_audio_files_spec srv_os "/etc/hostname") as (_ & Hfile & _).
  destruct (find_audio_files_spec srv_os " '/srv/music' ") as (_ & _ & Hdir).
  destruct (Hdir srv_music eq_refl) as (Hout & Hsorted & Hmem & Habs & Hext).
  split; [exact (Hnone eq_refl)|].
  split; [apply (Hfile File eq_refl); discriminate|].
  split; [exact Hout|]. split; [exact Hsorted|].
  split; [|split; [exact (Habs eq_refl) | exact (Hext eq_refl)]].
  apply Hmem.
  apply (audio_below _ _ "live" (Dir [("c.flac", File)])); [simpl; tauto|].
  change "/srv/music/live/c.flac"
    with (Py.join (Py.join (search_root srv_os " '/srv/music' ") "live") "c.flac").
  apply audio_here; [simpl; tauto | reflexivity].
Defined.

(** C8, as stated, fails: for the relative root [music] the path returned
    is the root joined with the file name, which is not absolute. *)
Lemma find_audio_files_counterexample :
  find_audio_files music_os "music" = (["music/a.mp3"], [])
  /\ Py.isabs "music/a.mp3" = false.
Proof. split; vm_compute; reflexivity. Qed.

(** * Further properties of the translator *)

Lemma get_tag_value_value (audio : handle) (tag filepath : string) :
  (get_tag_value audio tag filepath).1 = value_of (get_tag_value_body audio tag filepath).
Proof. unfold get_tag_value. destruct (get_tag_value_body audio tag filepath); reflexivity. Qed.

Lemma set_tag_value_object (audio : handle) (tag value filepath : string) :
  (set_tag_value audio tag value filepath).1.2
  = (set_tag_value_body audio tag value filepath).2.
Proof.
  unfold set_tag_value.
  destruct (set_tag_value_body audio tag value filepath) as [[|] ?]; reflexivity.
Qed.

Lemma set_tag_value_ok (audio : handle) (tag value filepath : string) :
  (set_tag_value audio tag value filepath).1.1 = true ->
  (set_tag_value_body audio tag value filepath).1 = Ok ().
Proof.
  unfold set_tag_value.
  destruct (set_tag_value_body audio tag value filepath) as [[[]|] ?];
    [reflexivity | discriminate].
Qed.

(** Both native-key tables are one-to-one. *)
Lemma ID3_TAG_MAP_inj (tag tag' : string) (c : FrameClass) :
  Py.dict_get ID3_TAG_MAP tag = Some c -> Py.dict_get ID3_TAG_MAP tag' = Some c ->
  tag = tag'.
Proof.
  unfold ID3_TAG_MAP. cbn [Py.dict_get].
  repeat match goal with
         | |- context [String.eqb ?s tag] => destruct (String.eqb_spec s tag) as [<-|_]
         end;
    try discriminate; intros [= <-];
    repeat match goal with
           | |- context [String.eqb ?s tag'] => destruct (String.eqb_spec s tag') as [<-|_]
           end;
    try discriminate; reflexivity.
Qed.

Lemma MP4_TAG_MAP_inj (tag tag' mp4_tag : string) :
  Py.dict_get MP4_TAG_MAP tag = Some mp4_tag -> Py.dict_get MP4_TAG_MAP tag' = Some mp4_tag ->
  tag = tag'.
Proof.
  unfold MP4_TAG_MAP. cbn [Py.dict_get].
  repeat match goal with
         | |- context [String.eqb ?s tag] => destruct (String.eqb_spec s tag) as [<-|_]
         end;
    try discriminate; intros [= <-];
    repeat match goal with
           | |- context [String.eqb ?s tag'] => destruct (String.eqb_spec s tag') as [<-|_]
           end;
    try discriminate; reflexivity.
Qed.

Lemma class_name_inj (c c' : FrameClass) : class_name c = class_name c' -> c = c'.
Proof. destruct c, c'; intros [=]; reflexivity. Qed.

(** ** One tag at a time *)

Lemma assign_id3_other (tags : ID3) (tag value tag' : string) (c' : FrameClass) :
  tag <> tag' ->
  Py.dict_get ID3_TAG_MAP tag' = Some c' ->
  assign_id3 tags tag value !! class_name c' = tags !! class_name c'.
Proof.
  intros Hne Hc'. unfold assign_id3.
  destruct (Py.dict_get ID3_TAG_MAP tag) as [c|] eqn:Hc; [|reflexivity].
  assert (class_name c <> class_name c') as Hname.
  { intros H%class_name_inj. subst c'. apply Hne. exact (ID3_TAG_MAP_inj _ _ _ Hc Hc'). }
  destruct (String.eqb tag "comment"); apply lookup_insert_ne; exact Hname.
Qed.

Lemma get_id3_after_set (audio : handle) (tag value tag' : string) :
  tag <> tag' ->
  value_of (get_id3 (set_id3 audio tag value).2 tag') = value_of (get_id3 audio tag').
Proof.
  intros Hne. destruct audio as [|tags|tags| | | | |]; try reflexivity.
  - unfold set_id3, get_id3. cbn [snd].
    destruct (Py.dict_get ID3_TAG_MAP tag') as [c'|] eqn:Hc'; [|destruct tags; reflexivity].
    rewrite (assign_id3_other _ _ _ _ _ Hne Hc').
    destruct tags as [tags|]; [reflexivity|]. cbn [ensure_id3].
    rewrite lookup_empty. reflexivity.
  - unfold set_id3, get_id3. cbn [snd].
    destruct (Py.dict_get ID3_TAG_MAP tag') as [c'|] eqn:Hc'; [|destruct tags; reflexivity].
    rewrite (assign_id3_other _ _ _ _ _ Hne Hc').
    destruct tags as [tags|]; [reflexivity|]. cbn [ensure_id3].
    rewrite lookup_empty. reflexivity.
Qed.

Lemma get_mp4_after_set (audio : handle) (tag value tag' : string) :
  tag <> tag' ->
  get_mp4 (set_mp4 audio tag value).2 tag' = get_mp4 audio tag'.
Proof.
  intros Hne. unfold set_mp4.
  destruct (Py.dict_get MP4_TAG_MAP tag) as [key|] eqn:Hkey; [|reflexivity].
  destruct (String.eqb key ""); [reflexivity|].
  destruct (mp4_rhs tag value) as [rhs|e]; [|reflexivity].
  destruct audio as [| | |[tags|]| | | |]; try reflexivity.
  cbn [mbind result_bind mp4_assign snd]. unfold get_mp4.
  destruct (Py.dict_get MP4_TAG_MAP tag') as [key'|] eqn:Hkey'; [|reflexivity].
  destruct (String.eqb key' ""); [reflexivity|]. cbn [atoms].
  rewrite lookup_insert_ne; [reflexivity|].
  intros ->. apply Hne. exact (MP4_TAG_MAP_inj _ _ _ Hkey Hkey').
Qed.

Lemma filter_filter_weaker {A} (p q : A -> bool) (l : list A) :
  (forall x, p x = true -> q x = true) ->
  List.filter p (List.filter q l) = List.filter p l.
Proof.
  intros Hpq. induction l as [|x l IH]; [reflexivity|]. simpl.
  destruct (q x) eqn:Hq; simpl.
  - rewrite IH. reflexivity.
  - destruct (p x) eqn:Hp; [rewrite (Hpq _ Hp) in Hq; discriminate | exact IH].
Qed.

Lemma filter_none {A} (p : A -> bool) (l : list A) :
  (forall x, In x l -> p x = false) -> List.filter p l = [].
Proof.
  induction l as [|x l IH]; intros H; [reflexivity|]. simpl.
  rewrite (H x (or_introl eq_refl)). apply IH. intros y Hy. apply H. right. exact Hy.
Qed.

Lemma vc_getitem_other (d : VCommentDict) (key key' : string) (values : list string) :
  Py.lower key <> Py.lower key' ->
  vc_getitem (List.filter (fun kv => negb (key_matches key kv)) d
              ++ ((fun v => (key, v)) <$> values)) key'
  = vc_getitem d key'.
Proof.
  intros Hne. unfold vc_getitem. destruct (negb (is_valid_key key')); [reflexivity|].
  rewrite List.filter_app, filter_filter_weaker, (filter_none _ (_ <$> values)).
  - rewrite app_nil_r. reflexivity.
  - intros [k v] [v' [[= <- <-] _]]%in_map_iff. unfold key_matches. cbn [fst].
    apply String.eqb_neq. exact Hne.
  - intros [k v]. unfold key_matches. cbn [fst]. intros Hk%String.eqb_eq.
    apply negb_true_iff, String.eqb_neq. rewrite Hk. intros H. apply Hne. symmetry. exact H.
Qed.

Lemma asf_getitem_other (d : ASFTags) (key key' : string) (values : list string) :
  key <> key' ->
  asf_getitem (asf_setitem d key values) key' = asf_getitem d key'.
Proof.
  intros Hne. unfold asf_getitem, asf_setitem.
  rewrite List.filter_app, filter_filter_weaker, (filter_none _ (_ <$> values)).
  - rewrite app_nil_r. reflexivity.
  - intros [k v] [v' [[= <- <-] _]]%in_map_iff. cbn [fst].
    apply String.eqb_neq. exact Hne.
  - intros [k v]. cbn [fst]. intros Hk%String.eqb_eq. subst k.
    apply negb_true_iff, String.eqb_neq. intros H. apply Hne. symmetry. exact H.
Qed.

Lemma get_generic_first_fetched (audio : handle) (tag : string) :
  audio <> NoneObject ->
  value_of (get_generic audio tag) = first_fetched (file_getitem audio tag).
Proof.
  intros Hnone. unfold get_generic.
  destruct audio; try contradiction;
    (destruct (file_getitem _ tag) as [[|v values]|[]]; reflexivity).
Qed.

Lemma vc_getitem_empty (key : string) : first_fetched (vc_getitem [] key) = None.
Proof. unfold vc_getitem. destruct (negb (is_valid_key key)); reflexivity. Qed.

Lemma vc_assign_other (d : VCommentDict) (key value key' : string) :
  Py.lower key <> Py.lower key' ->
  vc_getitem (vc_assign d key [value]).2 key' = vc_getitem d key'.
Proof.
  intros Hne. unfold vc_assign, vc_setitem.
  destruct (negb (is_valid_key key)); [reflexivity|].
  cbn [snd]. apply vc_getitem_other. exact Hne.
Qed.

Lemma get_generic_after_set (audio : handle) (tag value tag' : string) :
  Py.lower tag <> Py.lower tag' ->
  value_of (get_generic (file_setitem audio tag [value]).2 tag')
  = value_of (get_generic audio tag').
Proof.
  intros Hne.
  assert (tag <> tag') as Hne' by (intros ->; apply Hne; reflexivity).
  destruct audio as [| | | |tags pictures|tags|tags|tags]; try reflexivity.
  - rewrite !get_generic_first_fetched by
      (try (unfold file_setitem; destruct (vc_assign _ _ _)); discriminate).
    unfold file_setitem.
    pose proof (vc_assign_other (match tags with Some t => t | None => [] end)
                  tag value tag' Hne) as H.
    destruct (vc_assign _ tag [value]) as [r tags']. cbn [snd] in *.
    unfold file_getitem at 1. rewrite H.
    destruct tags as [tags|]; [reflexivity | apply vc_getitem_empty].
  - rewrite !get_generic_first_fetched by
      (try (unfold file_setitem; destruct (vc_assign _ _ _)); discriminate).
    unfold file_setitem.
    pose proof (vc_assign_other tags tag value tag' Hne) as H.
    destruct (vc_assign _ tag [value]) as [r tags']. cbn [snd] in *.
    unfold file_getitem. rewrite H. reflexivity.
  - rewrite !get_generic_first_fetched by
      (try (unfold file_setitem; destruct (vc_assign _ _ _)); discriminate).
    unfold file_setitem.
    pose proof (vc_assign_other tags tag value tag' Hne) as H.
    destruct (vc_assign _ tag [value]) as [r tags']. cbn [snd] in *.
    unfold file_getitem. rewrite H. reflexivity.
  - rewrite !get_generic_first_fetched by discriminate.
    unfold file_setitem, file_getitem. cbn [snd].
    rewrite (asf_getitem_other _ _ _ _ Hne'). reflexivity.
Qed.

(** X1: writing one tag leaves what is read for every other tag as it
    was: for two tags that differ even without regard to letter case,
    [get_tag_value] of the second returns the same value before and after
    [set_tag_value] of the first, on every object and path, whether the
    write succeeds or not. *)
Theorem set_leaves_other_tags (audio : handle) (tag value tag' filepath : string) :
  Py.lower tag <> Py.lower tag' ->
  (get_tag_value (set_tag_value audio tag value filepath).1.2 tag' filepath).1
  = (get_tag_value audio tag' filepath).1.
Proof.
  intros Hne.
  assert (tag <> tag') as Hne' by (intros ->; apply Hne; reflexivity).
  rewrite !get_tag_value_value, set_tag_value_object.
  unfold get_tag_value_body, set_tag_value_body.
  destruct (in_list (ext_of filepath) [".mp3"; ".wav"]).
  - apply get_id3_after_set. exact Hne'.
  - destruct (String.eqb (ext_of filepath) ".m4a").
    + rewrite get_mp4_after_set by exact Hne'. reflexivity.
    + apply get_generic_after_set. exact Hne.
Qed.

Lemma set_leaves_other_tags_witness :
  (get_tag_value
     (set_tag_value (OggVorbisFile [("ARTIST", "Nina"); ("title", "Old")])
                    "title" "New" "a.ogg").1.2 "artist" "a.ogg").1
  = (get_tag_value (OggVorbisFile [("ARTIST", "Nina"); ("title", "Old")]) "artist" "a.ogg").1.
Proof.
  apply (set_leaves_other_tags _ "title" "New" "artist" "a.ogg"). discriminate.
Defined.

(** ** The last write wins *)

Lemma assign_id3_twice (tags : ID3) (tag v1 v2 : string) :
  assign_id3 (assign_id3 tags tag v1) tag v2 = assign_id3 tags tag v2.
Proof.
  unfold assign_id3. destruct (Py.dict_get ID3_TAG_MAP tag) as [c|]; [|reflexivity].
  destruct (String.eqb tag "comment"); apply insert_insert_eq.
Qed.

Lemma set_id3_twice (audio : handle) (tag v1 v2 : string) :
  set_id3 (set_id3 audio tag v1).2 tag v2 = set_id3 audio tag v2.
Proof.
  destruct audio; try reflexivity; unfold set_id3; cbn [snd ensure_id3];
    rewrite assign_id3_twice; reflexivity.
Qed.

Lemma set_mp4_twice (audio : handle) (tag v1 v2 : string) :
  (set_mp4 audio tag v2).1 = Ok () ->
  set_mp4 (set_mp4 audio tag v1).2 tag v2 = set_mp4 audio tag v2.
Proof.
  unfold set_mp4.
  destruct (Py.dict_get MP4_TAG_MAP tag) as [key|]; [|reflexivity].
  destruct (String.eqb key ""); [reflexivity|].
  destruct (mp4_rhs tag v2) as [rhs2|e2]; [|discriminate].
  destruct (mp4_rhs tag v1) as [rhs1|e1]; [|reflexivity].
  destruct audio as [| | |[tags|]| | | |]; try reflexivity.
  cbn [mbind result_bind mp4_assign snd fst atoms covr]. intros _.
  rewrite insert_insert_eq. reflexivity.
Qed.

Lemma key_matches_self (key v : string) : key_matches key (key, v) = true.
Proof. unfold key_matches. apply String.eqb_refl. Qed.

Lemma vc_assign_twice (d : VCommentDict) (key v1 v2 : string) :
  vc_assign (vc_assign d key [v1]).2 key [v2] = vc_assign d key [v2].
Proof.
  unfold vc_assign, vc_setitem.
  destruct (negb (is_valid_key key)); cbn [snd]; [reflexivity|].
  cbn [fmap list_fmap]. rewrite List.filter_app.
  rewrite (filter_filter_weaker _ _ d) by trivial.
  cbn [List.filter]. rewrite key_matches_self. cbn [negb]. rewrite app_nil_r. reflexivity.
Qed.

Lemma asf_setitem_twice (d : ASFTags) (key v1 v2 : string) :
  asf_setitem (asf_setitem d key [v1]) key [v2] = asf_setitem d key [v2].
Proof.
  unfold asf_setitem. cbn [fmap list_fmap]. rewrite List.filter_app.
  rewrite (filter_filter_weaker _ _ d) by trivial.
  cbn [List.filter fst]. rewrite String.eqb_refl. cbn [negb]. rewrite app_nil_r. reflexivity.
Qed.

Lemma file_setitem_twice (audio : handle) (key v1 v2 : string) :
  file_setitem (file_setitem audio key [v1]).2 key [v2] = file_setitem audio key [v2].
Proof.
  destruct audio as [| | | |tags pictures|tags|tags|tags]; try reflexivity.
  - unfold file_setitem.
    pose proof (vc_assign_twice (match tags with Some t => t | None => [] end) key v1 v2) as H.
    destruct (vc_assign _ key [v1]) as [r1 d1]. cbn [snd] in *. rewrite H. reflexivity.
  - unfold file_setitem. pose proof (vc_assign_twice tags key v1 v2) as H.
    destruct (vc_assign _ key [v1]) as [r1 d1]. cbn [snd] in *. rewrite H. reflexivity.
  - unfold file_setitem. pose proof (vc_assign_twice tags key v1 v2) as H.
    destruct (vc_assign _ key [v1]) as [r1 d1]. cbn [snd] in *. rewrite H. reflexivity.
  - unfold file_setitem. cbn [snd]. rewrite asf_setitem_twice. reflexivity.
Qed.

(** X2: the last write wins.  When [set_tag_value] of a value succeeds on
    an object, it gives the same result (boolean, object, output) after
    an earlier [set_tag_value] of the same tag, whatever that earlier
    value was and whether it was accepted: nothing of the earlier write
    is left. *)
Theorem set_overwrites (audio : handle) (tag v1 v2 filepath : string) :
  (set_tag_value audio tag v2 filepath).1.1 = true ->
  set_tag_value (set_tag_value audio tag v1 filepath).1.2 tag v2 filepath
  = set_tag_value audio tag v2 filepath.
Proof.
  intros Hok%set_tag_value_ok. rewrite set_tag_value_object.
  unfold set_tag_value at 1 2. f_equal; revert Hok; unfold set_tag_value_body;
    destruct (in_list (ext_of filepath) [".mp3"; ".wav"]);
    [ intros _; rewrite set_id3_twice; reflexivity
    | destruct (String.eqb (ext_of filepath) ".m4a");
      [ intros Hok; rewrite (set_mp4_twice _ _ _ _ Hok); reflexivity
      | intros _; rewrite file_setitem_twice; reflexivity ] ].
Qed.

Lemma set_overwrites_witness :
  set_tag_value
    (set_tag_value (MP4File (Some {| atoms := ∅; covr := None |}))
                   "tracknumber" "12" "a.m4a").1.2 "tracknumber" "3" "a.m4a"
  = set_tag_value (MP4File (Some {| atoms := ∅; covr := None |})) "tracknumber" "3" "a.m4a".
Proof.
  apply (set_overwrites _ "tracknumber" "12" "3" "a.m4a"). reflexivity.
Defined.

(** ** Numbers as text *)

Lemma rev_app_rev_app (a b c : string) :
  String.rev_app (String.rev_app a b) c = String.rev_app b (a +:+ c).
Proof.
  revert b c. induction a as [|x a IH]; intros b c; [reflexivity|].
  cbn [String.rev_app]. rewrite IH. rewrite append_cons. reflexivity.
Qed.

Lemma append_empty_r (s : string) : s +:+ "" = s.
Proof. induction s as [|c s IH]; [reflexivity|]. rewrite append_cons, IH. reflexivity. Qed.

Lemma rev_rev (s : string) : String.rev (String.rev s) = s.
Proof. unfold String.rev. rewrite rev_app_rev_app. cbn [String.rev_app]. apply append_empty_r. Qed.

Lemma all_chars_rev_app (q : ascii -> bool) (a b : string) :
  Py.all_chars q (String.rev_app a b) = Py.all_chars q a && Py.all_chars q b.
Proof.
  revert b. induction a as [|x a IH]; intros b; [reflexivity|].
  cbn [String.rev_app Py.all_chars]. rewrite IH. cbn [Py.all_chars].
  destruct (q x), (Py.all_chars q a), (Py.all_chars q b); reflexivity.
Qed.

Lemma all_chars_app (q : ascii -> bool) (a b : string) :
  Py.all_chars q (a +:+ b) = Py.all_chars q a && Py.all_chars q b.
Proof.
  induction a as [|x a IH]; [reflexivity|].
  rewrite append_cons. cbn [Py.all_chars]. rewrite IH. apply andb_assoc.
Qed.

Lemma lstrip_none (p : ascii -> bool) (s : string) :
  Py.all_chars (fun c => negb (p c)) s = true -> Py.lstrip p s = s.
Proof.
  destruct s as [|c s]; [reflexivity|]. cbn [Py.all_chars Py.lstrip].
  intros [Hc _]%andb_true_iff. apply negb_true_iff in Hc. rewrite Hc. reflexivity.
Qed.

(** Stripping changes nothing in a string without the stripped
    characters. *)
Lemma strip_none (p : ascii -> bool) (s : string) :
  Py.all_chars (fun c => negb (p c)) s = true -> Py.strip p s = s.
Proof.
  intros H. unfold Py.strip, Py.rstrip. rewrite (lstrip_none _ _ H).
  rewrite lstrip_none; [apply rev_rev|].
  unfold String.rev. rewrite all_chars_rev_app, H. reflexivity.
Qed.

Lemma isdigit_not_space (c : ascii) : isdigit c = true -> negb (Py.int_space c) = true.
Proof. destruct c as [[] [] [] [] [] [] [] []]; vm_compute; trivial. Qed.

Lemma is_nat_pretty_char (r : N) :
  (r < 10)%N -> Ascii.is_nat (pretty_N_char r) = Some (N.to_nat r).
Proof.
  intros Hr.
  destruct r as [|[[[|[]|]|[[]|[]|]|]|[[|[]|]|[[]|[]|]|]|]]; try reflexivity; lia.
Qed.

(** The decimal digits of a positive number: how [pretty] lays them out
    and how [int] reads them back. *)
Lemma pretty_N_go_digits (x : N) :
  (0 < x)%N ->
  exists ds k,
    (forall s, pretty_N_go x s = ds +:+ s)
    /\ (exists c d rest, ds = String c rest /\ Ascii.is_nat c = Some d)
    /\ Py.all_chars isdigit ds = true
    /\ (forall s acc b,
          Py.int_digits (ds +:+ s) acc b = Py.int_digits s (acc * k + Z.of_N x) true).
Proof.
  induction (N.lt_wf_0 x) as [x _ IH]. intros Hx.
  pose proof (N.mod_lt x 10%N ltac:(lia)) as Hr.
  pose proof (is_nat_pretty_char _ Hr) as Hc.
  pose proof (N.div_mod x 10%N ltac:(lia)) as Hdm.
  destruct (N.eq_dec (N.div x 10%N) 0%N) as [Hq|Hq].
  - exists (String (pretty_N_char (N.modulo x 10%N)) ""), 10. repeat split.
    + intros s. rewrite pretty_N_go_step by exact Hx. rewrite Hq. reflexivity.
    + eauto.
    + cbn [Py.all_chars]. unfold isdigit. rewrite Hc. reflexivity.
    + intros s acc b. rewrite append_cons. cbn [Py.int_digits]. rewrite Hc.
      f_equal. cbn [String.append]. lia.
  - destruct (IH (N.div x 10%N)) as (ds & k & Hgo & (c & d & rest & -> & Hd) & Hall & Hint).
    { apply N.div_lt; lia. }
    { lia. }
    exists (String c rest +:+ String (pretty_N_char (N.modulo x 10%N)) ""), (10 * k).
    repeat split.
    + intros s. rewrite pretty_N_go_step by exact Hx. rewrite Hgo, append_assoc. reflexivity.
    + rewrite append_cons. eauto.
    + rewrite all_chars_app, Hall. cbn [Py.all_chars]. unfold isdigit. rewrite Hc. reflexivity.
    + intros s acc b. rewrite append_assoc, Hint, append_cons.
      cbn [Py.int_digits]. rewrite Hc. cbn [String.append]. f_equal. lia.
Qed.

Lemma int_unsigned (c : ascii) (d : nat) (rest : string) :
  Ascii.is_nat c = Some d ->
  Py.strip Py.int_space (String c rest) = String c rest ->
  Py.int (String c rest) = Py.int_digits (String c rest) 0 false.
Proof.
  intros Hc Hstrip. unfold Py.int. rewrite Hstrip.
  destruct c as [[] [] [] [] [] [] [] []]; try (vm_compute in Hc; discriminate Hc);
    reflexivity.
Qed.

Lemma int_str_positive (p : positive) : Py.int (pretty (Npos p)) = Some (Z.pos p).
Proof.
  destruct (pretty_N_go_digits (Npos p) ltac:(lia))
    as (ds & k & Hgo & (c & d & rest & -> & Hd) & Hall & Hint).
  change (pretty (Npos p)) with (pretty_N_go (Npos p) "").
  rewrite Hgo, append_empty_r.
  rewrite (int_unsigned _ _ _ Hd).
  - specialize (Hint "" 0 false). rewrite append_empty_r in Hint. rewrite Hint. reflexivity.
  - apply strip_none. revert Hall. apply all_chars_impl, isdigit_not_space.
Qed.

(** [int(str(n)) == n] *)
Lemma int_str_int (n : Z) : Py.int (Py.str_int n) = Some n.
Proof.
  destruct n as [|p|p]; [reflexivity | apply int_str_positive |].
  unfold Py.str_int. change (pretty (Z.neg p)) with ("-" +:+ pretty (Npos p)).
  destruct (pretty_N_go_digits (Npos p) ltac:(lia))
    as (ds & k & Hgo & (c & d & rest & -> & Hd) & Hall & Hint).
  change (pretty (Npos p)) with (pretty_N_go (Npos p) "").
  rewrite Hgo, append_empty_r.
  assert (Py.all_chars (fun c => negb (Py.int_space c)) (String c rest) = true) as Hns
    by (revert Hall; apply all_chars_impl, isdigit_not_space).
  change ("-" +:+ String c rest) with (String "-" (String c rest)).
  unfold Py.int. rewrite strip_none.
  - cbv iota beta.
    specialize (Hint "" 0 false). rewrite append_empty_r in Hint. rewrite Hint. reflexivity.
  - change (negb (Py.int_space "-")
            && Py.all_chars (fun c => negb (Py.int_space c)) (String c rest) = true).
    rewrite Hns. reflexivity.
Qed.

(** X3: a track or disc number read from an [.m4a] object and written
    back as read does not restore what was stored: whatever total and
    further pairs the atom held, it then holds the single pair [(n, 0)]. *)
Theorem mp4_number_written_back
  (tags : MP4Tags) (tag filepath mp4_tag : string) (n total : Z) (more : list (Z * Z)) :
  ext_of filepath = ".m4a" ->
  tag = "tracknumber" \/ tag = "discnumber" ->
  Py.dict_get MP4_TAG_MAP tag = Some mp4_tag ->
  atoms tags !! mp4_tag = Some (MP4Pairs ((n, total) :: more)) ->
  (get_tag_value (MP4File (Some tags)) tag filepath).1 = Some (Py.str_int n)
  /\ set_tag_value (MP4File (Some tags)) tag (Py.str_int n) filepath
     = (true,
        MP4File (Some {| atoms := <[mp4_tag := MP4Pairs [(n, 0)]]> (atoms tags);
                         covr := covr tags |}),
        []).
Proof.
  intros Hext Htag Hkey Hatom.
  destruct (mp4_key_of_number_tag _ Htag) as (key & Hkey' & Hne & Hnum).
  rewrite Hkey in Hkey'. injection Hkey' as <-. split.
  - unfold get_tag_value. rewrite (get_body_mp4 _ _ _ Hext).
    unfold get_mp4. rewrite Hkey, Hne, Hatom, Hnum. reflexivity.
  - unfold set_tag_value. rewrite (set_body_mp4 _ _ _ _ Hext).
    unfold set_mp4, mp4_rhs. rewrite Hkey, Hne, Hnum, int_str_int. reflexivity.
Qed.

Lemma mp4_number_written_back_witness :
  (get_tag_value (MP4File (Some {| atoms := {[ "trkn" := MP4Pairs [(3, 12)] ]}; covr := None |}))
                 "tracknumber" "03 Song.m4a").1 = Some (Py.str_int 3)
  /\ set_tag_value (MP4File (Some {| atoms := {[ "trkn" := MP4Pairs [(3, 12)] ]}; covr := None |}))
                   "tracknumber" (Py.str_int 3) "03 Song.m4a"
     = (true,
        MP4File (Some {| atoms := <["trkn" := MP4Pairs [(3, 0)]]>
                                    {[ "trkn" := MP4Pairs [(3, 12)] ]};
                         covr := None |}),
        []).
Proof.
  pose proof (mp4_number_written_back
                {| atoms := {[ "trkn" := MP4Pairs [(3, 12)] ]}; covr := None |}
                "tracknumber" "03 Song.m4a" "trkn" 3 12 []) as H.
  cbn [atoms covr] in H. apply H;
    [reflexivity | left; reflexivity | reflexivity | apply lookup_singleton_eq].
Defined.

Lemma mp4_key_not_empty (tag mp4_tag : string) :
  Py.dict_get MP4_TAG_MAP tag = Some mp4_tag -> String.eqb mp4_tag "" = false.
Proof.
  unfold MP4_TAG_MAP. cbn [Py.dict_get].
  repeat match goal with
         | |- context [String.eqb ?s tag] => destruct (String.eqb s tag)
         end;
    intros [= <-]; reflexivity.
Qed.

(** X4: a failed load does no harm later.  On the [None] that
    [load_audio_file] returns for a file it could not load,
    [get_tag_value] returns [None] for every tag and path, and
    [set_tag_value] changes nothing; it reports failure, except under
    [.m4a] for a tag without a native key, where it reports success. *)
Theorem translator_on_failed_load (tag value filepath : string) :
  get_tag_value NoneObject tag filepath = (None, NoneObject)
  /\ (set_tag_value NoneObject tag value filepath).1.2 = NoneObject
  /\ ((set_tag_value NoneObject tag value filepath).1.1 = true
      <-> ext_of filepath = ".m4a" /\ Py.dict_get MP4_TAG_MAP tag = None).
Proof.
  unfold get_tag_value, set_tag_value, get_tag_value_body, set_tag_value_body.
  destruct (in_list (ext_of filepath) [".mp3"; ".wav"]) eqn:Hid3.
  - split; [reflexivity|]. split; [reflexivity|]. split; [discriminate|].
    intros [Hext _]. rewrite Hext in Hid3. discriminate Hid3.
  - destruct (String.eqb_spec (ext_of filepath) ".m4a") as [Hext|Hext].
    + unfold get_mp4, set_mp4.
      destruct (Py.dict_get MP4_TAG_MAP tag) as [key|] eqn:Hkey.
      * rewrite (mp4_key_not_empty _ _ Hkey).
        destruct (mp4_rhs tag value);
          (split; [reflexivity|]; split; [reflexivity|]; split;
           [discriminate | intros [_ [=]]]).
      * split; [reflexivity|]. split; [reflexivity|]. split; [auto | reflexivity].
    + split; [reflexivity|]. split; [reflexivity|]. split; [discriminate|].
      intros [H _]. contradiction.
Qed.

(** * Further properties of the traversal *)

Lemma same_tree_induction (P : node -> node -> Prop) :
  P File File -> P DirLink DirLink ->
  (forall es1 es2 es3,
     Forall2 (fun a b => fst a = fst b /\ same_tree (snd a) (snd b) /\ P (snd a) (snd b))
             es1 es2 ->
     Permutation es2 es3 -> P (Dir es1) (Dir es3)) ->
  forall n n', same_tree n n' -> P n n'.
Proof.
  intros HFile HLink HDir. fix IH 3. intros n n' [| |es1 es2 es3 Hall Hperm].
  - exact HFile.
  - exact HLink.
  - apply (HDir es1 es2 es3); [|exact Hperm].
    clear Hperm. induction Hall as [|a b es1 es2 [Hname Hsame] _ IHall]; constructor.
    + split; [exact Hname|]. split; [exact Hsame|]. apply IH. exact Hsame.
    + exact IHall.
Qed.

Lemma same_tree_is_dir (n n' : node) (name name' : string) :
  same_tree n n' -> is_dir_entry (name, n) = is_dir_entry (name', n').
Proof. intros [| |]; reflexivity. Qed.

Lemma Permutation_list_filter {A} (p : A -> bool) (l l' : list A) :
  Permutation l l' -> Permutation (List.filter p l) (List.filter p l').
Proof.
  induction 1 as [|x l l' _ IH|x y l|l l' l'' _ IH1 _ IH2]; simpl.
  - constructor.
  - destruct (p x); [constructor|]; exact IH.
  - destruct (p x), (p y); try reflexivity. constructor.
  - etransitivity; eassumption.
Qed.

Lemma collect_Permutation (a b : list (string * list string * list string)) :
  Permutation a b -> Permutation (collect a) (collect b).
Proof. unfold collect. apply Permutation_flat_map. Qed.

Lemma walk_Dir (top : string) (entries : list (string * node)) :
  collect (walk top (Dir entries))
  = map (Py.join top)
        (List.filter is_audio_name
           (map fst (List.filter (fun e => negb (is_dir_entry e)) entries)))
    ++ collect (flat_map (fun e => walk (Py.join top (fst e)) (snd e)) entries).
Proof.
  change (walk top (Dir entries))
    with ([(top, map fst (List.filter is_dir_entry entries),
            map fst (List.filter (fun e => negb (is_dir_entry e)) entries))]
          ++ flat_map (fun e => walk (Py.join top (fst e)) (snd e)) entries).
  rewrite collect_app. f_equal. simpl. apply app_nil_r.
Qed.

(** Listing order does not change what is collected, as a multiset. *)
Lemma same_tree_collect (n n' : node) :
  same_tree n n' ->
  forall top, Permutation (collect (walk top n)) (collect (walk top n')).
Proof.
  induction 1 as [| |es1 es2 es3 Hall Hperm] using same_tree_induction; intros top;
    [reflexivity | reflexivity |].
  transitivity (collect (walk top (Dir es2))).
  - rewrite !walk_Dir. apply Permutation_app.
    + replace (map fst (List.filter (fun e => negb (is_dir_entry e)) es2))
        with (map fst (List.filter (fun e => negb (is_dir_entry e)) es1)); [reflexivity|].
      clear Hperm. induction Hall as [|[n1 c1] [n2 c2] es1 es2 (Hn & Hs & _) _ IH];
        [reflexivity|].
      cbn [fst snd] in Hn, Hs. subst n2. cbn [List.filter].
      rewrite (same_tree_is_dir _ _ n1 n1 Hs).
      destruct (negb (is_dir_entry (n1, c2))); cbn [map fst]; rewrite IH; reflexivity.
    + clear Hperm. induction Hall as [|[n1 c1] [n2 c2] es1 es2 (Hn & _ & HP) _ IH];
        [reflexivity|].
      cbn [fst snd] in Hn, HP. subst n2. cbn [flat_map fst snd].
      rewrite !collect_app. apply Permutation_app; [apply HP | exact IH].
  - rewrite !walk_Dir. apply Permutation_app.
    + apply Permutation_map, Permutation_list_filter, Permutation_map,
        Permutation_list_filter, Hperm.
    + apply collect_Permutation, Permutation_flat_map, Hperm.
Qed.

Lemma sorted_Permutation (l l' : list string) :
  Permutation l l' -> sorted l = sorted l'.
Proof.
  intros H. apply (StronglySorted_unique String.le); try apply sorted_sorted.
  unfold sorted. rewrite !merge_sort_Permutation. exact H.
Qed.

Lemma same_files_search_root (os os' : OS) (base_dir : string) :
  same_files os os' -> search_root os base_dir = search_root os' base_dir.
Proof.
  intros [Hhome _]. unfold search_root, expanduser.
  destruct (negb (Py.startswith "~" _)); [reflexivity|].
  rewrite Hhome. reflexivity.
Qed.

(** X5: the result of [find_audio_files] does not depend on the order in
    which the operating system lists the entries of a directory, at any
    depth: two machines that differ only in that order give the same
    list and the same output. *)
Theorem find_audio_files_listing_order (os os' : OS) (base_dir : string) :
  same_files os os' ->
  find_audio_files os base_dir = find_audio_files os' base_dir.
Proof.
  intros Hsame. pose proof (same_files_search_root _ _ base_dir Hsame) as Hroot.
  destruct Hsame as [_ Hres]. specialize (Hres (search_root os base_dir)).
  unfold find_audio_files, exists_, isdir. rewrite <- Hroot.
  destruct (resolve os (search_root os base_dir)) as [n|],
           (resolve os' (search_root os base_dir)) as [n'|];
    try contradiction; [|reflexivity].
  pose proof (same_tree_collect _ _ Hres (search_root os base_dir)) as Hperm.
  destruct Hres as [| |es1 es2 es3 Hall Hp]; try reflexivity.
  cbn [negb]. rewrite (sorted_Permutation _ _ Hperm). reflexivity.
Qed.

(** * Properties of the analysis and of its display *)

Lemma dict_get_set {V} (d : list (string * V)) (k k' : string) (v : V) :
  Py.dict_get (dict_set d k v) k'
  = if String.eqb k k' then Some v else Py.dict_get d k'.
Proof.
  induction d as [|[k0 v0] d IH]; cbn [dict_set Py.dict_get].
  - reflexivity.
  - destruct (String.eqb_spec k0 k) as [->|Hk0]; cbn [Py.dict_get].
    + destruct (String.eqb k k'); reflexivity.
    + rewrite IH. destruct (String.eqb_spec k0 k') as [->|_]; [|reflexivity].
      destruct (String.eqb_spec k k') as [->|_]; [contradiction | reflexivity].
Qed.

Lemma filed_dict_set (d : list (string * list string)) (value : string)
      (files : list string) :
  (filed (dict_set d value files) + length (default [] (Py.dict_get d value))
   = filed d + length files)%nat.
Proof.
  unfold filed. induction d as [|[k0 v0] d IH]; cbn [dict_set Py.dict_get].
  - simpl. lia.
  - destruct (String.eqb k0 value); simpl in *; lia.
Qed.

Lemma filed_under_record (m : metadata) (tag value filename tag' : string) :
  filed_under (record_value m tag value filename) tag'
  = (filed_under m tag' + if String.eqb tag tag' then 1 else 0)%nat.
Proof.
  unfold filed_under, record_value. rewrite dict_get_set.
  destruct (String.eqb tag tag') eqn:Htag; [|lia].
  apply String.eqb_eq in Htag. subst tag'. cbn [from_option id].
  pose proof (filed_dict_set (default [] (Py.dict_get m tag)) value
                (default [] (Py.dict_get (default [] (Py.dict_get m tag)) value)
                 ++ [filename])) as H.
  rewrite length_app in H. cbn [length] in H. lia.
Qed.

Lemma filed_under_analyze_file (audio : handle) (filepath : string)
      (selected_tags : list string) (m : metadata) (tag : string) :
  filed_under (analyze_file audio filepath selected_tags m) tag
  = (filed_under m tag + count_occ string_dec selected_tags tag)%nat.
Proof.
  unfold analyze_file. revert m.
  induction selected_tags as [|t tags IH]; intros m; cbn [fold_left count_occ]; [lia|].
  rewrite IH, filed_under_record.
  destruct (string_dec t tag), (String.eqb_spec t tag); try contradiction; lia.
Qed.

Lemma filed_under_analyze_from (os : OS) (audio_files selected_tags : list string)
      (m : metadata) (out : list string) (tag : string) :
  filed_under (analyze_from os audio_files selected_tags m out).1 tag
  = (filed_under m tag
     + length (loadable os audio_files) * count_occ string_dec selected_tags tag)%nat.
Proof.
  revert m out. induction audio_files as [|p files IH]; intros m out.
  - simpl. lia.
  - cbn [analyze_from loadable List.filter]. unfold loads at 1.
    destruct (load_audio_file os p) as [audio printed]. cbn [fst].
    destruct audio; rewrite IH; fold (loadable os files);
      rewrite ?filed_under_analyze_file; cbn [length]; lia.
Qed.

(** X6: [analyze_metadata] files every file that loads exactly once for
    each selected tag: for a tag, the sizes of its groups add up to the
    number of files that load, times the number of times the tag was
    selected.  Files that do not load are in no group. *)
Theorem analyze_metadata_counts (os : OS) (audio_files selected_tags : list string)
        (tag : string) :
  filed_under (analyze_metadata os audio_files selected_tags).1 tag
  = (length (loadable os audio_files) * count_occ string_dec selected_tags tag)%nat.
Proof. unfold analyze_metadata. rewrite filed_under_analyze_from. reflexivity. Qed.

Lemma key_leb_trans (a b c : bool * string) :
  key_leb a b = true -> key_leb b c = true -> key_leb a c = true.
Proof.
  destruct a as [[] a], b as [[] b], c as [[] c]; unfold key_leb; cbn [fst snd];
    try discriminate; try reflexivity;
    intros Hab Hbc; apply Is_true_true; apply Is_true_true in Hab, Hbc;
    exact (transitivity (R := String.le) Hab Hbc).
Qed.

Lemma key_leb_total (a b : bool * string) : key_leb a b = true \/ key_leb b a = true.
Proof.
  destruct a as [[] a], b as [[] b]; unfold key_leb; cbn [fst snd]; auto;
    destruct (String.leb_total a b); auto.
Qed.

#[global] Instance value_le_trans : Transitive value_le.
Proof. intros x y z. unfold value_le. apply key_leb_trans. Qed.

#[global] Instance value_le_total : Total value_le.
Proof. intros x y. unfold value_le. apply key_leb_total. Qed.

(** In a list sorted by the display's key, the groups with a value come
    first, in ascending order, and the groups [Not Set] last. *)
Lemma value_sorted_split (l : list (string * list string)) :
  StronglySorted value_le l ->
  exists named unset,
    l = named ++ unset
    /\ Forall (fun x => x.1 <> "[Not Set]") named
    /\ Forall (fun x => x.1 = "[Not Set]") unset
    /\ StronglySorted String.le (map fst named).
Proof.
  induction 1 as [|x l Hl IH Hx].
  - exists [], []. repeat split; constructor.
  - destruct IH as (named & unset & -> & Hnamed & Hunset & Hsorted).
    pose proof (proj1 (Forall_forall _ _) Hx) as Hx'.
    destruct (String.eqb_spec x.1 "[Not Set]") as [Hkey|Hkey].
    + exists [], (x :: named ++ unset).
      split; [reflexivity|]. split; [constructor|]. split; [|constructor].
      constructor; [exact Hkey|]. apply Forall_forall. intros y Hy.
      specialize (Hx' y Hy).
      unfold value_le, not_set_key, key_leb in Hx'. cbn [fst snd] in Hx'.
      rewrite Hkey in Hx'. cbn in Hx'.
      destruct (String.eqb_spec y.1 "[Not Set]"); [assumption | discriminate Hx'].
    + exists (x :: named), unset.
      split; [reflexivity|]. split; [constructor; assumption|]. split; [assumption|].
      cbn [map]. constructor; [exact Hsorted|].
      apply Forall_forall. intros k [y [-> Hy]]%list_elem_of_fmap.
      specialize (Hx' y ltac:(apply elem_of_app; left; exact Hy)).
      pose proof (proj1 (Forall_forall _ _) Hnamed y Hy) as Hy'. cbn beta in Hy'.
      unfold value_le, not_set_key, key_leb in Hx'. cbn [fst snd] in Hx'.
      destruct (String.eqb_spec x.1 "[Not Set]"); [contradiction|].
      destruct (String.eqb_spec y.1 "[Not Set]"); [contradiction|].
      apply Is_true_true. exact Hx'.
Qed.

(** X7: the display lists the values of a tag in ascending order, with
    the group of the files that have none ("[Not Set]") after all the
    others; the sorted list has the entries of the table, no more and no
    fewer. *)
Theorem sorted_values_order (tag_data : list (string * list string)) :
  exists named unset,
    sorted_values tag_data = named ++ unset
    /\ Forall (fun x => x.1 <> "[Not Set]") named
    /\ Forall (fun x => x.1 = "[Not Set]") unset
    /\ StronglySorted String.le (map fst named)
    /\ Permutation (named ++ unset) tag_data.
Proof.
  destruct (value_sorted_split (sorted_values tag_data)) as (named & unset & H & ?).
  { unfold sorted_values. apply StronglySorted_merge_sort; apply _. }
  exists named, unset. repeat split; try tauto.
  rewrite <- H. unfold sorted_values. apply merge_sort_Permutation.
Qed.

Section Display.

Variable percent : nat -> nat -> string.

Lemma value_lines_length (total : nat) (x : string * list string) :
  (length (value_lines percent total x) <= 4)%nat.
Proof.
  destruct x as [value files]. unfold value_lines. cbn [length].
  destruct (length files <=? 3)%nat eqn:Hcount.
  - apply Nat.leb_le in Hcount. rewrite length_fmap. lia.
  - rewrite length_app, length_fmap, length_take. cbn [length]. lia.
Qed.

Lemma flat_map_length_bound {A B} (f : A -> list B) (k : nat) (l : list A) :
  (forall x, length (f x) <= k)%nat -> (length (flat_map f l) <= k * length l)%nat.
Proof.
  intros Hf. induction l as [|x l IH]; cbn [flat_map length]; [lia|].
  rewrite length_app. specialize (Hf x). lia.
Qed.

(** X8: the display of a tag is short however many files there are: two
    heading lines, then at most four lines for each distinct value (its
    own line, at most three lines of files or two and a line that counts
    the rest), or the single line that says there is nothing. *)
Theorem display_length (metadata_map : metadata) (tag : string) (audio_files : list string) :
  (length (display_metadata_analysis percent metadata_map tag audio_files)
   <= Nat.max 3 (2 + 4 * length (default [] (Py.dict_get metadata_map tag))))%nat.
Proof.
  unfold display_metadata_analysis. rewrite length_app. cbn [length].
  destruct (default [] (Py.dict_get metadata_map tag)) as [|x tag_data] eqn:Hdata.
  - cbn [length]. lia.
  - pose proof (flat_map_length_bound (value_lines percent (length audio_files)) 4
                  (sorted_values (x :: tag_data)) (value_lines_length _)) as H.
    assert (length (sorted_values (x :: tag_data)) = length (x :: tag_data)) as Hlen.
    { apply Permutation_length. unfold sorted_values. apply merge_sort_Permutation. }
    rewrite Hlen in H. lia.
Qed.

End Display.

(** * Properties of the interactive part *)

Section SessionProperties.

Context {W : Type}.
Variable os_of : W -> OS.
Variable save_audio : W -> string -> handle -> result W.
Variable percent : nat -> nat -> string.

Lemma io_bind_returned {A B} (m : IO (W:=W) A) (k : A -> IO B) (c c' : console (W:=W)) (b : B) :
  io_bind m k c = (Returned b, c') ->
  exists a c1, m c = (Returned a, c1) /\ k a c1 = (Returned b, c').
Proof.
  unfold io_bind. destruct (m c) as [[a|e|] c1]; [eauto | discriminate | discriminate].
Qed.

Lemma input_until_from_returned {A} (prompt : string) (answer : string -> A + list string)
      (lines out rest out' : list string) (a : A) :
  input_until_from prompt answer lines out = (Returned a, rest, out') ->
  exists line, In line lines /\ answer line = inl a.
Proof.
  revert out. induction lines as [|line lines IH]; intros out; cbn [input_until_from].
  - discriminate.
  - destruct (answer line) as [a'|texts] eqn:Hline.
    + intros [= -> _ _]. exists line. split; [left; reflexivity | exact Hline].
    + intros H. destruct (IH _ H) as (l & Hl & Ha). exists l. split; [right|]; assumption.
Qed.

Lemma input_until_returned {A} (prompt : string) (answer : string -> A + list string)
      (c c' : console (W:=W)) (a : A) :
  input_until prompt answer c = (Returned a, c') ->
  exists line, In line (stdin c) /\ answer line = inl a.
Proof.
  unfold input_until.
  destruct (input_until_from prompt answer (stdin c) (stdout c)) as [[r rest] out] eqn:H.
  intros [= -> _]. exact (input_until_from_returned _ _ _ _ _ _ _ H).
Qed.

Lemma dict_get_In {V} (d : list (string * V)) (k : string) (v : V) :
  Py.dict_get d k = Some v -> In v (map snd d).
Proof.
  induction d as [|[k0 v0] d IH]; cbn [Py.dict_get map snd]; [discriminate|].
  destruct (String.eqb k0 k); [intros [= ->]; left; reflexivity | right; auto].
Qed.

Lemma chosen_tags_canonical (choices : list string) (tag : string) :
  In tag (chosen_tags choices) -> In tag canonical_tags.
Proof.
  unfold chosen_tags. intros H. apply list_elem_of_In, list_elem_of_omap in H.
  destruct H as (c & _ & Hc). exact (dict_get_In _ _ _ Hc).
Qed.

Lemma dict_set_In {V} (d : list (string * V)) (k k' : string) (v v' : V) :
  In (k', v') (dict_set d k v) -> (k' = k /\ v' = v) \/ In (k', v') d.
Proof.
  induction d as [|[k0 v0] d IH]; cbn [dict_set].
  - intros [[= <- <-]|[]]. left. split; reflexivity.
  - destruct (String.eqb_spec k0 k) as [->|_].
    + intros [[= <- <-]|H]; [left; split; reflexivity | right; right; exact H].
    + intros [H|H]; [right; left; exact H|].
      destruct (IH H) as [?|?]; [left; assumption | right; right; assumption].
Qed.

Lemma setup_invariant_start (selected : list string) : setup_invariant selected ([], []).
Proof. split; [intros tag [] | intros tag value []]. Qed.

Lemma in_list_In (x : string) (l : list string) : in_list x l = true <-> In x l.
Proof.
  unfold in_list. rewrite existsb_exists. split.
  - intros (y & Hy & ->%String.eqb_eq). exact Hy.
  - intros H. exists x. split; [exact H | apply String.eqb_refl].
Qed.

Lemma setup_tag_invariant (metadata_map : metadata) (audio_files selected : list string)
      (state state' : list (string * string) * list string) (tag : string)
      (c c' : console (W:=W)) :
  In tag selected ->
  setup_invariant selected state ->
  setup_tag percent metadata_map audio_files state tag c = (Returned state', c') ->
  setup_invariant selected state'
  /\ (forall t, In t state.2 -> In t state'.2)
  /\ (tag <> "cover" -> in_list tag GLOBAL_TAGS = false -> In tag state'.2).
Proof.
  intros Hsel [Hper Hglob]. destruct state as [g p]. unfold setup_tag.
  destruct (String.eqb_spec tag "cover") as [Hcover|Hcover].
  { intros [= <- _]. split; [split; assumption|]. split; [auto | contradiction]. }
  intros (_ & c1 & _ & H)%io_bind_returned.
  destruct (in_list tag GLOBAL_TAGS) eqn:Hg.
  - apply io_bind_returned in H as (_ & c2 & _ & H).
    apply io_bind_returned in H as (choice & c3 & _ & H).
    destruct (String.eqb choice "g").
    + apply io_bind_returned in H as (line & c4 & _ & H).
      destruct (String.eqb_spec (Py.strip Py.isspace line) "") as [Hblank|Hblank];
        injection H as <- _.
      * split; [split; assumption|]. split; [auto | discriminate].
      * split; [|split; [auto | discriminate]]. split; [exact Hper|].
        intros t v [[-> ->]|Hin]%dict_set_In; [|apply Hglob; exact Hin].
        split; [exact Hsel|]. split; [apply in_list_In; exact Hg | exact Hblank].
    + destruct (String.eqb choice "i"); injection H as <- _.
      * split; [|split; [intros t Ht; apply in_or_app; left; exact Ht | discriminate]].
        split; [|exact Hglob]. cbn [snd]. intros t [Ht|[<-|[]]]%in_app_or;
          [apply Hper; exact Ht | split; assumption].
      * split; [split; assumption|]. split; [auto | discriminate].
  - injection H as <- _.
    split; [|split; [intros t Ht; apply in_or_app; left; exact Ht
                    |intros _ _; apply in_or_app; right; left; reflexivity]].
    split; [|exact Hglob]. cbn [snd]. intros t [Ht|[<-|[]]]%in_app_or;
      [apply Hper; exact Ht | split; assumption].
Qed.

Lemma setup_tags_invariant (metadata_map : metadata) (audio_files selected : list string)
      (tags : list string) :
  forall (state state' : list (string * string) * list string) (c c' : console (W:=W)),
  (forall t, In t tags -> In t selected) ->
  setup_invariant selected state ->
  setup_tags percent metadata_map audio_files tags state c = (Returned state', c') ->
  setup_invariant selected state'
  /\ (forall t, In t state.2 -> In t state'.2)
  /\ (forall t, In t tags -> t <> "cover" -> in_list t GLOBAL_TAGS = false ->
                In t state'.2).
Proof.
  induction tags as [|tag tags IH]; intros state state' c c' Hsub Hinv; cbn [setup_tags].
  - intros [= <- _]. split; [exact Hinv|]. split; [auto | intros t []].
  - intros (state1 & c1 & H1 & H)%io_bind_returned.
    destruct (setup_tag_invariant _ _ _ _ _ _ _ _ (Hsub tag (or_introl eq_refl)) Hinv H1)
      as (Hinv1 & Hgrow1 & Hdone1).
    destruct (IH _ _ _ _ (fun t Ht => Hsub t (or_intror Ht)) Hinv1 H)
      as (Hinv' & Hgrow & Hdone).
    split; [exact Hinv'|]. split; [auto|].
    intros t [<-|Ht] Hcover Hglobal; [apply Hgrow, Hdone1; assumption | auto].
Qed.

(** X9: what [setup_menu] returns.  The selection is not empty and
    consists of canonical tags; the tags to ask for file by file are
    selected tags other than cover; the global values belong to selected
    tags of [GLOBAL_TAGS] and are never empty; and every selected tag
    that is neither cover nor in [GLOBAL_TAGS] is asked for file by
    file. *)
Theorem setup_menu_returns (audio_files selected_tags per_file_tags : list string)
        (global_values : list (string * string)) (c c' : console (W:=W)) :
  setup_menu os_of percent audio_files c
  = (Returned (selected_tags, global_values, per_file_tags), c') ->
  selected_tags <> []
  /\ (forall tag, In tag selected_tags -> In tag canonical_tags)
  /\ (forall tag, In tag per_file_tags -> In tag selected_tags /\ tag <> "cover")
  /\ (forall tag value, In (tag, value) global_values ->
        In tag selected_tags /\ In tag GLOBAL_TAGS /\ value <> "")
  /\ (forall tag, In tag selected_tags -> tag <> "cover" ->
        in_list tag GLOBAL_TAGS = false -> In tag per_file_tags).
Proof.
  unfold setup_menu. intros H.
  do 5 apply io_bind_returned in H as (_ & ? & _ & H).
  apply io_bind_returned in H as (sel & c6 & Hsel & H).
  apply io_bind_returned in H as (metadata_map & c7 & _ & H).
  apply io_bind_returned in H as (state & c8 & Hstate & H).
  injection H as <- <- <- _.
  apply input_until_returned in Hsel as (line & _ & Hline).
  unfold selection in Hline.
  destruct (chosen_tags (split_ws (Py.strip Py.isspace line))) as [|t ts] eqn:Hchosen;
    [discriminate|]. injection Hline as <-.
  destruct (setup_tags_invariant _ _ (t :: ts) (t :: ts) _ _ _ _ (fun _ H => H)
              (setup_invariant_start _) Hstate)
    as ((Hper & Hglob) & _ & Hdone).
  split; [discriminate|]. split; [|split; [exact Hper|split; [exact Hglob | exact Hdone]]].
  intros tag Htag. apply (chosen_tags_canonical (split_ws (Py.strip Py.isspace line))).
  rewrite Hchosen. exact Htag.
Qed.

End SessionProperties.

(** Splits a bind on the outcome of its first action. *)
Ltac bind_cases H :=
  let a := fresh "a" in
  let e := fresh "e" in
  let c1 := fresh "c" in
  let Hm := fresh "Hm" in
  unfold io_bind in H at 1;
  match type of H with
  | match ?m with _ => _ end = _ =>
      destruct m as [[a|e|] c1] eqn:Hm;
      [| first [discriminate H | injection H as <- <-]
       | first [discriminate H | injection H as <- <-]]
  end.

Section EditProperties.

Context {W : Type}.
Variable os_of : W -> OS.
Variable save_audio : W -> string -> handle -> result W.

Lemma load_console (filepath : string) (c : console (W:=W)) :
  exists audio printed,
    load os_of filepath c = (Returned audio, write printed c)
    /\ load_audio_file (os_of (world c)) filepath = (audio, printed).
Proof.
  unfold load. destruct (load_audio_file (os_of (world c)) filepath) as [audio printed].
  eauto.
Qed.

Lemma set_tag_console (audio : handle) (tag value filepath : string) (c : console (W:=W)) :
  set_tag audio tag value filepath c
  = (Returned (set_tag_value audio tag value filepath).1.2,
     write (set_tag_value audio tag value filepath).2 c).
Proof.
  unfold set_tag. destruct (set_tag_value audio tag value filepath) as [[b a] out].
  reflexivity.
Qed.

(** The loops of the first pass read nothing. *)
Lemma apply_values_stdin (items : list (string * string)) (filepath : string) :
  forall (audio : handle) (c c' : console (W:=W)) r,
  apply_values audio items filepath c = (r, c') -> stdin c' = stdin c.
Proof.
  induction items as [|[tag val] items IH]; intros audio c c' r; cbn [apply_values].
  - intros [= _ <-]. reflexivity.
  - unfold io_bind. rewrite set_tag_console. intros H. rewrite (IH _ _ _ _ H). reflexivity.
Qed.

Lemma save_stdin (filepath : string) (audio : handle) (c c' : console (W:=W)) r :
  save save_audio filepath audio c = (r, c') -> stdin c' = stdin c.
Proof.
  unfold save. destruct (save_audio (world c) filepath audio); intros [= _ <-]; reflexivity.
Qed.

Lemma apply_global_stdin (global_values : list (string * string)) (audio_files : list string) :
  forall (c c' : console (W:=W)) r,
  apply_global os_of save_audio audio_files global_values c = (r, c') ->
  stdin c' = stdin c.
Proof.
  induction audio_files as [|p files IH]; intros c c' r; cbn [apply_global].
  - intros [= _ <-]. reflexivity.
  - destruct (load_console p c) as (audio & printed & Hload & _).
    unfold io_bind at 1. rewrite Hload.
    assert (forall r c', io_bind (apply_values audio global_values p)
                           (fun audio' => io_bind (save save_audio p audio')
                              (fun _ => apply_global os_of save_audio files global_values))
                           (write printed c) = (r, c') -> stdin c' = stdin c) as Hrest.
    { clear r c'. intros r c' H. bind_cases H.
      - apply apply_values_stdin in Hm. cbn [stdin write] in Hm. bind_cases H.
        + apply save_stdin in Hm0. apply IH in H. congruence.
        + apply save_stdin in Hm0. congruence.
        + apply save_stdin in Hm0. congruence.
      - apply apply_values_stdin in Hm. exact Hm.
      - apply apply_values_stdin in Hm. exact Hm. }
    destruct audio; try exact (Hrest r c'). intros H. apply IH in H. exact H.
Qed.

Lemma ask_values_returned (tags : list string) (path : string) :
  forall (audio audio' : handle) (modified modified' : bool) (c c' : console (W:=W)),
  ask_values audio modified tags path c = (Returned (audio', modified'), c') ->
  exists used, stdin c = used ++ stdin c'.
Proof.
  induction tags as [|tag tags IH]; intros audio audio' modified modified' c c';
    cbn [ask_values].
  - intros [= _ _ <-]. exists []. reflexivity.
  - unfold io_bind at 1, input.
    destruct (stdin c) as [|line rest] eqn:Hin; [discriminate|].
    destruct (String.eqb (Py.strip Py.isspace line) "").
    + intros H. apply IH in H as (used & Hused). cbn [stdin] in Hused.
      exists (line :: used). rewrite Hused. reflexivity.
    + unfold io_bind. rewrite set_tag_console. intros H.
      apply IH in H as (used & Hused). cbn [stdin write] in Hused.
      exists (line :: used). rewrite Hused. reflexivity.
Qed.

Lemma Forall_suffix {A} (P : A -> Prop) (used l : list A) :
  Forall P (used ++ l) -> Forall P l.
Proof. intros H. apply Forall_app in H. tauto. Qed.

(** The counters of the per-file loop: each file adds at most one, and
    exactly one unless the user quits. *)
Lemma edit_files_tally (per_file_tags : list string) (total : nat) (files : list string) :
  forall (idx : nat) (st st' : stats) (c c' : console (W:=W)),
  edit_files os_of save_audio total idx files per_file_tags st c = (Returned st', c') ->
  (tally st <= tally st' <= tally st + length files)%nat
  /\ (Forall (fun line => quits line = false) (stdin c) ->
      tally st' = (tally st + length files)%nat).
Proof.
  induction files as [|path files IH]; intros idx st st' c c'; cbn [edit_files length].
  - intros [= <- _]. split; [lia | intros _; lia].
  - destruct (load_console path c) as (audio & printed & Hload & _).
    unfold io_bind at 1. rewrite Hload.
    assert (forall st1, tally st1 = S (tally st) ->
              edit_files os_of save_audio total (S idx) files per_file_tags st1
                         (write printed c) = (Returned st', c') ->
              (tally st <= tally st' <= tally st + S (length files))%nat
              /\ (Forall (fun line => quits line = false) (stdin c) ->
                  tally st' = (tally st + S (length files))%nat)) as Hfailed.
    { intros st1 Hst1 H. apply IH in H as [Hle Heq]. split; [lia|].
      intros Hq. rewrite (Heq Hq). lia. }
    assert (io_bind
              (print (nl +:+ "[" +:+ str_nat idx +:+ "/" +:+ str_nat total
                      +:+ "] File: " +:+ basename path))
              (fun _ =>
               io_bind (fun c => (Returned tt, write (current_lines audio per_file_tags path) c))
               (fun _ =>
               io_bind (print "Options: [Enter] to edit | [s] skip | [q] quit") (fun _ =>
               io_bind (input "Action: ") (fun line =>
               let action := Py.lower (Py.strip Py.isspace line) in
               if String.eqb action "q" then io_ret st
               else if String.eqb action "s" then
                 edit_files os_of save_audio total (S idx) files per_file_tags
                   {| processed := processed st; skipped := skipped st + 1;
                      failed := failed st |}
               else
                 io_bind (ask_values audio false per_file_tags path)
                 (fun '(audio', modified) =>
                 if modified : bool then
                   io_bind (save save_audio path audio') (fun _ =>
                   edit_files os_of save_audio total (S idx) files per_file_tags
                     {| processed := processed st + 1; skipped := skipped st;
                        failed := failed st |})
                 else
                   edit_files os_of save_audio total (S idx) files per_file_tags
                     {| processed := processed st; skipped := skipped st + 1;
                        failed := failed st |})))))
              (write printed c) = (Returned st', c') ->
            (tally st <= tally st' <= tally st + S (length files))%nat
            /\ (Forall (fun line => quits line = false) (stdin c) ->
                tally st' = (tally st + S (length files))%nat)) as Hloaded.
    { unfold io_bind at 1 2 3 4, print, input. cbn [stdin write stdout world].
      destruct (stdin c) as [|line rest] eqn:Hin; [discriminate|].
      cbv zeta. fold (quits line).
      destruct (quits line) eqn:Hquit.
      - intros [= <- _]. split; [lia|]. intros Hq. inversion Hq as [|? ? Hline _].
        rewrite Hline in Hquit. discriminate.
      - destruct (String.eqb (Py.lower (Py.strip Py.isspace line)) "s").
        + intros H. apply IH in H as [Hle Heq]. unfold tally in *. cbn in *.
          split; [lia|]. intros Hq. inversion Hq as [|? ? _ Hrest]. rewrite (Heq Hrest). lia.
        + intros H. bind_cases H. destruct a as [audio' modified].
          apply ask_values_returned in Hm as (used & Hused). cbn [stdin] in Hused.
          destruct modified.
          * bind_cases H. pose proof (save_stdin _ _ _ _ _ Hm) as Hsave.
            apply IH in H as [Hle Heq]. unfold tally in *. cbn in *.
            split; [lia|]. intros Hq. inversion Hq as [|? ? _ Hrest].
            rewrite Heq; [lia|]. rewrite Hsave. rewrite Hused in Hrest.
            exact (Forall_suffix _ _ _ Hrest).
          * apply IH in H as [Hle Heq]. unfold tally in *. cbn in *.
            split; [lia|]. intros Hq. inversion Hq as [|? ? _ Hrest].
            rewrite Heq; [lia|]. rewrite Hused in Hrest.
            exact (Forall_suffix _ _ _ Hrest). }
    destruct audio; try exact Hloaded.
    apply Hfailed. unfold tally. cbn. lia.
Qed.

(** X10: the summary of [edit_audio_files].  When the function comes to
    its summary, the three counters it prints add up to at most the
    number of files, and to exactly that number if no line typed asks to
    quit: every file is then counted once, as processed, skipped or
    failed. *)
Theorem edit_audio_files_summary
        (audio_files selected_tags per_file_tags : list string)
        (global_values : list (string * string)) (c c' : console (W:=W)) :
  audio_files <> [] -> per_file_tags <> [] ->
  edit_audio_files os_of save_audio audio_files selected_tags global_values per_file_tags c
  = (Returned tt, c') ->
  exists before st,
    stdout c' = before ++ summary audio_files global_values st
    /\ (tally st <= length audio_files)%nat
    /\ (Forall (fun line => quits line = false) (stdin c) ->
        tally st = length audio_files).
Proof.
  intros Hfiles Htags. unfold edit_audio_files.
  destruct audio_files as [|p files]; [contradiction|].
  destruct per_file_tags as [|t tags]; [contradiction|].
  intros H. bind_cases H. bind_cases H. injection H as <-.
  assert (stdin c0 = stdin c) as Hstdin.
  { destruct global_values as [|g gs]; [injection Hm as _ <-; reflexivity|].
    exact (apply_global_stdin _ _ _ _ _ Hm). }
  apply edit_files_tally in Hm0 as [Hle Heq]. rewrite Hstdin in Heq.
  exists (stdout c1), a0. split; [reflexivity|].
  unfold tally in *. cbn in Hle, Heq |- *. split; [lia | exact Heq].
Qed.

End EditProperties.

Section EmbedProperties.

Context {W : Type}.
Variable os_of : W -> OS.
Variable save_audio : W -> string -> handle -> result W.

Lemma load_audio_file_class (os : OS) (filepath : string) :
  opens_its_class os ->
  (load_audio_file os filepath).1 = NoneObject
  \/ class_of (load_audio_file os filepath).1 = loader (ext_of filepath).
Proof.
  intros Hos. unfold load_audio_file.
  destruct (loader (ext_of filepath)) as [cls|]; [|left; reflexivity].
  destruct (open_audio os cls filepath) as [a|e] eqn:Hopen; [|left; reflexivity].
  right. exact (Hos _ _ _ Hopen).
Qed.

(** No object loaded for an Ogg, Opus or ASF path has the picture
    methods. *)
Lemma embed_cover_no_pictures (os : OS) (fpath img_data : string) :
  opens_its_class os ->
  In (ext_of fpath) [".ogg"; ".opus"; ".wma"] ->
  exists e, embed_cover (load_audio_file os fpath).1 fpath img_data = Raise e.
Proof.
  intros Hos Hext. pose proof (load_audio_file_class os fpath Hos) as Hclass.
  unfold embed_cover.
  destruct (load_audio_file os fpath).1 as [| | | | tags pics | | |];
    destruct Hext as [Hext|[Hext|[Hext|[]]]]; rewrite <- Hext in *; cbn in *;
    try (eexists; reflexivity);
    destruct Hclass as [Hclass|Hclass]; discriminate.
Qed.

Lemma embed_cover_unhandled (audio : handle) (fpath img_data : string) :
  in_list (ext_of fpath) [".mp3"; ".flac"; ".m4a"; ".ogg"; ".opus"; ".wma"] = false ->
  embed_cover audio fpath img_data = Ok audio.
Proof.
  unfold embed_cover, in_list. cbn [existsb].
  repeat match goal with
         | |- context [String.eqb ?a ?b] => destruct (String.eqb a b); try discriminate
         end.
  reflexivity.
Qed.

Lemma embed_files_raises (files : list string) (img_data fpath : string) :
  (forall w, opens_its_class (os_of w)) ->
  In fpath files ->
  In (ext_of fpath) [".ogg"; ".opus"; ".wma"] ->
  forall c : console (W:=W),
  exists e c', embed_files os_of save_audio files img_data c = (Raised e, c').
Proof.
  intros Hos Hin Hext. induction files as [|f files IH]; [destruct Hin|].
  intros c. cbn [embed_files]. unfold io_bind at 1, load.
  pose proof (embed_cover_no_pictures (os_of (world c)) f img_data (Hos _)) as Hhere.
  destruct (load_audio_file (os_of (world c)) f) as [audio printed]. cbn [fst] in Hhere.
  destruct (embed_cover audio f img_data) as [audio'|e] eqn:Hembed; [|eauto].
  destruct Hin as [->|Hin].
  { destruct (Hhere Hext) as (e & He). discriminate. }
  unfold io_bind.
  destruct ((if in_list (ext_of f) [".mp3"; ".flac"; ".m4a"; ".ogg"; ".opus"; ".wma"]
             then save save_audio f audio' else io_ret tt) (write printed c))
    as [[[]|e|] c1] eqn:Hsave.
  - exact (IH Hin c1).
  - eauto.
  - exfalso. destruct (in_list _ _); [|discriminate].
    unfold save in Hsave. destruct (save_audio _ _ _); discriminate.
Qed.

(** X11: a folder with an Ogg, Opus or WMA file.  Whenever the list of
    files holds a path with one of these extensions, the embedding loop
    ends in an exception that nothing catches (at that file, if not
    before): the objects mutagen builds for them have no
    [clear_pictures], so the closing line is never printed. *)
Theorem embed_into_files_raises (audio_files : list string) (img_data fpath : string)
        (c : console (W:=W)) :
  (forall w, opens_its_class (os_of w)) ->
  In fpath audio_files ->
  In (ext_of fpath) [".ogg"; ".opus"; ".wma"] ->
  exists e c', embed_into_files os_of save_audio audio_files img_data c = (Raised e, c').
Proof.
  intros Hos Hin Hext. unfold embed_into_files, io_bind.
  destruct (embed_files_raises audio_files img_data fpath Hos Hin Hext c) as (e & c' & ->).
  eauto.
Qed.

Lemma embed_files_wav (files : list string) (img_data : string) :
  Forall (fun fpath => ext_of fpath = ".wav") files ->
  forall c : console (W:=W),
  exists printed,
    embed_files os_of save_audio files img_data c = (Returned tt, write printed c).
Proof.
  induction 1 as [|f files Hf _ IH]; intros c; cbn [embed_files].
  - exists []. unfold io_ret, write. rewrite app_nil_r. destruct c; reflexivity.
  - unfold io_bind at 1, load.
    destruct (load_audio_file (os_of (world c)) f) as [audio printed].
    rewrite embed_cover_unhandled by (rewrite Hf; reflexivity).
    rewrite Hf. cbn [in_list existsb String.eqb Ascii.eqb Bool.eqb orb].
    unfold io_bind, io_ret. destruct (IH (write printed c)) as (printed' & ->).
    exists (printed ++ printed'). unfold write. cbn [stdin stdout world].
    rewrite app_assoc. reflexivity.
Qed.

(** X12: a folder of WAV files.  The embedding loop has no branch for
    [.wav]: it loads every file, stores and saves nothing, and the
    closing line still reports the cover as embedded into all of them. *)
Theorem embed_into_wav_files (audio_files : list string) (img_data : string)
        (c : console (W:=W)) :
  Forall (fun fpath => ext_of fpath = ".wav") audio_files ->
  exists printed,
    embed_into_files os_of save_audio audio_files img_data c
    = (Returned tt,
       {| stdin := stdin c;
          stdout := stdout c ++ printed
                    ++ ["Album cover embedded into " +:+ str_nat (length audio_files)
                        +:+ " file(s)."];
          world := world c |}).
Proof.
  intros Hwav. unfold embed_into_files, io_bind.
  destruct (embed_files_wav audio_files img_data Hwav c) as (printed & ->).
  exists printed. unfold print, write. cbn [stdin stdout world].
  rewrite app_assoc. reflexivity.
Qed.

End EmbedProperties.

Lemma embed_into_files_raises_witness :
  exists e c',
    embed_into_files disk_os disk_save ["/music/a.mp3"; "/music/c.ogg"] "jpeg"
                     (typing [] album) = (Raised e, c').
Proof.
  apply (embed_into_files_raises disk_os disk_save _ _ "/music/c.ogg").
  - intros w cls p a. cbn [disk_os open_audio].
    destruct (Py.dict_get w p) as [a'|]; [|discriminate].
    destruct (decide (class_of a' = Some cls)) as [Hcls|]; [|discriminate].
    intros [= <-]. exact Hcls.
  - right. left. reflexivity.
  - left. reflexivity.
Defined.

Lemma embed_into_wav_files_witness :
  exists printed,
    embed_into_files disk_os disk_save ["/music/d.wav"] "jpeg" (typing [] album)
    = (Returned tt,
       {| stdin := [];
          stdout := printed ++ ["Album cover embedded into 1 file(s)."];
          world := album |}).
Proof.
  apply (embed_into_wav_files disk_os disk_save ["/music/d.wav"] "jpeg" (typing [] album)).
  repeat constructor.
Defined.

Section BlankAnswers.

Context {W : Type}.
Variable os_of : W -> OS.
Variable save_audio : W -> string -> handle -> result W.

Lemma ask_values_blank (path : string) (tags : list string) :
  forall (audio : handle) (modified : bool) (c c' : console (W:=W)) r,
  Forall (fun line => blank line = true) (stdin c) ->
  ask_values audio modified tags path c = (r, c') ->
  world c' = world c
  /\ Forall (fun line => blank line = true) (stdin c')
  /\ ends_quietly r c'
  /\ (forall x, r = Returned x -> x = (audio, modified)).
Proof.
  induction tags as [|tag tags IH]; intros audio modified c c' r Hblank; cbn [ask_values].
  - intros [= <- <-]. repeat split; [exact Hblank | left; eauto | congruence].
  - unfold io_bind at 1, input. destruct (stdin c) as [|line rest] eqn:Hin.
    + intros [= <- <-]. cbn [stdin world write]. rewrite Hin.
      repeat split; [constructor | right; split; [reflexivity | exact Hin] | discriminate].
    + inversion Hblank as [|? ? Hline Hrest]. unfold blank in Hline. rewrite Hline.
      intros Hrun. apply IH in Hrun; [exact Hrun | exact Hrest].
Qed.

Lemma edit_files_blank (per_file_tags : list string) (total : nat) (files : list string) :
  forall (idx : nat) (st : stats) (c c' : console (W:=W)) r,
  Forall (fun line => blank line = true) (stdin c) ->
  edit_files os_of save_audio total idx files per_file_tags st c = (r, c') ->
  world c' = world c /\ ends_quietly r c'.
Proof.
  induction files as [|path files IH]; intros idx st c c' r Hblank; cbn [edit_files].
  - intros [= <- <-]. split; [reflexivity | left; eauto].
  - destruct (load_console os_of path c) as (audio & printed & Hload & _).
    unfold io_bind at 1. rewrite Hload.
    assert (forall st1,
              edit_files os_of save_audio total (S idx) files per_file_tags st1
                         (write printed c) = (r, c') ->
              world c' = world c /\ ends_quietly r c') as Hnone.
    { intros st1 H. apply IH in H; [exact H | exact Hblank]. }
    destruct audio; try exact (Hnone _);
      (unfold io_bind at 1 2 3 4, print, input; cbn [stdin write stdout world];
       destruct (stdin c) as [|line rest] eqn:Hin;
       [ intros [= <- <-]; split; [reflexivity | right; split; [reflexivity | exact Hin]] |];
       inversion Hblank as [|? ? Hline Hrest]; unfold blank in Hline;
       apply String.eqb_eq in Hline; cbv zeta; rewrite Hline;
       change (Py.lower "") with ""; cbn [String.eqb Ascii.eqb Bool.eqb];
       intros Hrun; bind_cases Hrun;
       [ destruct a as [audio' modified];
         apply ask_values_blank in Hm as (Hw & Hb & _ & Hsame); [|exact Hrest];
         specialize (Hsame _ eq_refl); injection Hsame as -> ->;
         apply IH in Hrun as [Hw' Hr]; [|exact Hb];
         split; [rewrite Hw'; exact Hw | exact Hr]
       | apply ask_values_blank in Hm as (_ & _ & [[? Hx]|[Hx _]] & _); [| |exact Hrest];
         discriminate Hx
       | apply ask_values_blank in Hm as (Hw & _ & [[? Hx]|[_ Hx]] & _); [| |exact Hrest];
         [discriminate Hx | split; [exact Hw | right; split; [reflexivity | exact Hx]]] ]).
Qed.

(** X13: pressing Enter at every prompt.  With no global values, when
    every line typed is blank, [edit_audio_files] saves nothing.  The
    run ends in one of two ways, and in both the files are as they
    were: it returns, or the lines typed run out and the [EOFError] of
    [input] leaves the function, every line having been read.  No other
    exception occurs. *)
Theorem edit_audio_files_blank_answers
        (audio_files selected_tags per_file_tags : list string)
        (c c' : console (W:=W)) (r : run unit) :
  Forall (fun line => blank line = true) (stdin c) ->
  edit_audio_files os_of save_audio audio_files selected_tags [] per_file_tags c = (r, c') ->
  world c' = world c
  /\ (r = Returned tt \/ (r = EndOfInput /\ stdin c' = [])).
Proof.
  intros Hblank. unfold edit_audio_files.
  destruct audio_files as [|p files]; [intros [= <- <-]; split; [reflexivity | left; reflexivity]|].
  unfold io_bind at 1, io_ret.
  destruct per_file_tags as [|t tags];
    [intros [= <- <-]; split; [reflexivity | left; reflexivity]|].
  intros H. bind_cases H.
  - injection H as <- <-. apply edit_files_blank in Hm as [Hw _]; [|exact Hblank].
    split; [exact Hw | left; reflexivity].
  - apply edit_files_blank in Hm as [_ [[? Hx]|[Hx _]]]; [| |exact Hblank]; discriminate Hx.
  - apply edit_files_blank in Hm as [Hw [[? Hx]|[_ Hx]]]; [| |exact Hblank];
      [discriminate Hx | split; [exact Hw | right; split; [reflexivity | exact Hx]]].
Qed.

End BlankAnswers.

Lemma edit_audio_files_blank_answers_witness :
  let run_short :=
    edit_audio_files disk_os disk_save ["/music/a.mp3"; "/music/b.m4a"]
      ["title"; "comment"] [] ["title"; "comment"] (typing [""; " "; ""; ""] album) in
  world run_short.2 = album
  /\ (run_short.1 = Returned tt \/ (run_short.1 = EndOfInput /\ stdin run_short.2 = [])).
Proof.
  intros run_short.
  apply (edit_audio_files_blank_answers disk_os disk_save
           ["/music/a.mp3"; "/music/b.m4a"] ["title"; "comment"] ["title"; "comment"]
           (typing [""; " "; ""; ""] album)).
  - repeat constructor.
  - apply surjective_pairing.
Defined.

(** Lowering the case of a path commutes with taking its extension. *)
Lemma lower_char_not_dot (x : ascii) :
  Ascii.eqb (Py.lower_char x) "." = Ascii.eqb x ".".
Proof. destruct x as [[] [] [] [] [] [] [] []]; vm_compute; reflexivity. Qed.

Lemma lower_char_not_sep (x : ascii) :
  Ascii.eqb (Py.lower_char x) "/" = Ascii.eqb x "/".
Proof. destruct x as [[] [] [] [] [] [] [] []]; vm_compute; reflexivity. Qed.

Lemma rfind_from_lower (c : ascii) (s : string) :
  (forall x, Ascii.eqb (Py.lower_char x) c = Ascii.eqb x c) ->
  forall i last, Py.rfind_from c (Py.lower s) i last = Py.rfind_from c s i last.
Proof.
  intros Hc. induction s as [|a s IH]; intros i last; cbn [Py.lower Py.rfind_from].
  - reflexivity.
  - rewrite Hc. apply IH.
Qed.

Lemma get_lower (s : string) :
  forall n, String.get n (Py.lower s) = Py.lower_char <$> String.get n s.
Proof.
  induction s as [|a s IH]; intros n; cbn [Py.lower String.get]; [reflexivity|].
  destruct n; [reflexivity | apply IH].
Qed.

Lemma has_non_dot_lower (p : string) (n : nat) :
  forall i, Py.has_non_dot (Py.lower p) i n = Py.has_non_dot p i n.
Proof.
  induction n as [|n IH]; intros i; cbn [Py.has_non_dot]; [reflexivity|].
  rewrite get_lower. destruct (String.get i p) as [c|]; cbn [fmap option_fmap option_map].
  - rewrite lower_char_not_dot, IH. reflexivity.
  - reflexivity.
Qed.

Lemma length_lower (s : string) : String.length (Py.lower s) = String.length s.
Proof. induction s as [|a s IH]; cbn [Py.lower String.length]; congruence. Qed.

Lemma substring_lower (s : string) :
  forall n m, String.substring n m (Py.lower s) = Py.lower (String.substring n m s).
Proof.
  induction s as [|a s IH]; intros n m.
  - destruct n, m; reflexivity.
  - destruct n as [|n]; [destruct m as [|m]|]; cbn [Py.lower String.substring].
    + reflexivity.
    + rewrite IH. reflexivity.
    + apply IH.
Qed.

Lemma splitext_lower (p : string) :
  (Py.splitext (Py.lower p)).2 = Py.lower (Py.splitext p).2.
Proof.
  unfold Py.splitext, Py.rfind.
  rewrite !rfind_from_lower by (apply lower_char_not_dot || apply lower_char_not_sep).
  rewrite has_non_dot_lower.
  destruct (_ && _); cbn [snd]; [|reflexivity].
  unfold Py.slice_from. rewrite length_lower. apply substring_lower.
Qed.

Section LocalImage.

Context {W : Type}.
Variable os_of : W -> OS.

Lemma local_image_answer_accepts (os : OS) (line : string) :
  local_image_answer os line
  = if image_path os line then inl (Py.strip Py.isspace line)
    else if isfile os (Py.strip Py.isspace line)
         then inr ["Unsupported image format. Try jpg/jpeg/png/bmp/gif."]
         else inr ["File not found. Try again."].
Proof.
  unfold local_image_answer, image_path, ext_of. cbv zeta.
  rewrite splitext_lower. unfold exists_, isfile.
  destruct (resolve os (Py.strip Py.isspace line)) as [[| |]|]; reflexivity.
Qed.

Lemma input_until_from_first {A} (prompt : string) (answer : string -> A + list string)
      (rejected rest : list string) (line : string) (a : A) :
  Forall (fun l => exists texts, answer l = inr texts) rejected ->
  answer line = inl a ->
  forall out, exists out',
    input_until_from prompt answer (rejected ++ line :: rest) out = (Returned a, rest, out').
Proof.
  intros Hrej Hline. induction Hrej as [|l rejected (texts & Hl) _ IH]; intros out;
    cbn [app input_until_from].
  - rewrite Hline. eauto.
  - rewrite Hl. apply IH.
Qed.

(** X14: the local image that is accepted.  The loop that asks for a
    local image returns the first line typed that, stripped, names a
    regular file with extension jpg, jpeg, png, bmp or gif in any letter
    case; the lines before it are consumed, those after it are left, and
    no file is touched. *)
Theorem ask_local_image_first (rejected rest : list string) (line : string)
        (c : console (W:=W)) :
  stdin c = rejected ++ line :: rest ->
  Forall (fun l => image_path (os_of (world c)) l = false) rejected ->
  image_path (os_of (world c)) line = true ->
  exists out,
    ask_local_image os_of c
    = (Returned (Py.strip Py.isspace line),
       {| stdin := rest; stdout := out; world := world c |}).
Proof.
  intros Hin Hrej Hline. unfold ask_local_image, input_until. rewrite Hin.
  destruct (input_until_from_first "Enter local image path: "
              (local_image_answer (os_of (world c))) rejected rest line
              (Py.strip Py.isspace line)) with (out := stdout c) as (out' & ->).
  - eapply Forall_impl; [exact Hrej|]. intros l Hl. cbv beta in Hl.
    rewrite local_image_answer_accepts, Hl. destruct (isfile _ _); eauto.
  - rewrite local_image_answer_accepts, Hline. reflexivity.
  - eauto.
Qed.

End LocalImage.

Lemma ask_local_image_first_witness :
  exists out,
    ask_local_image disk_os (typing ["cover.png"; "/music/a.mp3"; " /music/front.PNG "; "y"]
                                    album)
    = (Returned "/music/front.PNG", {| stdin := ["y"]; stdout := out; world := album |}).
Proof.
  apply (ask_local_image_first disk_os ["cover.png"; "/music/a.mp3"] ["y"]
           " /music/front.PNG "
           (typing ["cover.png"; "/music/a.mp3"; " /music/front.PNG "; "y"] album)).
  - reflexivity.
  - repeat constructor.
  - reflexivity.
Defined.

(** ** The global values of one file *)

(** Writing a text tag succeeds, reads back, and leaves the object in its
    class with a tag container. *)
Lemma set_text_tag (audio : handle) (tag v filepath : string) :
  loaded_as filepath audio ->
  (ext_of filepath = ".m4a" -> has_tags audio = true) ->
  storable filepath (tag, v) ->
  exists audio',
    set_tag_value audio tag v filepath = (true, audio', [])
    /\ (get_tag_value audio' tag filepath).1 = Some v
    /\ class_of audio' = class_of audio
    /\ has_tags audio' = true.
Proof.
  intros (cls & Hload & Hcls) Hmp4 (Htag & Hv & Hdate). cbn [fst snd] in Htag, Hv, Hdate.
  apply loader_Some in Hload.
  unfold set_tag_value, get_tag_value.
  destruct cls; destruct audio; try discriminate Hcls; unfold extension in Hload.
  - rewrite set_body_generic by (rewrite Hload; reflexivity).
    destruct (vc_set_then_get (match tags with Some t => t | None => [] end) tag v
                (text_tag_valid_key _ Htag)) as (d' & Hset & Hget).
    exists (FLACFile (Some d') pictures). unfold file_setitem, vc_assign.
    rewrite Hset. split; [reflexivity|]. split; [|split; reflexivity].
    rewrite get_body_generic by (rewrite Hload; reflexivity).
    rewrite (get_generic_first _ _ v []); [reflexivity | discriminate | exact Hget].
  - rewrite set_body_id3 by (rewrite Hload; reflexivity).
    destruct (id3_assign_lookup (ensure_id3 tags) tag v Htag Hv) as (c & f & Hc & Hf & Ht).
    { apply Hdate. rewrite Hload. reflexivity. }
    eexists. split; [reflexivity|]. split; [|split; reflexivity].
    rewrite get_body_id3 by (rewrite Hload; reflexivity).
    unfold get_id3. rewrite Hc, Hf, Ht. reflexivity.
  - specialize (Hmp4 Hload). destruct tags as [tags|]; [|discriminate Hmp4].
    rewrite set_body_mp4 by exact Hload.
    destruct (mp4_key_of_text_tag _ Htag) as (key & Hkey & Hne & Hnum).
    unfold set_mp4, mp4_rhs. rewrite Hkey, Hne, Hnum.
    cbn [mbind result_bind mp4_assign].
    eexists. split; [reflexivity|]. split; [|split; reflexivity].
    rewrite get_body_mp4 by exact Hload.
    unfold get_mp4. rewrite Hkey, Hne, Hnum. cbn [atoms].
    rewrite lookup_insert_eq. reflexivity.
  - rewrite set_body_generic by (rewrite Hload; reflexivity).
    destruct (vc_set_then_get tags tag v (text_tag_valid_key _ Htag)) as (d' & Hset & Hget).
    exists (OggVorbisFile d'). unfold file_setitem, vc_assign.
    rewrite Hset. split; [reflexivity|]. split; [|split; reflexivity].
    rewrite get_body_generic by (rewrite Hload; reflexivity).
    rewrite (get_generic_first _ _ v []); [reflexivity | discriminate | exact Hget].
  - rewrite set_body_generic by (rewrite Hload; reflexivity).
    destruct (vc_set_then_get tags tag v (text_tag_valid_key _ Htag)) as (d' & Hset & Hget).
    exists (OggOpusFile d'). unfold file_setitem, vc_assign.
    rewrite Hset. split; [reflexivity|]. split; [|split; reflexivity].
    rewrite get_body_generic by (rewrite Hload; reflexivity).
    rewrite (get_generic_first _ _ v []); [reflexivity | discriminate | exact Hget].
  - rewrite set_body_generic by (rewrite Hload; reflexivity).
    eexists. split; [reflexivity|]. split; [|split; reflexivity].
    rewrite get_body_generic by (rewrite Hload; reflexivity).
    rewrite (get_generic_first _ _ v []); [reflexivity | discriminate |].
    unfold file_getitem. cbn [file_setitem snd]. rewrite asf_set_then_get. reflexivity.
  - rewrite set_body_id3 by (rewrite Hload; reflexivity).
    destruct (id3_assign_lookup (ensure_id3 tags) tag v Htag Hv) as (c & f & Hc & Hf & Ht).
    { apply Hdate. rewrite Hload. reflexivity. }
    eexists. split; [reflexivity|]. split; [|split; reflexivity].
    rewrite get_body_id3 by (rewrite Hload; reflexivity).
    unfold get_id3. rewrite Hc, Hf, Ht. reflexivity.
Qed.

Lemma text_tags_lower (tag tag' : string) :
  In tag text_tags -> In tag' text_tags -> tag <> tag' -> Py.lower tag <> Py.lower tag'.
Proof.
  assert (forall t, In t text_tags -> Py.lower t = t) as Hlow.
  { intros t Ht. unfold text_tags in Ht. cbn [In] in Ht.
    destruct Ht as [<-|[<-|[<-|[<-|[<-|[<-|[<-|[]]]]]]]]; reflexivity. }
  intros Ht Ht' Hne. rewrite (Hlow _ Ht), (Hlow _ Ht'). exact Hne.
Qed.

Section GlobalValues.

Context {W : Type}.

Lemma apply_values_keeps (filepath tag' : string) (items : list (string * string)) :
  forall (audio audio' : handle) (c c' : console (W:=W)),
  apply_values audio items filepath c = (Returned audio', c') ->
  (forall item, In item items -> Py.lower item.1 <> Py.lower tag') ->
  (get_tag_value audio' tag' filepath).1 = (get_tag_value audio tag' filepath).1.
Proof.
  induction items as [|[tag v] items IH]; intros audio audio' c c'; cbn [apply_values].
  - intros [= <- _] _. reflexivity.
  - unfold io_bind. rewrite set_tag_console. intros Hrun Hother.
    rewrite (IH _ _ _ _ Hrun (fun item Hin => Hother item (or_intror Hin))).
    pose proof (Hother (tag, v) (or_introl eq_refl)) as Hne. cbn [fst] in Hne.
    assert (tag <> tag') as Hne' by (intros ->; apply Hne; reflexivity).
    rewrite !get_tag_value_value, set_tag_value_object.
    unfold get_tag_value_body, set_tag_value_body.
    destruct (in_list (ext_of filepath) [".mp3"; ".wav"]).
    + apply get_id3_after_set. exact Hne'.
    + destruct (String.eqb (ext_of filepath) ".m4a").
      * rewrite get_mp4_after_set by exact Hne'. reflexivity.
      * apply get_generic_after_set. exact Hne.
Qed.

(** X15: the global values of one file.  For an object loaded for its
    path (an [.m4a] one with a tag container), the loop that writes the
    global values ends without a warning, and the object it hands to
    [save] reads back every one of them -- when the values are printable
    ASCII for text tags, no tag occurs twice, and a date under [.mp3] or
    [.wav] is written the way a time stamp prints itself. *)
Theorem apply_values_readable (audio : handle) (filepath : string)
        (items : list (string * string)) (c : console (W:=W)) :
  loaded_as filepath audio ->
  (ext_of filepath = ".m4a" -> has_tags audio = true) ->
  NoDup (map fst items) ->
  Forall (storable filepath) items ->
  exists audio' c',
    apply_values audio items filepath c = (Returned audio', c')
    /\ stdout c' = stdout c
    /\ world c' = world c
    /\ (forall tag v, In (tag, v) items ->
          (get_tag_value audio' tag filepath).1 = Some v).
Proof.
  intros Hload Hmp4 Hdup Hitems. revert audio c Hload Hmp4 Hdup.
  induction Hitems as [|[tag v] items Hitem Hitems IH]; intros audio c Hload Hmp4 Hdup;
    cbn [apply_values].
  - exists audio, c. repeat split. intros tag v [].
  - destruct (set_text_tag audio tag v filepath Hload Hmp4 Hitem)
      as (audio1 & Hset & Hget & Hclass & Htags).
    unfold io_bind. rewrite set_tag_console, Hset. cbn [fst snd].
    inversion Hdup as [|? ? Hfresh Hdup']; subst.
    destruct (IH audio1 (write [] c)) as (audio' & c' & Hrun & Hout & Hworld & Hread).
    { destruct Hload as (cls & Hl & Hc). exists cls. split; [exact Hl | congruence]. }
    { intros _. exact Htags. }
    { exact Hdup'. }
    exists audio', c'. split; [exact Hrun|].
    split; [rewrite Hout; cbn [stdout write]; apply app_nil_r|].
    split; [exact Hworld|].
    intros tag' v' [[= <- <-]|Hin]; [|exact (Hread _ _ Hin)].
    rewrite (apply_values_keeps _ _ _ _ _ _ _ Hrun); [exact Hget|].
    intros [t w] Hin. cbn [fst]. apply text_tags_lower.
    + pose proof (proj1 (Stdlib.Lists.List.Forall_forall _ _) Hitems _ Hin) as (Ht & _).
      exact Ht.
    + destruct Hitem as (Ht & _). exact Ht.
    + intros ->. apply Hfresh. apply list_elem_of_In. apply (in_map fst) in Hin. exact Hin.
Qed.

End GlobalValues.

Lemma apply_values_readable_witness :
  exists audio' c',
    apply_values (MP3File None) [("artist", "Test Artist"); ("date", "2024-05")]
                 "/music/a.mp3" (typing [] album) = (Returned audio', c')
    /\ stdout c' = []
    /\ world c' = album
    /\ (forall tag v, In (tag, v) [("artist", "Test Artist"); ("date", "2024-05")] ->
          (get_tag_value audio' tag "/music/a.mp3").1 = Some v).
Proof.
  apply (apply_values_readable (MP3File None) "/music/a.mp3"
           [("artist", "Test Artist"); ("date", "2024-05")] (typing [] album)).
  - exists MP3. split; reflexivity.
  - intros H. vm_compute in H. discriminate H.
  - apply (bool_decide_unpack _). reflexivity.
  - constructor; [|constructor; [|constructor]].
    + split; [left; reflexivity | split; [vm_compute; reflexivity|]].
      intros _ H. discriminate H.
    + split; [do 5 right; left; reflexivity | split; [vm_compute; reflexivity|]].
      intros _ _. vm_compute. reflexivity.
Defined.

(** ** The properties at work *)

Lemma same_tree_refl (n : node) : same_tree n n.
Proof.
  induction n as [| | entries IH] using node_tree_ind; [constructor | constructor |].
  apply (same_dir entries entries); [|reflexivity].
  induction IH as [|[name n] entries Hn _ IHentries]; constructor; [|exact IHentries].
  split; [reflexivity | exact Hn].
Qed.

Lemma find_audio_files_listing_order_witness :
  find_audio_files srv_os "/srv/music" = find_audio_files srv_relisted "/srv/music".
Proof.
  apply find_audio_files_listing_order. split; [reflexivity|].
  intros p. cbn [resolve srv_os srv_relisted].
  destruct (String.eqb p "/srv/music").
  - apply (same_dir srv_music srv_music); [|apply Permutation_rev].
    repeat constructor; apply same_tree_refl.
  - destruct (String.eqb p "/etc/hostname"); constructor.
Defined.

Lemma setup_menu_returns_witness :
  let selected_tags := ["cover"; "albumartist"; "tracknumber"; "comment"] in
  let global_values := [("albumartist", "Test Artist")] in
  let per_file_tags := ["tracknumber"; "comment"] in
  selected_tags <> []
  /\ (forall tag, In tag selected_tags -> In tag canonical_tags)
  /\ (forall tag, In tag per_file_tags -> In tag selected_tags /\ tag <> "cover")
  /\ (forall tag value, In (tag, value) global_values ->
        In tag selected_tags /\ In tag GLOBAL_TAGS /\ value <> "")
  /\ (forall tag, In tag selected_tags -> tag <> "cover" ->
        in_list tag GLOBAL_TAGS = false -> In tag per_file_tags).
Proof.
  intros selected_tags global_values per_file_tags.
  apply (setup_menu_returns disk_os disk_percent two_tracks selected_tags per_file_tags
           global_values at_the_menu (setup_menu disk_os disk_percent two_tracks at_the_menu).2).
  vm_compute. reflexivity.
Defined.

Lemma edit_audio_files_summary_witness :
  exists before st,
    stdout (edit_audio_files disk_os disk_save two_tracks ["artist"; "title"]
              [("artist", "Test Artist")] ["title"] at_the_files).2
    = before ++ summary two_tracks [("artist", "Test Artist")] st
    /\ (tally st <= length two_tracks)%nat
    /\ (Forall (fun line => quits line = false) (stdin at_the_files) ->
        tally st = length two_tracks).
Proof.
  apply (edit_audio_files_summary disk_os disk_save two_tracks ["artist"; "title"] ["title"]
           [("artist", "Test Artist")] at_the_files).
  - discriminate.
  - discriminate.
  - vm_compute. reflexivity.
Defined.

(** ** The answers typed for one file *)

Lemma get_body_after_set (audio : handle) (tag value tag' filepath : string) :
  Py.lower tag <> Py.lower tag' ->
  value_of (get_tag_value_body (set_tag_value_body audio tag value filepath).2 tag' filepath)
  = value_of (get_tag_value_body audio tag' filepath).
Proof.
  intros Hne.
  assert (tag <> tag') as Hne' by (intros ->; apply Hne; reflexivity).
  unfold get_tag_value_body, set_tag_value_body.
  destruct (in_list (ext_of filepath) [".mp3"; ".wav"]).
  - apply get_id3_after_set. exact Hne'.
  - destruct (String.eqb (ext_of filepath) ".m4a").
    + rewrite get_mp4_after_set by exact Hne'. reflexivity.
    + apply get_generic_after_set. exact Hne.
Qed.

Lemma Forall2_impl_In {A B} (P Q : A -> B -> Prop) (l : list A) (k : list B) :
  Forall2 P l k -> (forall x y, In x l -> P x y -> Q x y) -> Forall2 Q l k.
Proof.
  induction 1 as [|x y l k Hxy _ IH]; intros Himpl; constructor.
  - apply Himpl; [left; reflexivity | exact Hxy].
  - apply IH. intros x' y' Hin. apply Himpl. right. exact Hin.
Qed.

Lemma answered_text_tags (filepath : string) (tags answers : list string) :
  Forall2 (answer_for filepath) tags answers -> forall t, In t tags -> In t text_tags.
Proof.
  induction 1 as [|tag line tags answers [Htag _] _ IH]; intros t; [intros []|].
  intros [<-|Ht]; [exact Htag | exact (IH t Ht)].
Qed.

Section Answers.

Context {W : Type}.

Lemma ask_values_keeps (filepath tag' : string) (tags : list string) :
  forall (audio audio' : handle) (modified modified' : bool) (c c' : console (W:=W)),
  ask_values audio modified tags filepath c = (Returned (audio', modified'), c') ->
  (forall tag, In tag tags -> Py.lower tag <> Py.lower tag') ->
  (get_tag_value audio' tag' filepath).1 = (get_tag_value audio tag' filepath).1.
Proof.
  induction tags as [|tag tags IH]; intros audio audio' modified modified' c c';
    cbn [ask_values].
  - intros [= <- _ _] _. reflexivity.
  - unfold io_bind at 1, input. destruct (stdin c) as [|line rest]; [discriminate|].
    intros Hrun Hother.
    pose proof (fun t Hin => Hother t (or_intror Hin)) as Hrest.
    destruct (String.eqb (Py.strip Py.isspace line) "").
    + exact (IH _ _ _ _ _ _ Hrun Hrest).
    + unfold io_bind in Hrun. rewrite set_tag_console in Hrun.
      rewrite (IH _ _ _ _ _ _ Hrun Hrest).
      rewrite !get_tag_value_value, set_tag_value_object.
      apply get_body_after_set. apply Hother. left. reflexivity.
Qed.

(** X16: the answers typed for one file.  For an object loaded for its
    path (an [.m4a] one with a tag container) and distinct text tags, the
    loop that asks for the new values consumes one line for each tag and
    changes no file; afterwards every tag answered with a storable value
    reads back that value, stripped, every tag answered with a blank line
    reads as before, and the flag [modified] is set exactly when it was
    set before or some answer is not blank. *)
Theorem ask_values_stores (audio : handle) (modified : bool) (filepath : string)
        (tags answers rest : list string) (c : console (W:=W)) :
  loaded_as filepath audio ->
  (ext_of filepath = ".m4a" -> has_tags audio = true) ->
  NoDup tags ->
  Forall2 (answer_for filepath) tags answers ->
  stdin c = answers ++ rest ->
  exists audio' c',
    ask_values audio modified tags filepath c
    = (Returned (audio', modified || existsb (fun line => negb (blank line)) answers), c')
    /\ stdin c' = rest
    /\ world c' = world c
    /\ Forall2 (reads filepath audio audio') tags answers.
Proof.
  intros Hload Hmp4 Hdup Hanswers. revert audio modified c Hload Hmp4 Hdup.
  induction Hanswers as [|tag line tags answers [Htag Hline] Hanswers IH];
    intros audio modified c Hload Hmp4 Hdup Hin; cbn [ask_values existsb].
  - exists audio, c. rewrite orb_false_r. repeat split; [exact Hin | constructor].
  - inversion Hdup as [|? ? Hfresh Hdup']; subst.
    assert (forall t, In t tags -> Py.lower t <> Py.lower tag) as Hothers.
    { intros t Ht. apply text_tags_lower; [|exact Htag|].
      - exact (answered_text_tags _ _ _ Hanswers t Ht).
      - intros ->. apply Hfresh, list_elem_of_In, Ht. }
    unfold io_bind at 1, input. rewrite Hin. cbn [app].
    destruct (blank line) eqn:Hblank; unfold blank in Hblank; rewrite Hblank; cbn [negb orb].
    + destruct (IH audio modified
                  {| stdin := answers ++ rest;
                     stdout := stdout c ++ ["  " +:+ title tag +:+ " "
                       +:+ bracketed (get_tag_value audio tag filepath).1 +:+ ": "];
                     world := world c |} Hload Hmp4 Hdup' eq_refl)
        as (audio' & c' & Hrun & Hstdin & Hworld & Hreads).
      exists audio', c'. split; [exact Hrun|]. split; [exact Hstdin|]. split; [exact Hworld|].
      constructor; [|exact Hreads].
      unfold reads, blank. rewrite Hblank.
      exact (ask_values_keeps _ _ _ _ _ _ _ _ _ Hrun Hothers).
    + destruct (set_text_tag audio tag (Py.strip Py.isspace line) filepath Hload Hmp4
                  (Hline eq_refl)) as (audio1 & Hset & Hget & Hclass & Htags).
      unfold io_bind. rewrite set_tag_console, Hset. cbn [fst snd].
      destruct (IH audio1 true
                  (write []
                     {| stdin := answers ++ rest;
                        stdout := stdout c ++ ["  " +:+ title tag +:+ " "
                          +:+ bracketed (get_tag_value audio tag filepath).1 +:+ ": "];
                        world := world c |}))
        as (audio' & c' & Hrun & Hstdin & Hworld & Hreads).
      { destruct Hload as (cls & Hl & Hc). exists cls. split; [exact Hl | congruence]. }
      { intros _. exact Htags. }
      { exact Hdup'. }
      { reflexivity. }
      exists audio', c'. rewrite orb_true_r. cbn [orb] in Hrun.
      split; [exact Hrun|]. split; [exact Hstdin|]. split; [exact Hworld|].
      constructor.
      * unfold reads, blank. rewrite Hblank.
        rewrite (ask_values_keeps _ _ _ _ _ _ _ _ _ Hrun Hothers). exact Hget.
      * apply (Forall2_impl_In _ _ _ _ Hreads). intros t l Ht. unfold reads.
        intros ->. destruct (blank l); [|reflexivity].
        rewrite !get_tag_value_value.
        replace audio1 with (set_tag_value audio tag (Py.strip Py.isspace line) filepath).1.2
          by (rewrite Hset; reflexivity).
        rewrite set_tag_value_object. apply get_body_after_set.
        intros Heq. exact (Hothers t Ht (eq_sym Heq)).
Qed.

End Answers.

Lemma ask_values_stores_witness :
  exists audio' c',
    ask_values (MP4File (Some {| atoms := ∅; covr := None |})) false
               ["title"; "genre"; "comment"] "/music/b.m4a"
               (typing [" Song B "; ""; "live"; "s"] album)
    = (Returned (audio', true), c')
    /\ stdin c' = ["s"]
    /\ world c' = album
    /\ Forall2 (reads "/music/b.m4a" (MP4File (Some {| atoms := ∅; covr := None |})) audio')
               ["title"; "genre"; "comment"] [" Song B "; ""; "live"].
Proof.
  apply (ask_values_stores (MP4File (Some {| atoms := ∅; covr := None |})) false
           "/music/b.m4a" ["title"; "genre"; "comment"] [" Song B "; ""; "live"] ["s"]
           (typing [" Song B "; ""; "live"; "s"] album)).
  - exists MP4. split; reflexivity.
  - intros _. reflexivity.
  - apply (bool_decide_unpack _). reflexivity.
  - constructor; [|constructor; [|constructor; [|constructor]]].
    + split; [do 3 right; left; reflexivity|]. intros _.
      split; [do 3 right; left; reflexivity | split; [vm_compute; reflexivity|]].
      intros Hext. vm_compute in Hext. discriminate Hext.
    + split; [do 4 right; left; reflexivity|]. intros Hblank.
      vm_compute in Hblank. discriminate Hblank.
    + split; [do 6 right; left; reflexivity|]. intros _.
      split; [do 6 right; left; reflexivity | split; [vm_compute; reflexivity|]].
      intros Hext. vm_compute in Hext. discriminate Hext.
  - reflexivity.
Defined.

(** ** A quoted directory path *)

Lemma rev_app_append (a b : string) : String.rev_app a b = String.rev_app a "" +:+ b.
Proof.
  revert b. induction a as [|x a IH]; intros b; [reflexivity|].
  cbn [String.rev_app]. rewrite (IH (String x b)), (IH (String x "")).
  rewrite append_assoc. reflexivity.
Qed.

Lemma rev_append (a b : string) : String.rev (a +:+ b) = String.rev b +:+ String.rev a.
Proof.
  induction a as [|x a IH].
  - cbn [append]. rewrite append_empty_r. reflexivity.
  - rewrite append_cons. unfold String.rev in *. cbn [String.rev_app].
    rewrite (rev_app_append (a +:+ b)), IH, (rev_app_append a (String x "")).
    apply append_assoc.
Qed.

Lemma lstrip_prefix (p : ascii -> bool) (pre s : string) :
  Py.all_chars p pre = true -> Py.lstrip p (pre +:+ s) = Py.lstrip p s.
Proof.
  induction pre as [|x pre IH]; [reflexivity|].
  cbn [Py.all_chars]. intros [Hx Hpre]%andb_true_iff.
  rewrite append_cons. cbn [Py.lstrip]. rewrite Hx. exact (IH Hpre).
Qed.

Lemma lstrip_all (p : ascii -> bool) (s : string) :
  Py.all_chars p s = true -> Py.lstrip p s = "".
Proof.
  intros H. rewrite <- (append_empty_r s). rewrite (lstrip_prefix _ _ _ H). reflexivity.
Qed.

Lemma rstrip_suffix (p : ascii -> bool) (s post : string) :
  Py.all_chars p post = true -> Py.rstrip p (s +:+ post) = Py.rstrip p s.
Proof.
  intros H. unfold Py.rstrip. rewrite rev_append, lstrip_prefix; [reflexivity|].
  unfold String.rev. rewrite all_chars_rev_app, H. reflexivity.
Qed.

(** Stripping does not see what it strips: characters of the stripped
    kind around a string make no difference. *)
Lemma strip_around (p : ascii -> bool) (pre s post : string) :
  Py.all_chars p pre = true -> Py.all_chars p post = true ->
  Py.strip p (pre +:+ s +:+ post) = Py.strip p s.
Proof.
  intros Hpre Hpost. unfold Py.strip. rewrite (lstrip_prefix _ _ _ Hpre).
  induction s as [|x s IH].
  - change ("" +:+ post) with post. rewrite (lstrip_all _ _ Hpost). reflexivity.
  - rewrite append_cons. cbn [Py.lstrip]. destruct (p x); [exact IH|].
    rewrite <- append_cons. apply rstrip_suffix. exact Hpost.
Qed.

Lemma strip_ends (p : ascii -> bool) (x y : ascii) (s : string) :
  p x = false -> p y = false ->
  Py.strip p (String x (s +:+ String y "")) = String x (s +:+ String y "").
Proof.
  intros Hx Hy. unfold Py.strip. cbn [Py.lstrip]. rewrite Hx.
  unfold Py.rstrip. rewrite <- append_cons, rev_append.
  change (String.rev (String y "")) with (String y "").
  change (String y "" +:+ String.rev (String x s)) with (String y (String.rev (String x s))).
  cbn [Py.lstrip]. rewrite Hy.
  change (String y (String.rev (String x s)))
    with (String.rev (String y "") +:+ String.rev (String x s)).
  rewrite <- rev_append, rev_rev. reflexivity.
Qed.

(** X17: a directory path typed in double quotes.  A path wrapped in one
    pair of double quotes, with any white space around them, gives the
    same files and the same messages as the path itself (taken without
    white space around it). *)
Theorem find_audio_files_quoted (os : OS) (before path after : string) :
  Py.all_chars Py.isspace before = true ->
  Py.all_chars Py.isspace after = true ->
  Py.strip Py.isspace path = path ->
  find_audio_files os (before +:+ String quote (path +:+ String quote "") +:+ after)
  = find_audio_files os path.
Proof.
  intros Hbefore Hafter Hpath.
  assert (search_root os (before +:+ String quote (path +:+ String quote "") +:+ after)
          = search_root os path) as Hroot.
  { unfold search_root. rewrite (strip_around _ _ _ _ Hbefore Hafter).
    rewrite strip_ends by reflexivity. rewrite Hpath.
    change (String quote (path +:+ String quote ""))
      with (String quote "" +:+ path +:+ String quote "").
    rewrite strip_around by reflexivity. reflexivity. }
  unfold find_audio_files. rewrite Hroot. reflexivity.
Qed.

Lemma find_audio_files_quoted_witness :
  find_audio_files srv_os (" " +:+ String quote ("/srv/music" +:+ String quote "") +:+ "  ")
  = find_audio_files srv_os "/srv/music".
Proof.
  apply find_audio_files_quoted; reflexivity.
Defined.
